(** * pepe: a portable multi-language preprocessor

    A shallow embedding of [pepe/__init__.py]: the preprocessing engine
    [preprocess] with its conditional state stack, the define table, the
    include mechanism with its recursion guard, and the content-type
    registry's [get_content_type].

    Conventions of the embedding.
    - A Python [dict] with string keys is a [gmap string _].  Where the
      source iterates over a dict ([sorted(defines, key=len)]) the
      iteration order, unspecified in Python 2, is the map's enumeration
      [map_to_list].
    - The list [states] is kept with its last element first: the head of
      the Rocq list is [states[-1]].
    - The output stream [fout] is the list of chunks passed to
      [fout.write], oldest first.
    - A raised exception is the [Raise] outcome of the [res] monad.  The
      recursion of [preprocess] into included files is bounded by a fuel
      argument; [Fuel] is the outcome of running out of it.
    - Regular-expression matching, [eval], [os.path] and the file system
      belong to the host: the engine is parametric in them (the
      class [Host]), and [Module Posix] gives concrete instances used on
      the sample inputs of [Module Demo]. *)

From Stdlib Require Import ZArith Lia List Ascii String.
From Stdlib Require Import DecimalString.
From stdpp Require Import base option list strings gmap fin_maps.
Import ListNotations.

Local Open Scope string_scope.
Local Open Scope list_scope.

(** ** Strings as Python [str] *)

Module Str.

Definition nl : string := String (ascii_of_nat 10) EmptyString.

(** the double-quote character *)
Definition dq : string := String (ascii_of_nat 34) EmptyString.

(** [s.startswith(p)] *)
Fixpoint startswith (p s : string) : bool :=
  match p, s with
  | EmptyString, _ => true
  | String a p', String b s' => if Ascii.eqb a b then startswith p' s' else false
  | String _ _, EmptyString => false
  end.

Fixpoint drop (n : nat) (s : string) : string :=
  match n, s with
  | O, _ => s
  | S n', String _ s' => drop n' s'
  | S _, EmptyString => EmptyString
  end.

Fixpoint take (n : nat) (s : string) : string :=
  match n, s with
  | O, _ => EmptyString
  | S n', String c s' => String c (take n' s')
  | S _, EmptyString => EmptyString
  end.

(** [s.endswith(p)] *)
Definition endswith (p s : string) : bool :=
  if Nat.leb (String.length p) (String.length s)
  then String.eqb (drop (String.length s - String.length p) s) p
  else false.

(** [s.find(p) != -1] *)
Fixpoint contains (p s : string) : bool :=
  if startswith p s then true
  else match s with
       | EmptyString => false
       | String _ s' => contains p s'
       end.

(** [c in s] for a single character *)
Fixpoint mem (c : ascii) (s : string) : bool :=
  match s with
  | EmptyString => false
  | String b s' => if Ascii.eqb c b then true else mem c s'
  end.

(** The scan of [s.replace(old, new)] for a non-empty [old]: [skip]
    counts the characters of the occurrence just replaced that are still
    to be passed over. *)
Fixpoint replace_from (old new : string) (skip : nat) (s : string) : string :=
  match s with
  | EmptyString => EmptyString
  | String c s' =>
      match skip with
      | S k => replace_from old new k s'
      | O => if startswith old s
             then new +:+ replace_from old new (String.length old - 1) s'
             else String c (replace_from old new O s')
      end
  end.

(** With an empty [old], Python inserts [new] before every character and
    at the end. *)
Fixpoint intersperse (new s : string) : string :=
  match s with
  | EmptyString => new
  | String c s' => new +:+ String c (intersperse new s')
  end.

(** [s.replace(old, new)] *)
Definition replace (old new s : string) : string :=
  match old with
  | EmptyString => intersperse new s
  | String _ _ => replace_from old new O s
  end.

(** [f.readlines()] on the text of a file: every line keeps its
    terminating newline, the last line may lack one. *)
Fixpoint readlines (s : string) : list string :=
  match s with
  | EmptyString => []
  | String c s' =>
      if Ascii.eqb c (ascii_of_nat 10) then nl :: readlines s'
      else match readlines s' with
           | [] => [String c EmptyString]
           | l :: ls => String c l :: ls
           end
  end.

(** The text a sequence of [write] calls leaves in the stream. *)
Definition concat (chunks : list string) : string :=
  fold_right String.append EmptyString chunks.

(** ASCII [s.lower()] *)
Definition lower_ascii (c : ascii) : ascii :=
  let n := nat_of_ascii c in
  if andb (Nat.leb 65 n) (Nat.leb n 90) then ascii_of_nat (n + 32) else c.

Fixpoint lower (s : string) : string :=
  match s with
  | EmptyString => EmptyString
  | String c s' => String (lower_ascii c) (lower s')
  end.

(** [str(n)] for a Python integer *)
Definition of_Z (z : Z) : string := NilEmpty.string_of_int (Z.to_int z).

End Str.

(** ** Python values, exceptions and outcomes *)

(** The objects a define can hold or an expression can produce.  [VObj]
    stands for any other object that is not a string (a float, a tuple,
    ...), by what the engine observes of it: its [str()] and its truth
    value. *)
Inductive value : Type :=
| VNone
| VBool (b : bool)
| VInt (n : Z)
| VStr (s : string)
| VObj (str : string) (truth : bool).

(** [str(v)] *)
Definition py_str (v : value) : string :=
  match v with
  | VNone => "None"
  | VBool true => "True"
  | VBool false => "False"
  | VInt n => Str.of_Z n
  | VStr s => s
  | VObj r _ => r
  end.

(** Truth value of [v] in a condition. *)
Definition truthy (v : value) : bool :=
  match v with
  | VNone => false
  | VBool b => b
  | VInt n => negb (Z.eqb n 0)
  | VStr s => negb (String.eqb s "")
  | VObj _ t => t
  end.

(** [class PreprocessorError(Exception)] with its four fields, and the
    built-in exceptions that can leave [preprocess]. *)
Inductive exn : Type :=
| PreprocessorError (error_message : string) (filename : option value)
                    (line_number : option value) (line : option string)
| KeyError (key : string)
| IOError (path : string)
| AttributeError.

Inductive res (A : Type) : Type :=
| Ok (a : A)
| Raise (e : exn)
| Fuel.
Arguments Ok {A} a.
Arguments Raise {A} e.
Arguments Fuel {A}.

Definition bind {A B : Type} (r : res A) (k : A -> res B) : res B :=
  match r with
  | Ok a => k a
  | Raise e => Raise e
  | Fuel => Fuel
  end.

Declare Scope res_scope.
Delimit Scope res_scope with res.
Notation "'let!' x ':=' r 'in' k" := (bind r (fun x => k))
  (at level 10, x name, r at level 100, k at level 200) : res_scope.
Local Open Scope res_scope.

(** What [eval] does with an expression: a value, or an [Exception]
    with its [str(ex)]. *)
Inductive eval_result : Type :=
| EvalOk (v : value)
| EvalExc (msg : string).

(** ** Directive statements

    The named groups of a match of one of the seven statement patterns
    [stmts] (lines 350-357). *)
Inductive cond_op : Type := OpIf | OpElif | OpIfdef | OpIfndef.

Inductive stmt : Type :=
| StCond (op : cond_op) (expr : string)
| StElse
| StEndif
| StError (error : string)
| StDefine (var : string) (val : option string)
| StUndef (var : string)
| StIncludeFile (fname : string)
| StIncludeVar (var : string).

Definition op_name (op : cond_op) : string :=
  match op with
  | OpIf => "if" | OpElif => "elif" | OpIfdef => "ifdef" | OpIfndef => "ifndef"
  end.

(** A comment delimiter of [_commentGroups]: a string, or a compiled
    regex given by its pattern. *)
Inductive cdelim : Type :=
| Lit (s : string)
| Re (pattern : string).

Definition comment_group : Type := list (cdelim * cdelim).

(** [_commentGroups] (lines 127-148) *)
Definition _commentGroups : list (string * comment_group) :=
  [ ("Python", [(Lit "#", Lit "")]);
    ("Perl", [(Lit "#", Lit "")]);
    ("PHP", [(Lit "/*", Lit "*/"); (Lit "//", Lit ""); (Lit "#", Lit "")]);
    ("Ruby", [(Lit "#", Lit "")]);
    ("Tcl", [(Lit "#", Lit "")]);
    ("Shell", [(Lit "#", Lit "")]);
    ("XML", [(Lit "<!--", Lit "-->"); (Lit "/*", Lit "*/"); (Lit "//", Lit "")]);
    ("HTML", [(Lit "<!--", Lit "-->"); (Lit "/*", Lit "*/"); (Lit "//", Lit "")]);
    ("Makefile", [(Lit "#", Lit "")]);
    ("JavaScript", [(Lit "/*", Lit "*/"); (Lit "//", Lit "")]);
    ("CSS", [(Lit "/*", Lit "*/")]);
    ("C", [(Lit "/*", Lit "*/")]);
    ("C++", [(Lit "/*", Lit "*/"); (Lit "//", Lit "")]);
    ("Java", [(Lit "/*", Lit "*/"); (Lit "//", Lit "")]);
    ("C#", [(Lit "/*", Lit "*/"); (Lit "//", Lit "")]);
    ("IDL", [(Lit "/*", Lit "*/"); (Lit "//", Lit "")]);
    ("Text", [(Lit "#", Lit "")]);
    ("Fortran", [(Re "^[a-zA-Z*$]\s*", Lit ""); (Lit "!", Lit "")]);
    ("TeX", [(Lit "%", Lit "")]) ].

Fixpoint assoc {A : Type} (k : string) (l : list (string * A)) : option A :=
  match l with
  | [] => None
  | (k', a) :: l' => if String.eqb k k' then Some a else assoc k l'
  end.

(** ** The host: regular expressions, [eval], [os.path], files *)

Class Host : Type := {
  (** the loop over the compiled patterns [stmtRes] built for a comment
      group (lines 358-373 and 403-408): the statement of the first
      pattern that matches the line *)
  stmt_match : comment_group -> string -> option stmt;
  (** [re.compile(pattern).search(s)] is not [None] *)
  re_search : string -> string -> bool;
  (** [eval(expr, {'defined': lambda v: v in defines}, defines)] *)
  py_eval : string -> gmap string value -> eval_result;
  (** [eval(val, {}, {})]; [None] when it raises *)
  py_eval_bare : string -> option value;
  (** [repr] of a list of strings *)
  py_repr : list string -> string;
  path_dirname : string -> string;
  path_basename : string -> string;
  path_join : string -> string -> string;
  path_normpath : string -> string;
  path_abspath : string -> string;
  path_exists : string -> bool;
  (** [open(path).read()]; [None] when the file cannot be opened *)
  file_read : string -> option string;
  (** [sys.platform.startswith("win")] *)
  platform_win : bool
}.

(** ** Content types *)

(** [class ContentTypesRegistry]: its three maps.  [regexMap] is keyed by
    compiled patterns; it is listed in the order [regexMap.items()]
    yields. *)
Record ContentTypesRegistry : Type := {
  suffixMap : gmap string string;
  regexMap : list (string * string);
  filenameMap : gmap string string
}.

(** [not contentType] for [contentType] a string or [None] *)
Definition unset (contentType : option string) : bool :=
  match contentType with
  | None => true
  | Some s => String.eqb s ""
  end.

(** [basename.split(".")[-1]] *)
Fixpoint after_last_dot (s : string) : string :=
  match s with
  | EmptyString => EmptyString
  | String c s' =>
      if Str.mem "."%char s' then after_last_dot s'
      else if Ascii.eqb c "."%char then s' else s
  end.

Section Registry.
Context {H : Host}.

(** the [for regex, ctype in self.regexMap.items()] loop *)
Fixpoint first_regex (rs : list (string * string)) (basename : string) : option string :=
  match rs with
  | [] => None
  | (regex, ctype) :: rs' =>
      if re_search regex basename then Some ctype else first_regex rs' basename
  end.

(** [ContentTypesRegistry.get_content_type] (lines 697-735) *)
Definition get_content_type (self : ContentTypesRegistry) (path : string)
  : res (option string) :=
  let basename := path_basename path in
  let contentType : option string := None in
  let contentType :=
    if unset contentType then
      match filenameMap self !! basename with
      | Some t => Some t
      | None => contentType
      end
    else contentType in
  let contentType :=
    if andb (unset contentType) (Str.mem "."%char basename) then
      let suffix := "." +:+ after_last_dot basename in
      let suffix := if platform_win then Str.lower suffix else suffix in
      match suffixMap self !! suffix with
      | Some t => Some t
      | None => contentType
      end
    else contentType in
  let contentType :=
    if unset contentType then
      match first_regex (regexMap self) basename with
      | Some t => Some t
      | None => contentType
      end
    else contentType in
  match file_read path with
  | None => Raise (IOError path)
  | Some content =>
      if Str.startswith "<?xml" content then Ok (Some "XML")
      else Ok contentType
  end.

End Registry.

(** ** The preprocessing engine *)

Inductive mode : Type := SKIP | EMIT.

(** A state is [(<emit-or-skip-lines-in-this-section>,
    <have-emitted-in-this-if-block>, <have-seen-'else'-in-this-if-block>)]. *)
Definition cond_state : Type := mode * bool * bool.

(** The arguments of [preprocess] that stay the same in nested calls. *)
Record options : Type := {
  should_keep_lines : bool;
  include_paths : list string;
  should_substitute : bool;
  content_types_registry : ContentTypesRegistry
}.

(** The objects the loop of [preprocess] works on: the dict [defines],
    the list [states], the stream [fout] and the list
    [_preprocessed_files]. *)
Record engine : Type := {
  defines : gmap string value;
  states : list cond_state;
  fout : list string;
  files : list string
}.

Definition set_defines (d : gmap string value) (e : engine) : engine :=
  {| defines := d; states := states e; fout := fout e; files := files e |}.
Definition set_states (st : list cond_state) (e : engine) : engine :=
  {| defines := defines e; states := st; fout := fout e; files := files e |}.
Definition write (chunk : string) (e : engine) : engine :=
  {| defines := defines e; states := states e; fout := fout e ++ [chunk]; files := files e |}.

(** [states and states[-1][0] == SKIP] *)
Definition top_is_skip (states : list cond_state) : bool :=
  match states with
  | (SKIP, _, _) :: _ => true
  | _ => false
  end.

(** [raise PreprocessorError(msg, defines['__FILE__'], defines['__LINE__'], line)]:
    the two lookups come first and can raise [KeyError]. *)
Definition located {A : Type} (msg : string) (line : option string)
    (defines : gmap string value) : res A :=
  match defines !! "__FILE__" with
  | None => Raise (KeyError "__FILE__")
  | Some f =>
      match defines !! "__LINE__" with
      | None => Raise (KeyError "__LINE__")
      | Some n => Raise (PreprocessorError msg (Some f) (Some n) line)
      end
  end.

(** [sorted(names, key=len)], a stable sort. *)
Fixpoint insert_by_len (x : string) (l : list string) : list string :=
  match l with
  | [] => [x]
  | y :: l' =>
      if Nat.ltb (String.length x) (String.length y) then x :: l
      else y :: insert_by_len x l'
  end.

Definition sorted_by_len (names : list string) : list string :=
  fold_left (fun acc x => insert_by_len x acc) names [].

(** The substitution loop (lines 539-543):
    [for name in reversed(sorted(defines, key=len)):
       sline = sline.replace(name, str(defines[name]))]. *)
Definition substitute (defines : gmap string value) (line : string) : string :=
  fold_left
    (fun sline name =>
       match defines !! name with
       | Some value => Str.replace name (py_str value) sline
       | None => sline
       end)
    (rev (sorted_by_len (map fst (map_to_list defines))))
    line.

Section Engine.
Context {H : Host}.

(** [_evaluate] (lines 232-256) *)
Definition _evaluate (expr : string) (defines : gmap string value) : res value :=
  match py_eval expr defines with
  | EvalOk rv => Ok rv
  | EvalExc msg =>
      let msg :=
        if andb (Str.startswith "name '" msg) (Str.endswith "' is not defined" msg)
        then
          let varName := Str.take (String.length msg - 6 - 16) (Str.drop 6 msg) in
          if Str.contains ("defined(" +:+ varName +:+ ")") expr
          then msg +:+ " (perhaps you want " +:+ Str.dq +:+ "defined('" +:+ varName
                   +:+ "')" +:+ Str.dq +:+ " instead of " +:+ Str.dq
                   +:+ "defined(" +:+ varName +:+ ")" +:+ Str.dq +:+ ")"
          else msg
        else if Str.startswith "invalid syntax" msg
        then "invalid syntax: '" +:+ expr +:+ "'"
        else msg in
      located msg None defines
  end.

(** The search for an included file (lines 441-449): the directory of
    the including file, then the include path. *)
Fixpoint first_existing (f : string) (dirs : list string) : option string :=
  match dirs with
  | [] => None
  | d :: dirs' =>
      let fname := path_normpath (path_join d f) in
      if path_exists fname then Some fname else first_existing f dirs'
  end.

(** A nested call of [preprocess]: input file, stream, defines and
    [_preprocessed_files] in, the last three out. *)
Definition nested : Type :=
  string -> list string -> gmap string value -> list string ->
  res (gmap string value * list string * list string).

Variable rec : nested.
Variable opts : options.
Variable cgs : comment_group.
Variable infile : string.

(** The [#include] branch once [f] is known (lines 441-456).  A value
    that is not a string has no [startswith], which [os.path.join]
    calls. *)
Definition do_include (f : value) (e : engine) : res engine :=
  match f with
  | VStr fs =>
      match first_existing fs (path_dirname infile :: include_paths opts) with
      | None =>
          Raise (PreprocessorError
                   ("could not find #include'd file " +:+ Str.dq +:+ fs +:+ Str.dq
                    +:+ " on include path: " +:+ py_repr (include_paths opts))
                   None None None)
      | Some fname =>
          let! r := rec fname (fout e) (defines e) (files e) in
          let '(d, out, pf) := r in
          Ok {| defines := d; states := states e; fout := out; files := pf |}
      end
  | _ => Raise AttributeError
  end.

(** The branch [if match:] of the loop body (lines 410-528): what the
    statement [m] matched on [line] does. *)
Definition exec_stmt (line : string) (m : stmt) (e : engine) : res engine :=
  match m with
  | StDefine var val =>
      if top_is_skip (states e) then Ok e
      else
        let v := match val with
                 | None => VNone
                 | Some s => match py_eval_bare s with
                             | Some v => v
                             | None => VStr s
                             end
                 end in
        Ok (set_defines (<[var := v]> (defines e)) e)
  | StUndef var =>
      if top_is_skip (states e) then Ok e
      else Ok (set_defines (delete var (defines e)) e)
  | StIncludeVar var =>
      if top_is_skip (states e) then Ok e
      else match defines e !! var with
           | None => Raise (KeyError var)
           | Some f => do_include f e
           end
  | StIncludeFile fname =>
      if top_is_skip (states e) then Ok e
      else do_include (VStr fname) e
  | StCond OpElif expr =>
      match states e with
      | [] => located "#elif stmt without leading #if stmt" (Some line) (defines e)
      | (_, emitted, seen_else) :: below =>
          if seen_else
          then located "illegal #elif after #else in same #if block" (Some line) (defines e)
          else if emitted then Ok (set_states ((SKIP, true, false) :: below) e)
          else if top_is_skip below then Ok (set_states ((SKIP, false, false) :: below) e)
          else
            let! v := _evaluate expr (defines e) in
            if truthy v then Ok (set_states ((EMIT, true, false) :: below) e)
            else Ok (set_states ((SKIP, false, false) :: below) e)
      end
  | StCond op expr =>
      let expr := match op with
                  | OpIfdef => "defined('" +:+ expr +:+ "')"
                  | OpIfndef => "not defined('" +:+ expr +:+ "')"
                  | _ => expr
                  end in
      let r :=
        if top_is_skip (states e) then Ok (set_states ((SKIP, false, false) :: states e) e)
        else
          let! v := _evaluate expr (defines e) in
          if truthy v then Ok (set_states ((EMIT, true, false) :: states e) e)
          else Ok (set_states ((SKIP, false, false) :: states e) e) in
      match r with
      | Raise (KeyError _) =>
          located ("use of undefined variable in #" +:+ op_name op +:+ " stmt")
                  (Some line) (defines e)
      | _ => r
      end
  | StElse =>
      match states e with
      | [] => located "#else stmt without leading #if stmt" (Some line) (defines e)
      | (_, emitted, seen_else) :: below =>
          if seen_else
          then located "illegal #else after #else in same #if block" (Some line) (defines e)
          else if emitted then Ok (set_states ((SKIP, true, true) :: below) e)
          else if top_is_skip below then Ok (set_states ((SKIP, false, true) :: below) e)
          else Ok (set_states ((EMIT, true, true) :: below) e)
      end
  | StEndif =>
      match states e with
      | [] => located "#endif stmt without leading #ifstmt" (Some line) (defines e)
      | _ :: below => Ok (set_states below e)
      end
  | StError error =>
      if top_is_skip (states e) then Ok e
      else located ("#error: " +:+ error) (Some line) (defines e)
  end.

(** The [else:] branch of the loop body (lines 533-553): a content
    line. *)
Definition emit_line (line : string) (e : engine) : res engine :=
  match states e with
  | [] => located "superfluous #endif before this line" None (defines e)
  | (EMIT, _, _) :: _ =>
      let sline := if should_substitute opts then substitute (defines e) line else line in
      Ok (write sline e)
  | (SKIP, _, _) :: _ =>
      if should_keep_lines opts then Ok (write Str.nl e) else Ok e
  end.

(** One iteration of [for line in lines] (lines 395-553); [lineNum] is
    the counter after its increment. *)
Definition process_line (lineNum : Z) (line : string) (e : engine) : res engine :=
  let e := set_defines (<["__LINE__" := VInt lineNum]> (defines e)) e in
  match stmt_match cgs line with
  | Some m =>
      let! e := exec_stmt line m e in
      if should_keep_lines opts then Ok (write Str.nl e) else Ok e
  | None => emit_line line e
  end.

(** The loop [for line in lines], entered with the counter at
    [lineNum]. *)
Fixpoint run_lines (lines : list string) (lineNum : Z) (e : engine) : res engine :=
  match lines with
  | [] => Ok e
  | line :: rest =>
      let! e := process_line (lineNum + 1) line e in
      run_lines rest (lineNum + 1) e
  end.

(** The check after the loop (lines 554-564). *)
Definition finish (e : engine) : res (gmap string value * list string * list string) :=
  if Nat.ltb 1 (length (states e)) then located "unterminated #if block" None (defines e)
  else if Nat.ltb (length (states e)) 1
       then located "superfluous #endif on or before this line" None (defines e)
       else Ok (defines e, fout e, files e).

End Engine.

(** The part of [preprocess] before the loop (lines 309-394): the
    recursion guard, the content type and its comment group, the lines of
    the input and the objects the loop starts with. *)
Definition enter {H : Host} (opts : options) (content_type : option string)
    (infile : string) (fout : list string) (defines : gmap string value)
    (_preprocessed_files : list string)
  : res (comment_group * list string * engine) :=
  let absInfile := path_normpath (path_abspath infile) in
  if decide (absInfile ∈ _preprocessed_files)
  then Raise (PreprocessorError ("detected recursive #include of '" +:+ infile +:+ "'")
                                None None None)
  else
    let _preprocessed_files := _preprocessed_files ++ [path_abspath infile] in
    let! content_type :=
      match content_type with
      | Some t => Ok t
      | None =>
          let! t := get_content_type (content_types_registry opts) infile in
          match t with
          | Some t => Ok t
          | None => Ok "Text"
          end
      end in
    match assoc content_type _commentGroups with
    | None =>
        Raise (PreprocessorError
                 ("don't know comment delimiters for content type '" +:+ content_type
                  +:+ "' (file '" +:+ infile +:+ "')") None None None)
    | Some cgs =>
        match file_read infile with
        | None => Raise (IOError infile)
        | Some text =>
            Ok (cgs, Str.readlines text,
                {| defines := <["__FILE__" := VStr infile]> defines;
                   states := [(EMIT, false, false)];
                   fout := fout;
                   files := _preprocessed_files |})
        end
    end.

(** [preprocess] (lines 261-564).  [fout] is the open output stream;
    opening it from a path and [should_force_overwrite] are left to the
    caller.  A nested call passes no content type. *)
Fixpoint preprocess {H : Host} (fuel : nat) (opts : options) (content_type : option string)
    (infile : string) (fout : list string) (defines : gmap string value)
    (_preprocessed_files : list string)
  : res (gmap string value * list string * list string) :=
  match fuel with
  | O => Fuel
  | S fuel' =>
      let! start := enter opts content_type infile fout defines _preprocessed_files in
      let '(cgs, lines, e) := start in
      let! e := run_lines (preprocess fuel' opts None) opts cgs infile lines 0 e in
      finish e
  end.

(** ** Structure of the input

    The lines of a file, classified by the statement they hold. *)

Inductive line_class : Type := Plain | Opens | Elif | Else | Endif.

Definition classify {H : Host} (cgs : comment_group) (line : string) : line_class :=
  match stmt_match cgs line with
  | Some (StCond OpElif _) => Elif
  | Some (StCond _ _) => Opens
  | Some StElse => Else
  | Some StEndif => Endif
  | _ => Plain
  end.

(** [balanced] lines form complete, properly nested blocks; the lines of a
    [chain_tail] are what follows the body of a branch: further [#elif]
    branches, at most one [#else] branch, and the [#endif]. *)
Inductive balanced {H : Host} (cgs : comment_group) : list string -> Prop :=
| balanced_nil : balanced cgs []
| balanced_plain line rest :
    classify cgs line = Plain -> balanced cgs rest -> balanced cgs (line :: rest)
| balanced_block line body tail rest :
    classify cgs line = Opens -> balanced cgs body -> chain_tail cgs tail ->
    balanced cgs rest -> balanced cgs (line :: body ++ tail ++ rest)
with chain_tail {H : Host} (cgs : comment_group) : list string -> Prop :=
| tail_endif line :
    classify cgs line = Endif -> chain_tail cgs [line]
| tail_elif line body tail :
    classify cgs line = Elif -> balanced cgs body -> chain_tail cgs tail ->
    chain_tail cgs (line :: body ++ tail)
| tail_else line body last :
    classify cgs line = Else -> balanced cgs body -> classify cgs last = Endif ->
    chain_tail cgs (line :: body ++ [last]).

Scheme balanced_mut := Minimality for balanced Sort Prop
  with chain_tail_mut := Minimality for chain_tail Sort Prop.
Combined Scheme blocks_ind from balanced_mut, chain_tail_mut.

(** [defines] after [k] more lines have been processed, the counter having
    been at [n]: only [__LINE__] has moved. *)
Definition mark_line (n : Z) (k : nat) (d : gmap string value) : gmap string value :=
  match k with
  | O => d
  | S _ => <["__LINE__" := VInt (n + Z.of_nat k)]> d
  end.

(** The blank lines written for [k] lines in keep-lines mode. *)
Definition blanks (opts : options) (k : nat) : list string :=
  if should_keep_lines opts then replicate k Str.nl else [].

(** The objects of the loop after [k] lines that are only passed over. *)
Definition passed_over (opts : options) (n : Z) (k : nat) (st : list cond_state)
    (e : engine) : engine :=
  {| defines := mark_line n k (defines e);
     states := st;
     fout := fout e ++ blanks opts k;
     files := files e |}.

(** What one input line leaves in the output in keep-lines mode when it
    includes no file, [st] being the stack and [d] the defines when the
    line is reached: a blank line for a statement line and for a content
    line of a skipped section, the line itself, after substitution with
    [d] if that is enabled, for a content line of an emitting section. *)
Definition echo {H : Host} (opts : options) (cgs : comment_group)
    (st : list cond_state) (d : gmap string value) (line : string) : string :=
  match stmt_match cgs line with
  | Some _ => Str.nl
  | None =>
      if top_is_skip st then Str.nl
      else if should_substitute opts then substitute d line
           else line
  end.

(** *** Nested calls *)

(** The arguments of a call of [preprocess] that vary. *)
Record call : Type := {
  c_type : option string;
  c_infile : string;
  c_fout : list string;
  c_defines : gmap string value;
  c_files : list string
}.

Definition run {H : Host} (fuel : nat) (opts : options) (c : call)
  : res (gmap string value * list string * list string) :=
  preprocess fuel opts (c_type c) (c_infile c) (c_fout c) (c_defines c) (c_files c).

(** The file an [#include] statement names, if [m] is one. *)
Definition include_ref (m : stmt) (d : gmap string value) : option string :=
  match m with
  | StIncludeFile fname => Some fname
  | StIncludeVar var =>
      match d !! var with
      | Some (VStr f) => Some f
      | _ => None
      end
  | _ => None
  end.

(** [includes fuel opts c c']: the call [c], run with fuel [S fuel], gets
    through a prefix of its lines and reaches, in a section that is not
    skipped, an [#include] whose target is found; [c'] is the nested call
    it makes. *)
Definition includes {H : Host} (fuel : nat) (opts : options) (c c' : call) : Prop :=
  exists cgs lines e0 pre line post e m f fname,
    enter opts (c_type c) (c_infile c) (c_fout c) (c_defines c) (c_files c)
      = Ok (cgs, lines, e0) /\
    lines = pre ++ line :: post /\
    run_lines (preprocess fuel opts None) opts cgs (c_infile c) pre 0 e0 = Ok e /\
    stmt_match cgs line = Some m /\
    top_is_skip (states e) = false /\
    include_ref m (<["__LINE__" := VInt (Z.of_nat (length pre) + 1)]> (defines e)) = Some f /\
    first_existing f (path_dirname (c_infile c) :: include_paths opts) = Some fname /\
    c' = {| c_type := None; c_infile := fname; c_fout := fout e;
            c_defines := <["__LINE__" := VInt (Z.of_nat (length pre) + 1)]> (defines e);
            c_files := files e |}.

(** [chain opts n c0 m c active]: in the run of [c0] with fuel [n], the
    call [c] is made with fuel [m] while the files [active], innermost
    first, are being processed. *)
Inductive chain {H : Host} (opts : options) (n : nat) (c0 : call)
  : nat -> call -> list string -> Prop :=
| chain_top : chain opts n c0 n c0 []
| chain_include m c1 c2 active :
    chain opts n c0 (S m) c1 active ->
    includes m opts c1 c2 ->
    chain opts n c0 m c2 (c_infile c1 :: active).

(** ** A concrete host

    Instances of the host interface on which the engine can be run: the
    statement patterns for comment groups made of literal delimiters, a
    fragment of the expression evaluator, POSIX path functions and a file
    system given as a table. *)

Module Posix.

(** [\s] of the [re] module on byte strings *)
Definition is_space (c : ascii) : bool :=
  let n := nat_of_ascii c in
  orb (Nat.eqb n 32) (andb (Nat.leb 9 n) (Nat.leb n 13)).

Fixpoint lstrip (s : string) : string :=
  match s with
  | EmptyString => EmptyString
  | String c s' => if is_space c then lstrip s' else s
  end.

Fixpoint rstrip (s : string) : string :=
  match s with
  | EmptyString => EmptyString
  | String c s' =>
      match rstrip s' with
      | EmptyString => if is_space c then EmptyString else String c EmptyString
      | r => String c r
      end
  end.

Fixpoint has_space (s : string) : bool :=
  match s with
  | EmptyString => false
  | String c s' => orb (is_space c) (has_space s')
  end.

(** the leading run of non-space characters and what follows it *)
Fixpoint split_word (s : string) : string * string :=
  match s with
  | EmptyString => (EmptyString, EmptyString)
  | String c s' =>
      if is_space c then (EmptyString, s)
      else let '(w, r) := split_word s' in (String c w, r)
  end.

(** a literal at the head of [s]: what follows it *)
Definition expect (p s : string) : option string :=
  if Str.startswith p s then Some (Str.drop (String.length p) s) else None.

(** [\s+] at the head of [s], taken greedily *)
Definition spaces1 (s : string) : option string :=
  match s with
  | String c _ => if is_space c then Some (lstrip s) else None
  | EmptyString => None
  end.

(** [(?P<x>.*?)\s*SUFFIX\s*$] on what is left of a line: the group *)
Definition lazy_tail (suffix s : string) : option string :=
  let t := rstrip s in
  if Str.endswith suffix t
  then Some (rstrip (Str.take (String.length t - String.length suffix) t))
  else None.

(** [^\s*PREFIX\s*#\s*] at the head of a line *)
Definition stmt_head (prefix line : string) : option string :=
  match expect prefix (lstrip line) with
  | None => None
  | Some s =>
      match expect "#" (lstrip s) with
      | None => None
      | Some s => Some (lstrip s)
      end
  end.

(** a keyword followed by [\s+] and a lazy group *)
Definition keyword_arg (kw suffix s : string) : option string :=
  match expect kw s with
  | None => None
  | Some s =>
      match spaces1 s with
      | None => None
      | Some s => lazy_tail suffix s
      end
  end.

(** a keyword followed by the end of the statement *)
Definition keyword_end (kw suffix s : string) : bool :=
  match expect kw s with
  | None => false
  | Some s =>
      match lazy_tail suffix s with
      | Some EmptyString => true
      | _ => false
      end
  end.

Definition unquote (s : string) : option string :=
  match s with
  | String c s' =>
      if andb (Ascii.eqb c (ascii_of_nat 34))
              (andb (Nat.leb 1 (String.length s')) (Str.endswith Str.dq s'))
      then Some (Str.take (String.length s' - 1) s')
      else None
  | EmptyString => None
  end.

(** The seven statement patterns of [stmts], in their order, on what
    follows the head of the statement. *)
Definition match_kind (k : nat) (suffix s : string) : option stmt :=
  match k with
  | 0 =>
      match keyword_arg "if" suffix s with
      | Some e => Some (StCond OpIf e)
      | None =>
      match keyword_arg "elif" suffix s with
      | Some e => Some (StCond OpElif e)
      | None =>
      match keyword_arg "ifdef" suffix s with
      | Some e => Some (StCond OpIfdef e)
      | None =>
      match keyword_arg "ifndef" suffix s with
      | Some e => Some (StCond OpIfndef e)
      | None => None
      end end end end
  | 1 =>
      if keyword_end "else" suffix s then Some StElse
      else if keyword_end "endif" suffix s then Some StEndif
      else None
  | 2 =>
      match keyword_arg "error" suffix s with
      | Some e => Some (StError e)
      | None => None
      end
  | 3 =>
      match keyword_arg "define" suffix s with
      | Some a =>
          let '(var, r) := split_word a in
          match r with
          | EmptyString => Some (StDefine var None)
          | _ => Some (StDefine var (Some (lstrip r)))
          end
      | None => None
      end
  | 4 =>
      match keyword_arg "undef" suffix s with
      | Some a => if has_space a then None else Some (StUndef a)
      | None => None
      end
  | 5 =>
      match keyword_arg "include" suffix s with
      | Some a =>
          match unquote a with
          | Some f => Some (StIncludeFile f)
          | None => None
          end
      | None => None
      end
  | 6 =>
      match keyword_arg "include" suffix s with
      | Some a =>
          if orb (has_space a) (String.eqb a "") then None else Some (StIncludeVar a)
      | None => None
      end
  | _ => None
  end.

(** one statement pattern against one comment group: the inner loop
    [for cprefix, csuffix in cgs] *)
Fixpoint match_pairs (k : nat) (cgs : comment_group) (line : string) : option stmt :=
  match cgs with
  | [] => None
  | (Lit prefix, Lit suffix) :: cgs' =>
      match stmt_head prefix line with
      | Some s =>
          match match_kind k suffix s with
          | Some m => Some m
          | None => match_pairs k cgs' line
          end
      | None => match_pairs k cgs' line
      end
  | _ :: cgs' => match_pairs k cgs' line
  end.

(** The first of the compiled patterns, statement by statement, that
    matches a line read by [readlines].  Delimiters given as compiled
    patterns (Fortran's column prefix) are not covered. *)
Definition match_line (cgs : comment_group) (line : string) : option stmt :=
  let fix go (ks : list nat) : option stmt :=
    match ks with
    | [] => None
    | k :: ks' =>
        match match_pairs k cgs line with
        | Some m => Some m
        | None => go ks'
        end
    end in
  go [0; 1; 2; 3; 4; 5; 6]%nat.

(** *** Expressions: decimal literals, upper-case identifiers, and the
    [defined('NAME')] forms that [#ifdef] and [#ifndef] build *)

Definition is_digit (c : ascii) : bool :=
  let n := nat_of_ascii c in andb (Nat.leb 48 n) (Nat.leb n 57).

Definition is_upper_ident_char (c : ascii) : bool :=
  let n := nat_of_ascii c in
  orb (andb (Nat.leb 65 n) (Nat.leb n 90)) (orb (Nat.eqb n 95) (is_digit c)).

Fixpoint all_chars (p : ascii -> bool) (s : string) : bool :=
  match s with
  | EmptyString => true
  | String c s' => andb (p c) (all_chars p s')
  end.

Fixpoint digits_value (acc : Z) (s : string) : Z :=
  match s with
  | EmptyString => acc
  | String c s' => digits_value (10 * acc + Z.of_nat (nat_of_ascii c - 48)) s'
  end.

Definition decimal (s : string) : option Z :=
  match s with
  | EmptyString => None
  | String c s' =>
      if andb (all_chars is_digit s)
              (orb (negb (Ascii.eqb c "0"%char)) (String.eqb s' ""))
      then Some (digits_value 0 s)
      else None
  end.

Definition upper_ident (s : string) : bool :=
  match s with
  | EmptyString => false
  | String c _ => andb (negb (is_digit c)) (all_chars is_upper_ident_char s)
  end.

(** the name in [defined('NAME')] *)
Definition defined_call (s : string) : option string :=
  match expect "defined('" s with
  | Some r =>
      if andb (Str.endswith "')" r)
              (all_chars is_upper_ident_char (Str.take (String.length r - 2) r))
      then Some (Str.take (String.length r - 2) r)
      else None
  | None => None
  end.

Definition eval_fragment (expr : string) (defines : gmap string value) : eval_result :=
  match decimal expr with
  | Some n => EvalOk (VInt n)
  | None =>
      if upper_ident expr then
        match defines !! expr with
        | Some v => EvalOk v
        | None => EvalExc ("name '" +:+ expr +:+ "' is not defined")
        end
      else
        match defined_call expr with
        | Some name => EvalOk (VBool (bool_decide (is_Some (defines !! name))))
        | None =>
            match expect "not " expr with
            | Some r =>
                match defined_call r with
                | Some name => EvalOk (VBool (negb (bool_decide (is_Some (defines !! name)))))
                | None => EvalExc "expression outside the fragment"
                end
            | None => EvalExc "expression outside the fragment"
            end
        end
  end.

(** [eval(val, {}, {})] on a decimal literal; any other text counts as
    raising, which is what a bare name does. *)
Definition eval_bare_fragment (val : string) : option value :=
  match decimal val with
  | Some n => Some (VInt n)
  | None => None
  end.

(** [repr] of a list of plain strings *)
Definition repr_list (l : list string) : string :=
  let fix go (l : list string) : string :=
    match l with
    | [] => ""
    | [x] => "'" +:+ x +:+ "'"
    | x :: l' => "'" +:+ x +:+ "', " +:+ go l'
    end in
  "[" +:+ go l +:+ "]".

(** *** [posixpath] *)

(** [p.split('/')] *)
Fixpoint split_slash (s : string) : list string :=
  match s with
  | EmptyString => [EmptyString]
  | String c s' =>
      if Ascii.eqb c "/"%char then EmptyString :: split_slash s'
      else match split_slash s' with
           | [] => [String c EmptyString]
           | w :: ws => String c w :: ws
           end
  end.

Fixpoint join_slash (l : list string) : string :=
  match l with
  | [] => ""
  | [x] => x
  | x :: l' => x +:+ "/" +:+ join_slash l'
  end.

Fixpoint all_slashes (s : string) : bool :=
  match s with
  | EmptyString => true
  | String c s' => andb (Ascii.eqb c "/"%char) (all_slashes s')
  end.

Fixpoint rstrip_slash (s : string) : string :=
  match s with
  | EmptyString => EmptyString
  | String c s' =>
      match rstrip_slash s' with
      | EmptyString => if Ascii.eqb c "/"%char then EmptyString else String c EmptyString
      | r => String c r
      end
  end.

(** the index after the last slash: [p.rfind('/') + 1] *)
Fixpoint after_last_slash (s : string) : nat :=
  match s with
  | EmptyString => 0
  | String c s' =>
      if Str.mem "/"%char s' then S (after_last_slash s')
      else if Ascii.eqb c "/"%char then 1 else 0
  end.

Definition dirname (p : string) : string :=
  let head := Str.take (after_last_slash p) p in
  if andb (negb (String.eqb head "")) (negb (all_slashes head))
  then rstrip_slash head else head.

Definition basename (p : string) : string := Str.drop (after_last_slash p) p.

Definition join (a b : string) : string :=
  if Str.startswith "/" b then b
  else if orb (String.eqb a "") (Str.endswith "/" a) then a +:+ b
  else a +:+ "/" +:+ b.

(** the loop of [normpath] over the components, [new_comps] kept in
    reverse *)
Fixpoint norm_comps (initial_slashes : nat) (comps new_comps : list string) : list string :=
  match comps with
  | [] => rev new_comps
  | comp :: comps' =>
      if orb (String.eqb comp "") (String.eqb comp ".")
      then norm_comps initial_slashes comps' new_comps
      else if orb (negb (String.eqb comp ".."))
                  (orb (andb (Nat.eqb initial_slashes 0)
                             (match new_comps with [] => true | _ => false end))
                       (match new_comps with
                        | top :: _ => String.eqb top ".."
                        | [] => false
                        end))
      then norm_comps initial_slashes comps' (comp :: new_comps)
      else norm_comps initial_slashes comps' (tl new_comps)
  end.

Definition normpath (path : string) : string :=
  if String.eqb path "" then "."
  else
    let initial_slashes :=
      if Str.startswith "/" path
      then if andb (Str.startswith "//" path) (negb (Str.startswith "///" path))
           then 2%nat else 1%nat
      else 0%nat in
    let path := join_slash (norm_comps initial_slashes (split_slash path) []) in
    let path := match initial_slashes with
                | 0 => path
                | 1 => "/" +:+ path
                | _ => "//" +:+ path
                end in
    if String.eqb path "" then "." else path.

Definition abspath (cwd path : string) : string :=
  normpath (if Str.startswith "/" path then path else join cwd path).

(** the patterns of the built-in content-type table: [^[Mm]akefile.*$] *)
Definition search_builtin (pattern s : string) : bool :=
  if String.eqb pattern "^[Mm]akefile.*$"
  then orb (Str.startswith "Makefile" s) (Str.startswith "makefile" s)
  else false.

(** The host over a table of files, with working directory [cwd]. *)
Definition host (cwd : string) (fs : list (string * string)) : Host := {|
  stmt_match := match_line;
  re_search := search_builtin;
  py_eval := eval_fragment;
  py_eval_bare := eval_bare_fragment;
  py_repr := repr_list;
  path_dirname := dirname;
  path_basename := basename;
  path_join := join;
  path_normpath := normpath;
  path_abspath := abspath cwd;
  path_exists := fun p => bool_decide (is_Some (assoc p fs));
  file_read := fun p => assoc p fs;
  platform_win := false
|}.

End Posix.

(** ** Lines of text *)

(** A line as [readlines] yields it: [terminated] by its only newline,
    or, for the last line of a text, [unterminated] and not empty. *)
Fixpoint terminated (s : string) : bool :=
  match s with
  | EmptyString => false
  | String c s' =>
      if Ascii.eqb c (ascii_of_nat 10) then String.eqb s' EmptyString else terminated s'
  end.

Fixpoint unterminated (s : string) : bool :=
  match s with
  | EmptyString => false
  | String c s' =>
      if Ascii.eqb c (ascii_of_nat 10) then false
      else match s' with
           | EmptyString => true
           | _ => unterminated s'
           end
  end.

Fixpoint line_shaped (ls : list string) : Prop :=
  match ls with
  | [] => True
  | l :: ls' => (terminated l = true \/ (unterminated l = true /\ ls' = [])) /\ line_shaped ls'
  end.


(** A nested call that returns has appended the path of its file, and
    possibly more, to [_preprocessed_files]. *)
Definition appends {H : Host} (rec : nested) : Prop :=
  forall f out d pf d' out' pf',
    rec f out d pf = Ok (d', out', pf') -> exists ext, pf' = pf ++ path_abspath f :: ext.

(** ** Sample inputs *)

Module Demo.

(** the text of a file from its lines *)
Definition text (lines : list string) : string :=
  Str.concat (map (fun l => l +:+ Str.nl) lines).

Definition quoted (s : string) : string := Str.dq +:+ s +:+ Str.dq.

Definition registry : ContentTypesRegistry :=
  {| suffixMap := {[ ".txt" := "Text"; ".py" := "Python" ]};
     regexMap := [("^[Mm]akefile.*$", "Makefile")];
     filenameMap := ∅ |}.

Definition opts (keep subst : bool) : options :=
  {| should_keep_lines := keep;
     include_paths := [];
     should_substitute := subst;
     content_types_registry := registry |}.

Definition host (fs : list (string * string)) : Host := Posix.host "/w" fs.

(** a surplus [#endif] followed by an [#if] that is never closed *)
Definition unbalanced : list (string * string) :=
  [("a.txt", text ["# #endif"; "# #if 1"])].

(** a failing condition after an [#include] has returned *)
Definition after_include : list (string * string) :=
  [("a.txt", text ["# #include " +:+ quoted "b.txt"; "# #if NOPE"]);
   ("b.txt", text ["x"])].

(** two files that include each other *)
Definition cycle : list (string * string) :=
  [("a.txt", text ["# #include " +:+ quoted "b.txt"]);
   ("b.txt", text ["# #include " +:+ quoted "a.txt"])].

(** the same file included twice in a row *)
Definition siblings : list (string * string) :=
  [("a.txt", text ["# #include " +:+ quoted "b.txt"; "# #include " +:+ quoted "b.txt"]);
   ("b.txt", text ["x"])].

(** a skipped and an emitted content line *)
Definition two_branches : list (string * string) :=
  [("a.txt", text ["# #if 0"; "hidden"; "# #else"; "shown"; "# #endif"])].

(** a content line that is a symbol, and a value of two lines for it *)
Definition symbol_line : list (string * string) :=
  [("a.txt", text ["X"])].

Definition two_line_value : gmap string value :=
  {[ "X" := VStr ("a" +:+ Str.nl +:+ "b") ]}.

(** a Python file whose text starts like an XML document *)
Definition xml_python : list (string * string) :=
  [("a.py", text ["<?xml version='1.0'?>"])].

(** a symbol whose value is the name of another symbol *)
Definition chained_defines : list (string * string) :=
  [("a.txt", text ["# #define AB C"; "# #define C x"; "AB"])].

Definition error_line : list (string * string) :=
  [("a.txt", text ["# #error boom"])].

(** a one-line file that includes a two-line file *)
Definition includer : list (string * string) :=
  [("a.txt", text ["# #include " +:+ quoted "b.txt"]);
   ("b.txt", text ["x"; "y"])].

(** a chain whose first branch emits and whose later conditions cannot
    be evaluated *)
Definition chain_head : string := "# #if 1" +:+ Str.nl.
Definition chain_body : list string := ["A" +:+ Str.nl].
Definition chain_rest : list string :=
  ["# #elif NOPE" +:+ Str.nl; "B" +:+ Str.nl; "# #else" +:+ Str.nl; "C" +:+ Str.nl;
   "# #endif" +:+ Str.nl].

Definition hash : comment_group := [(Lit "#", Lit EmptyString)].

(** the objects of the loop at the start of [a.txt] *)
Definition start : engine :=
  {| defines := {[ "__FILE__" := VStr "a.txt" ]};
     states := [(EMIT, false, false)];
     fout := [];
     files := ["/w/a.txt"] |}.

(** the same inside a skipped section *)
Definition skipping : engine :=
  {| defines := {[ "__FILE__" := VStr "a.txt" ]};
     states := [(SKIP, false, false); (EMIT, false, false)];
     fout := [];
     files := ["/w/a.txt"] |}.

(** a caller's empty [defines] *)
Definition no_defines : gmap string value := ∅.

(** [defines] when line 1 of [a.txt] includes a file *)
Definition at_line_1 : gmap string value :=
  <["__LINE__" := VInt 1]> {[ "__FILE__" := VStr "a.txt" ]}.

(** the calls of the run on [cycle]: [a.txt], then [b.txt] from line 1
    of [a.txt], then [a.txt] again from line 1 of [b.txt] *)
Definition outer_call : call :=
  {| c_type := None; c_infile := "a.txt"; c_fout := []; c_defines := ∅; c_files := [] |}.

Definition middle_call : call :=
  {| c_type := None; c_infile := "b.txt"; c_fout := []; c_defines := at_line_1;
     c_files := ["/w/a.txt"] |}.

Definition inner_call : call :=
  {| c_type := None; c_infile := "a.txt"; c_fout := [];
     c_defines := <["__LINE__" := VInt 1]> (<["__FILE__" := VStr "b.txt"]> at_line_1);
     c_files := ["/w/a.txt"; "/w/b.txt"] |}.

(** the objects of the loop at the start of [b.txt], included from line 1
    of [a.txt] *)
Definition start_included : engine :=
  {| defines := <["__FILE__" := VStr "b.txt"]> at_line_1;
     states := [(EMIT, false, false)];
     fout := [];
     files := ["/w/a.txt"; "/w/b.txt"] |}.

(** the objects of the loop after the first branch of the chain *)
Definition after_first_branch : engine :=
  {| defines := <["__LINE__" := VInt 2]> {[ "__FILE__" := VStr "a.txt" ]};
     states := [(EMIT, true, false); (EMIT, false, false)];
     fout := ["A" +:+ Str.nl];
     files := ["/w/a.txt"] |}.

End Demo.

(** ** Rendering a failure *)

(** [sep.join(l)] *)
Fixpoint join_with (sep : string) (l : list string) : string :=
  match l with
  | [] => EmptyString
  | [x] => x
  | x :: l' => x +:+ sep +:+ join_with sep l'
  end.

(** [[str(f) for f in fields if f]] *)
Fixpoint true_fields (fields : list (option value)) : list string :=
  match fields with
  | [] => []
  | Some v :: fields' =>
      if truthy v then py_str v :: true_fields fields' else true_fields fields'
  | None :: fields' => true_fields fields'
  end.

(** [PreprocessorError.__str__] (lines 104-118) *)
Definition PreprocessorError_str (error_message : string)
    (filename line_number : option value) : string :=
  let s := join_with ":" (true_fields [filename; line_number]) in
  let s := if String.eqb s EmptyString then s else s +:+ ": " in
  s +:+ error_message.

(** ** More of Python's [str] *)

Module Text.

(** [s.strip()] *)
Definition strip (s : string) : string := Posix.rstrip (Posix.lstrip s).

(** [s.split()]: the maximal runs of characters that are not whitespace *)
Fixpoint split (s : string) : list string :=
  match s with
  | EmptyString => []
  | String c s' =>
      if Posix.is_space c then split s'
      else match s' with
           | EmptyString => [String c EmptyString]
           | String c' _ =>
               if Posix.is_space c' then String c EmptyString :: split s'
               else match split s' with
                    | w :: ws => String c w :: ws
                    | [] => [String c EmptyString]
                    end
           end
  end.

(** [s.splitlines(0)] on a byte string: lines end at a newline, a carriage
    return, or a carriage return followed by a newline; [after_cr] tells
    that the character before was a carriage return. *)
Fixpoint splitlines_from (after_cr : bool) (s : string) : list string :=
  match s with
  | EmptyString => []
  | String c s' =>
      if Ascii.eqb c (ascii_of_nat 10)
      then if after_cr then splitlines_from false s'
           else EmptyString :: splitlines_from false s'
      else if Ascii.eqb c (ascii_of_nat 13)
           then EmptyString :: splitlines_from true s'
           else match splitlines_from false s' with
                | l :: ls => String c l :: ls
                | [] => [String c EmptyString]
                end
  end.

Definition splitlines (s : string) : list string := splitlines_from false s.

(** [s.split('=', 1)] when it has two parts *)
Fixpoint split_eq (s : string) : option (string * string) :=
  match s with
  | EmptyString => None
  | String c s' =>
      if Ascii.eqb c "="%char then Some (EmptyString, s')
      else match split_eq s' with
           | Some (a, b) => Some (String c a, b)
           | None => None
           end
  end.

End Text.

(** ** Loading the content types *)

(** A key of the suffix map that a lookup can ask for: a dot followed by
    text without a dot. *)
Definition plain_suffix (k : string) : bool :=
  match k with
  | String c w => andb (Ascii.eqb c "."%char) (negb (Str.mem "."%char w))
  | EmptyString => false
  end.

(** [DEFAULT_CONTENT_TYPES] (lines 569-636) *)
Definition DEFAULT_CONTENT_TYPES : string :=
  "
    # Default file types understood by " +:+ Str.dq +:+ "pepe.py" +:+ Str.dq +:+ ".
    #
    # Format is an extension of 'mime.types' file syntax.
    #   - '#' indicates a comment to the end of the line.
    #   - a line is:
    #       <file type> [<pattern>...]
    #     where,
    #       <file type>'s are equivalent in spirit to the names used in the Windows
    #           registry in HKCR, but some of those names suck or are inconsistent;
    #           and
    #       <pattern> is a suffix (pattern starts with a '.'), a regular expression
    #           (pattern is enclosed in '/' characters), a full filename (anything
    #           else).
    #
    # Notes on case-sensitivity:
    #
    # A suffix pattern is case-insensitive on Windows and case-sensitive
    # elsewhere.  A filename pattern is case-sensitive everywhere. A regex
    # pattern's case-sensitivity is defined by the regex. This means it is by
    # default case-sensitive, but this can be changed using Python's inline
    # regex option syntax. E.g.:
    #         Makefile            /^(?i)makefile.*$/   # case-INsensitive regex

    Python              .py
    Python              .pyw
    Perl                .pl
    Ruby                .rb
    Tcl                 .tcl
    XML                 .xml
    XML                 .kpf
    XML                 .xul
    XML                 .rdf
    XML                 .xslt
    XML                 .xsl
    XML                 .wxs
    XML                 .wxi
    HTML                .htm
    HTML                .html
    XML                 .xhtml
    Makefile            /^[Mm]akefile.*$/
    PHP                 .php
    JavaScript          .js
    CSS                 .css
    C++                 .c       # C++ because then we can use //-style comments
    C++                 .cpp
    C++                 .cxx
    C++                 .cc
    C++                 .h
    C++                 .hpp
    C++                 .hxx
    C++                 .hh
    IDL                 .idl
    Text                .txt
    Fortran             .f
    Fortran             .f90
    Shell               .sh
    Shell               .csh
    Shell               .ksh
    Shell               .zsh
    Java                .java
    C#                  .cs
    TeX                 .tex

    # Some Komodo-specific file extensions
    Python              .ksf  # Fonts & Colors scheme files
    Text                .kkf  # Keybinding schemes files
".

(** What [_loadContentType] comes to: the registry, a
    [PreprocessorError], or the error of [re.compile] on a pattern. *)
Inductive loaded : Type :=
| Loaded (self : ContentTypesRegistry)
| LoadError (e : exn)
| BadRegex (pattern : string).

(** the loop that deletes the words of a line from its comment on *)
Fixpoint cut_comment (words : list string) : list string :=
  match words with
  | [] => []
  | w :: ws => if Str.startswith "#" w then [] else w :: cut_comment ws
  end.

(** [self.regexMap[re.compile(source)] = contentType]: equal sources
    compile to the same cached object *)
Fixpoint set_regex (source contentType : string) (rm : list (string * string))
  : list (string * string) :=
  match rm with
  | [] => [(source, contentType)]
  | (p, t) :: rm' =>
      if String.eqb p source then (p, contentType) :: rm'
      else (p, t) :: set_regex source contentType rm'
  end.

Definition no_content_types : ContentTypesRegistry :=
  {| suffixMap := ∅; regexMap := []; filenameMap := ∅ |}.

(** Every content type a registry holds satisfies [P]. *)
Definition types_satisfy (P : string -> Prop) (self : ContentTypesRegistry) : Prop :=
  map_Forall (fun _ t => P t) (suffixMap self) /\
  Forall (fun entry => P (snd entry)) (regexMap self) /\
  map_Forall (fun _ t => P t) (filenameMap self).

(** A word as [split] yields it: not empty and without whitespace. *)
Definition is_word (w : string) : Prop :=
  w <> EmptyString /\ Posix.has_space w = false.

Section Loader.
Context {H : Host}.

(** [re.compile(source)] does not raise *)
Variable re_compiles : string -> bool.

(** the loop [for pattern in patterns] (lines 686-695) *)
Fixpoint register (contentType : string) (patterns : list string)
    (self : ContentTypesRegistry) : loaded :=
  match patterns with
  | [] => Loaded self
  | pattern :: rest =>
      if Str.startswith "." pattern then
        let pattern := if platform_win then Str.lower pattern else pattern in
        register contentType rest
                 {| suffixMap := <[pattern := contentType]> (suffixMap self);
                    regexMap := regexMap self;
                    filenameMap := filenameMap self |}
      else if andb (Str.startswith "/" pattern) (Str.endswith "/" pattern) then
        let source := Str.take (String.length pattern - 2) (Str.drop 1 pattern) in
        if re_compiles source then
          register contentType rest
                   {| suffixMap := suffixMap self;
                      regexMap := set_regex source contentType (regexMap self);
                      filenameMap := filenameMap self |}
        else BadRegex source
      else
        register contentType rest
                 {| suffixMap := suffixMap self;
                    regexMap := regexMap self;
                    filenameMap := <[pattern := contentType]> (filenameMap self) |}
  end.

(** the body of [for line in content.splitlines(0)] (lines 675-695) *)
Definition load_line (line : string) (self : ContentTypesRegistry) : loaded :=
  match cut_comment (Text.split (Text.strip line)) with
  | [] => Loaded self
  | contentType :: patterns =>
      match patterns with
      | [] =>
          let line := if Str.endswith Str.nl line
                      then Str.take (String.length line - 1) line else line in
          LoadError (PreprocessorError
                       ("bogus content.types line, there must be one or more patterns: '"
                        +:+ line +:+ "'") None None None)
      | _ => register contentType patterns self
      end
  end.

Fixpoint load_lines (lines : list string) (self : ContentTypesRegistry) : loaded :=
  match lines with
  | [] => Loaded self
  | line :: rest =>
      match load_line line self with
      | Loaded self => load_lines rest self
      | failure => failure
      end
  end.

(** [ContentTypesRegistry._loadContentType] (lines 666-695) *)
Definition _loadContentType (content : string) (self : ContentTypesRegistry) : loaded :=
  load_lines (Text.splitlines content) self.

(** the loop over [self.content_types_config_files] (lines 662-664) *)
Fixpoint load_files (paths : list string) (self : ContentTypesRegistry) : loaded :=
  match paths with
  | [] => Loaded self
  | path :: rest =>
      match file_read path with
      | None => LoadError (IOError path)
      | Some content =>
          match _loadContentType content self with
          | Loaded self => load_files rest self
          | failure => failure
          end
      end
  end.

(** [ContentTypesRegistry._load] (lines 650-664); [module_file] is
    [__file__]. *)
Definition _load (module_file : string) (content_types_config_files : list string)
  : loaded :=
  match _loadContentType DEFAULT_CONTENT_TYPES no_content_types with
  | Loaded self =>
      let localContentTypesPath := path_join (path_dirname module_file) "content.types" in
      if path_exists localContentTypesPath
      then load_files (localContentTypesPath :: content_types_config_files) self
      else load_files content_types_config_files self
  | failure => failure
  end.

End Loader.

(** ** Definitions of the command line *)

(** The outcome of the parsing functions: a result or a [ValueError]. *)
Inductive parsed (A : Type) : Type :=
| Parsed (a : A)
| ValueError (msg : string).
Arguments Parsed {A} a.
Arguments ValueError {A} msg.

(** [parse_bool_token] (lines 871-893) *)
Definition parse_bool_token (token : string) : value :=
  if String.eqb (Str.lower token) "true" then VBool true
  else if String.eqb (Str.lower token) "false" then VBool false
  else VStr token.

Section CommandLine.

(** [int(token, base)] and [float(token)]; [None] is their [ValueError] *)
Variable py_int : string -> Z -> option Z.
Variable py_float : string -> option value.

(** [parse_int_token] (lines 843-868) *)
Definition parse_int_token (token : string) : option Z :=
  if orb (Str.startswith "0x" token) (Str.startswith "0X" token) then py_int token 16
  else if Str.startswith "0" token then py_int token 8
  else py_int token 10.

(** [parse_number_token] (lines 896-910) *)
Definition parse_number_token (token : string) : option value :=
  if Str.mem "."%char token then py_float token
  else match parse_int_token token with
       | Some n => Some (VInt n)
       | None => None
       end.

(** [parse_definition_expr] (lines 913-971) *)
Definition parse_definition_expr (expr : string) (default_value : value)
  : parsed (string * value) :=
  let split :=
    match Text.split_eq expr with
    | Some (define, value) =>
        Parsed (define, match parse_number_token value with
                        | Some v => v
                        | None => parse_bool_token value
                        end)
    | None =>
        if String.eqb expr EmptyString
        then ValueError ("Invalid definition expression `" +:+ expr +:+ "`")
        else Parsed (expr, default_value)
    end in
  match split with
  | Parsed (define, value) =>
      let d := Text.strip define in
      if String.eqb d EmptyString
      then ValueError ("Invalid definition symbol `" +:+ define +:+ "`")
      else Parsed (d, value)
  | ValueError msg => ValueError msg
  end.

(** the loop of [parse_definitions] *)
Fixpoint parse_each (definitions : list string) (defines : gmap string value)
  : parsed (gmap string value) :=
  match definitions with
  | [] => Parsed defines
  | definition :: rest =>
      match parse_definition_expr definition VNone with
      | Parsed (define, value) => parse_each rest (<[define := value]> defines)
      | ValueError msg => ValueError msg
      end
  end.

(** [parse_definitions] (lines 975-1009); [None] is Python's [None] *)
Definition parse_definitions (definitions : option (list string))
  : parsed (gmap string value) :=
  match definitions with
  | None => Parsed ∅
  | Some l => parse_each l ∅
  end.

End CommandLine.

(** ** Counting blocks *)

(** Opening statements minus [#endif] statements among the lines. *)
Fixpoint nesting {H : Host} (cgs : comment_group) (lines : list string) : Z :=
  match lines with
  | [] => 0
  | line :: rest =>
      (match classify cgs line with
       | Opens => 1
       | Endif => -1
       | _ => 0
       end + nesting cgs rest)%Z
  end.

(** A nested call that returns has only added to the output stream. *)
Definition writes_after (rec : nested) : Prop :=
  forall f out d pf d' out' pf',
    rec f out d pf = Ok (d', out', pf') -> out `prefix_of` out'.

(** ** More sample inputs *)

Module Samples.

(** [int(token, base)] on a token of digits, with the [0x] prefix that
    base 16 allows *)
Definition digit_of (c : ascii) : option Z :=
  let n := nat_of_ascii c in
  if andb (Nat.leb 48 n) (Nat.leb n 57) then Some (Z.of_nat (n - 48))
  else if andb (Nat.leb 97 n) (Nat.leb n 102) then Some (Z.of_nat (n - 87))
  else if andb (Nat.leb 65 n) (Nat.leb n 70) then Some (Z.of_nat (n - 55))
  else None.

Fixpoint digits (base acc : Z) (s : string) : option Z :=
  match s with
  | EmptyString => Some acc
  | String c s' =>
      match digit_of c with
      | Some v => if Z.ltb v base then digits base (base * acc + v) s' else None
      | None => None
      end
  end.

Definition int_of (token : string) (base : Z) : option Z :=
  let body := if andb (Z.eqb base 16)
                      (orb (Str.startswith "0x" token) (Str.startswith "0X" token))
              then Str.drop 2 token else token in
  match body with
  | EmptyString => None
  | _ => digits base 0 body
  end.

(** no float is parsed *)
Definition no_float (token : string) : option value := None.

(** every pattern compiles *)
Definition compiles (source : string) : bool := true.

(** an [#if] block that is never closed *)
Definition open_block : list (string * string) :=
  [("a.txt", Demo.text ["# #if 1"; "x"])].

(** a file without statements *)
Definition plain_file : list (string * string) :=
  [("a.txt", "one" +:+ Str.nl +:+ "two")].

(** a header that is only found on the include path *)
Definition header_on_path : list (string * string) :=
  [("a.txt", Demo.text ["# #include " +:+ Demo.quoted "b.txt"]);
   ("inc/b.txt", Demo.text ["x"])].

(** a Python source in a directory *)
Definition python_file : list (string * string) :=
  [("lib/a.py", "import os")].

(** the registry of the built-in table alone *)
Definition built_in : ContentTypesRegistry :=
  match _load (H := Demo.host python_file) compiles "/w/pepe/__init__.py" [] with
  | Loaded self => self
  | _ => no_content_types
  end.

Definition built_in_opts : options :=
  {| should_keep_lines := false;
     include_paths := [];
     should_substitute := false;
     content_types_registry := built_in |}.

End Samples.

(** * Properties *)

(** ** The loop *)

Section Loop.
Context {H : Host}.
Variable rec : nested.
Variable opts : options.
Variable cgs : comment_group.
Variable infile : string.

Local Abbreviation step := (process_line rec opts cgs infile).
Local Abbreviation loop := (run_lines rec opts cgs infile).

Lemma run_lines_app (l1 l2 : list string) (n : Z) (e : engine) :
  loop (l1 ++ l2) n e =
  bind (loop l1 n e) (fun e1 => loop l2 (n + Z.of_nat (length l1)) e1).
Proof.
  revert n e; induction l1 as [|line l1 IH]; intros n e; simpl.
  - now rewrite Z.add_0_r.
  - destruct (step (n + 1) line e) as [e1| |]; simpl; auto.
    rewrite IH. do 2 f_equal. lia.
Qed.

Lemma run_lines_raise (pre post : list string) (n : Z) (e : engine) (x : exn) :
  loop pre n e = Raise x -> loop (pre ++ post) n e = Raise x.
Proof. intros Hpre. now rewrite run_lines_app, Hpre. Qed.

Lemma run_lines_next (pre : list string) (line : string) (post : list string)
    (n : Z) (e e1 : engine) :
  loop pre n e = Ok e1 ->
  loop (pre ++ line :: post) n e =
  bind (step (n + Z.of_nat (length pre) + 1) line e1)
       (fun e2 => loop post (n + Z.of_nat (length pre) + 1) e2).
Proof. intros Hpre. now rewrite run_lines_app, Hpre. Qed.

(** *** Classified lines *)

Lemma classify_elif (line : string) :
  classify cgs line = Elif -> exists x, stmt_match cgs line = Some (StCond OpElif x).
Proof.
  unfold classify. destruct (stmt_match cgs line) as [[[] x| | | | | | |]|]; try discriminate.
  eauto.
Qed.

Lemma classify_opens (line : string) :
  classify cgs line = Opens ->
  exists op x, stmt_match cgs line = Some (StCond op x) /\ op <> OpElif.
Proof.
  unfold classify. destruct (stmt_match cgs line) as [[[] x| | | | | | |]|]; try discriminate;
    intros _; eexists _, _; split; eauto; discriminate.
Qed.

Lemma classify_else (line : string) :
  classify cgs line = Else -> stmt_match cgs line = Some StElse.
Proof.
  unfold classify. now destruct (stmt_match cgs line) as [[[] x| | | | | | |]|].
Qed.

Lemma classify_endif (line : string) :
  classify cgs line = Endif -> stmt_match cgs line = Some StEndif.
Proof.
  unfold classify. now destruct (stmt_match cgs line) as [[[] x| | | | | | |]|].
Qed.

(** *** Lines that are passed over *)

Lemma mark_line_add (n : Z) (k1 k2 : nat) (d : gmap string value) :
  mark_line (n + Z.of_nat k1) k2 (mark_line n k1 d) = mark_line n (k1 + k2) d.
Proof.
  destruct k1 as [|k1]; destruct k2 as [|k2]; cbn [mark_line Nat.add]; auto.
  - now rewrite Z.add_0_r.
  - now rewrite Nat.add_0_r.
  - rewrite insert_insert_eq.
    replace (n + Z.of_nat (S k1) + Z.of_nat (S k2))%Z
      with (n + Z.of_nat (S (k1 + S k2)))%Z by lia.
    reflexivity.
Qed.

Lemma blanks_add (k1 k2 : nat) : blanks opts k1 ++ blanks opts k2 = blanks opts (k1 + k2).
Proof.
  unfold blanks. destruct (should_keep_lines opts); auto.
  now rewrite replicate_add.
Qed.

Lemma passed_over_add (n : Z) (k1 k2 : nat) (st1 st2 : list cond_state) (e : engine) :
  passed_over opts (n + Z.of_nat k1) k2 st2 (passed_over opts n k1 st1 e)
  = passed_over opts n (k1 + k2) st2 e.
Proof.
  unfold passed_over; simpl. f_equal.
  - apply mark_line_add.
  - now rewrite <- app_assoc, blanks_add.
Qed.

Lemma passed_over_states (n : Z) (k : nat) (st : list cond_state) (e : engine) :
  states (passed_over opts n k st e) = st.
Proof. reflexivity. Qed.

End Loop.

Section Skipping.
Context {H : Host}.
Variable rec : nested.
Variable opts : options.
Variable cgs : comment_group.
Variable infile : string.

Local Abbreviation step := (process_line rec opts cgs infile).
Local Abbreviation loop := (run_lines rec opts cgs infile).

(** The statement of a line is carried out and, in keep-lines mode,
    a blank line written. *)
Lemma passed_over_one (n : Z) (st : list cond_state) (e : engine) :
  (if should_keep_lines opts
   then Ok (write Str.nl (set_states st (set_defines (<["__LINE__" := VInt (n + 1)]> (defines e)) e)))
   else Ok (set_states st (set_defines (<["__LINE__" := VInt (n + 1)]> (defines e)) e)))
  = Ok (passed_over opts n 1 st e).
Proof.
  unfold passed_over, blanks, write, set_states, set_defines; simpl.
  destruct (should_keep_lines opts); simpl; auto.
  now rewrite app_nil_r.
Qed.

Lemma skip_plain (n : Z) (line : string) (e : engine) :
  classify cgs line = Plain -> top_is_skip (states e) = true ->
  step (n + 1) line e = Ok (passed_over opts n 1 (states e) e).
Proof.
  intros Hc Hs. unfold process_line, classify in *.
  destruct (stmt_match cgs line) as [[[] x| | | | | | |]|]; try discriminate;
    simpl; rewrite ?Hs; simpl; try apply passed_over_one.
  unfold emit_line; simpl.
  destruct (states e) as [|[[[] ?] ?] ?] eqn:Hst; try discriminate.
  rewrite <- Hst. unfold passed_over, blanks, write; simpl.
  destruct (should_keep_lines opts); simpl; rewrite ?app_nil_r; reflexivity.
Qed.

Lemma skip_opens (n : Z) (line : string) (e : engine) :
  classify cgs line = Opens -> top_is_skip (states e) = true ->
  step (n + 1) line e = Ok (passed_over opts n 1 ((SKIP, false, false) :: states e) e).
Proof.
  intros Hc Hs. destruct (classify_opens cgs line Hc) as (op & x & Hm & Hop).
  unfold process_line. rewrite Hm.
  destruct op; try congruence; simpl; rewrite Hs; simpl; apply passed_over_one.
Qed.

Lemma skip_elif (n : Z) (line : string) (e : engine) m em below :
  classify cgs line = Elif -> states e = (m, em, false) :: below ->
  em = true \/ top_is_skip below = true ->
  step (n + 1) line e = Ok (passed_over opts n 1 ((SKIP, em, false) :: below) e).
Proof.
  intros Hc Hs Hem. destruct (classify_elif cgs line Hc) as (x & Hm).
  unfold process_line. rewrite Hm. simpl. rewrite Hs.
  destruct em; simpl; [apply passed_over_one|].
  destruct Hem as [|Hb]; [discriminate|]. rewrite Hb. simpl. apply passed_over_one.
Qed.

Lemma skip_else (n : Z) (line : string) (e : engine) m em below :
  classify cgs line = Else -> states e = (m, em, false) :: below ->
  em = true \/ top_is_skip below = true ->
  step (n + 1) line e = Ok (passed_over opts n 1 ((SKIP, em, true) :: below) e).
Proof.
  intros Hc Hs Hem. pose proof (classify_else cgs line Hc) as Hm.
  unfold process_line. rewrite Hm. simpl. rewrite Hs.
  destruct em; simpl; [apply passed_over_one|].
  destruct Hem as [|Hb]; [discriminate|]. rewrite Hb. simpl. apply passed_over_one.
Qed.

Lemma step_endif (n : Z) (line : string) (e : engine) top below :
  classify cgs line = Endif -> states e = top :: below ->
  step (n + 1) line e = Ok (passed_over opts n 1 below e).
Proof.
  intros Hc Hs. pose proof (classify_endif cgs line Hc) as Hm.
  unfold process_line. rewrite Hm. simpl. rewrite Hs. apply passed_over_one.
Qed.

Lemma passed_over_none (n : Z) (e : engine) : passed_over opts n 0 (states e) e = e.
Proof.
  destruct e. unfold passed_over, blanks; simpl.
  destruct (should_keep_lines opts); simpl; now rewrite app_nil_r.
Qed.

(** A line that is passed over, followed by lines that are passed over. *)
Lemma loop_passed_cons (line : string) (rest : list string) (n : Z) (e : engine)
    (st1 st2 : list cond_state) :
  step (n + 1) line e = Ok (passed_over opts n 1 st1 e) ->
  loop rest (n + 1) (passed_over opts n 1 st1 e)
    = Ok (passed_over opts (n + 1) (length rest) st2 (passed_over opts n 1 st1 e)) ->
  loop (line :: rest) n e = Ok (passed_over opts n (length (line :: rest)) st2 e).
Proof.
  intros H1 H2. simpl run_lines. rewrite H1. simpl bind. rewrite H2.
  change (n + 1)%Z with (n + Z.of_nat 1)%Z. now rewrite passed_over_add.
Qed.

Lemma loop_passed_app (l1 l2 : list string) (n : Z) (e : engine)
    (st1 st2 : list cond_state) :
  loop l1 n e = Ok (passed_over opts n (length l1) st1 e) ->
  loop l2 (n + Z.of_nat (length l1)) (passed_over opts n (length l1) st1 e)
    = Ok (passed_over opts (n + Z.of_nat (length l1)) (length l2) st2
            (passed_over opts n (length l1) st1 e)) ->
  loop (l1 ++ l2) n e = Ok (passed_over opts n (length (l1 ++ l2)) st2 e).
Proof.
  intros H1 H2. rewrite run_lines_app, H1. simpl bind. rewrite H2.
  now rewrite passed_over_add, length_app.
Qed.

(** Inside a skipped section nothing is evaluated, defined, included or
    written but blank lines: complete blocks leave the stack as it was,
    and the rest of a chain whose block has emitted, or lies in a skipped
    section, only pops it. *)
Lemma skip_blocks :
  (forall body, balanced cgs body ->
     forall n e, top_is_skip (states e) = true ->
       loop body n e = Ok (passed_over opts n (length body) (states e) e)) /\
  (forall tail, chain_tail cgs tail ->
     forall n e m em below,
       states e = (m, em, false) :: below ->
       em = true \/ top_is_skip below = true ->
       loop tail n e = Ok (passed_over opts n (length tail) below e)).
Proof.
  apply blocks_ind.
  - intros n e _. simpl. now rewrite passed_over_none.
  - intros line rest Hc _ IH n e Hs.
    apply loop_passed_cons with (st1 := states e).
    + now apply skip_plain.
    + apply (IH (n + 1)%Z (passed_over opts n 1 (states e) e)). exact Hs.
  - intros line body tail rest Hc _ IHb _ IHt _ IHr n e Hs.
    apply loop_passed_cons with (st1 := (SKIP, false, false) :: states e).
    + now apply skip_opens.
    + apply loop_passed_app with (st1 := (SKIP, false, false) :: states e).
      * apply (IHb (n + 1)%Z (passed_over opts n 1 ((SKIP, false, false) :: states e) e)).
        reflexivity.
      * apply loop_passed_app with (st1 := states e).
        -- apply (IHt _ (passed_over opts _ _ ((SKIP, false, false) :: states e) _)
                      SKIP false (states e)); [reflexivity | now right].
        -- apply (IHr _ (passed_over opts _ (length tail) (states e) _)). exact Hs.
  - intros line Hc n e m em below Hs _.
    replace (passed_over opts n (length [line]) below e)
      with (passed_over opts n 1 below e) by reflexivity.
    simpl run_lines. erewrite step_endif by eauto. reflexivity.
  - intros line body tail Hc _ IHb _ IHt n e m em below Hs Hem.
    apply loop_passed_cons with (st1 := (SKIP, em, false) :: below).
    + eapply skip_elif; eauto.
    + apply loop_passed_app with (st1 := (SKIP, em, false) :: below).
      * apply (IHb (n + 1)%Z (passed_over opts n 1 ((SKIP, em, false) :: below) e)).
        reflexivity.
      * apply (IHt _ (passed_over opts _ _ ((SKIP, em, false) :: below) _) SKIP em below);
          [reflexivity | exact Hem].
  - intros line body last Hc _ IHb Hl n e m em below Hs Hem.
    apply loop_passed_cons with (st1 := (SKIP, em, true) :: below).
    + eapply skip_else; eauto.
    + apply loop_passed_app with (st1 := (SKIP, em, true) :: below).
      * apply (IHb (n + 1)%Z (passed_over opts n 1 ((SKIP, em, true) :: below) e)).
        reflexivity.
      * replace (length [last]) with 1%nat by reflexivity.
        simpl run_lines. erewrite step_endif by (eauto; reflexivity). reflexivity.
Qed.
End Skipping.

(** Case analysis on whatever a hypothesis of the form [_ = Ok _] still
    branches on. *)
Ltac split_run Hrun :=
  repeat match type of Hrun with
         | context [match ?x with _ => _ end] =>
             destruct x eqn:?; simpl in Hrun; try discriminate Hrun
         end.

Section Stack.
Context {H : Host}.
Variable rec : nested.
Variable opts : options.
Variable cgs : comment_group.
Variable infile : string.

Local Abbreviation step := (process_line rec opts cgs infile).
Local Abbreviation loop := (run_lines rec opts cgs infile).

Lemma located_raises {A : Type} (msg : string) (line : option string)
    (d : gmap string value) (a : A) : located msg line d <> Ok a.
Proof. unfold located. now destruct (d !! "__FILE__"), (d !! "__LINE__"). Qed.

(** What a statement does to the stack when it does not raise. *)
Lemma exec_stmt_states (line : string) (m : stmt) (e e1 : engine) :
  exec_stmt rec opts infile line m e = Ok e1 ->
  match m with
  | StCond OpElif _ | StElse =>
      exists top top' below, states e = top :: below /\ states e1 = top' :: below
  | StCond _ _ => exists top, states e1 = top :: states e
  | StEndif => exists top, states e = top :: states e1
  | _ => states e1 = states e
  end.
Proof.
  intros Hrun.
  destruct m as [[] x| | | | | | |]; simpl in Hrun;
    unfold _evaluate, located, do_include, bind in Hrun;
    split_run Hrun; inversion Hrun; subst; simpl; eauto.
all: match goal with Hr : _ = Ok _ |- _ => split_run Hr; inversion Hr; subst; simpl; eauto end.
Qed.

Lemma step_states (n : Z) (line : string) (e e1 : engine) :
  step n line e = Ok e1 ->
  match classify cgs line with
  | Plain => states e1 = states e
  | Opens => exists top, states e1 = top :: states e
  | Elif | Else => exists top top' below, states e = top :: below /\ states e1 = top' :: below
  | Endif => exists top, states e = top :: states e1
  end.
Proof.
  unfold process_line, classify. intros Hrun.
  destruct (stmt_match cgs line) as [m|].
  - destruct (exec_stmt rec opts infile line m _) as [e2| |] eqn:Hx; try discriminate.
    apply exec_stmt_states in Hx. simpl in Hrun.
    assert (states e1 = states e2) as ->
      by (destruct (should_keep_lines opts); inversion Hrun; reflexivity).
    destruct m as [[] x| | | | | | |]; exact Hx.
  - unfold emit_line, located in Hrun. simpl in Hrun.
    split_run Hrun; inversion Hrun; subst; simpl; congruence.
Qed.

(** Complete blocks leave the stack as they found it, and the rest of a
    chain pops the state of its block, whatever is emitted, defined or
    included on the way. *)
Lemma blocks_restore :
  (forall body, balanced cgs body ->
     forall n e e', loop body n e = Ok e' -> states e' = states e) /\
  (forall tail, chain_tail cgs tail ->
     forall n e e' top below,
       states e = top :: below -> loop tail n e = Ok e' -> states e' = below).
Proof.
  apply blocks_ind.
  - intros n e e' Hrun. now inversion Hrun.
  - intros line rest Hc _ IH n e e' Hrun. simpl in Hrun.
    destruct (step (n + 1) line e) as [e1| |] eqn:H1; try discriminate.
    apply step_states in H1. rewrite Hc in H1.
    apply IH in Hrun. congruence.
  - intros line body tail rest Hc _ IHb _ IHt _ IHr n e e' Hrun. simpl in Hrun.
    destruct (step (n + 1) line e) as [e1| |] eqn:H1; try discriminate.
    apply step_states in H1. rewrite Hc in H1. destruct H1 as [top H1].
    simpl in Hrun. rewrite run_lines_app in Hrun.
    destruct (loop body (n + 1) e1) as [e2| |] eqn:H2; try discriminate.
    apply IHb in H2. simpl in Hrun. rewrite run_lines_app in Hrun.
    destruct (loop tail _ e2) as [e3| |] eqn:H3; try discriminate.
    apply (IHt _ _ _ top (states e)) in H3; [|congruence].
    apply IHr in Hrun. congruence.
  - intros line Hc n e e' top below Hs Hrun. simpl in Hrun.
    destruct (step (n + 1) line e) as [e1| |] eqn:H1; try discriminate.
    apply step_states in H1. rewrite Hc in H1. destruct H1 as [top' H1].
    inversion Hrun; subst. congruence.
  - intros line body tail Hc _ IHb _ IHt n e e' top below Hs Hrun. simpl in Hrun.
    destruct (step (n + 1) line e) as [e1| |] eqn:H1; try discriminate.
    apply step_states in H1. rewrite Hc in H1.
    destruct H1 as (t & t' & b & Hs1 & Hs2).
    simpl in Hrun. rewrite run_lines_app in Hrun.
    destruct (loop body (n + 1) e1) as [e2| |] eqn:H2; try discriminate.
    apply IHb in H2. simpl in Hrun.
    apply (IHt _ _ _ t' b) in Hrun; congruence.
  - intros line body last Hc _ IHb Hl n e e' top below Hs Hrun. simpl in Hrun.
    destruct (step (n + 1) line e) as [e1| |] eqn:H1; try discriminate.
    apply step_states in H1. rewrite Hc in H1.
    destruct H1 as (t & t' & b & Hs1 & Hs2).
    simpl in Hrun. rewrite run_lines_app in Hrun.
    destruct (loop body (n + 1) e1) as [e2| |] eqn:H2; try discriminate.
    apply IHb in H2. simpl in Hrun.
    destruct (step _ last e2) as [e3| |] eqn:H3; try discriminate.
    apply step_states in H3. rewrite Hl in H3. destruct H3 as [t3 H3].
    inversion Hrun; subst. congruence.
Qed.
End Stack.

(** ** The recursion guard and the output *)

Section Guard.
Context {H : Host}.
Variable rec : nested.
Variable opts : options.
Variable cgs : comment_group.
Variable infile : string.
Hypothesis rec_appends : appends rec.

Local Abbreviation step := (process_line rec opts cgs infile).
Local Abbreviation loop := (run_lines rec opts cgs infile).

(** A statement either leaves the stream and the guard alone or is an
    [#include] that appended to the guard. *)
Lemma exec_stmt_files (line : string) (m : stmt) (e e1 : engine) :
  exec_stmt rec opts infile line m e = Ok e1 ->
  (files e1 = files e /\ fout e1 = fout e) \/
  (exists x ext, files e1 = files e ++ x :: ext).
Proof using rec_appends.
  intros Hrun.
  destruct m as [[] x| | | | | | |]; simpl in Hrun;
    unfold _evaluate, located, do_include, bind in Hrun;
    split_run Hrun; inversion Hrun; subst; simpl; auto.
  all: try match goal with
           | Hr : rec _ _ _ _ = Ok _ |- _ =>
               apply rec_appends in Hr; destruct Hr as [ext ->]; right; eauto
           end.
  all: match goal with Hr : _ = Ok _ |- _ => split_run Hr; inversion Hr; subst; simpl; auto end.
Qed.

Lemma step_files (n : Z) (line : string) (e e1 : engine) :
  step n line e = Ok e1 ->
  (files e1 = files e /\ exists chunks, fout e1 = fout e ++ chunks) \/
  (exists x ext, files e1 = files e ++ x :: ext).
Proof using rec_appends.
  unfold process_line. intros Hrun.
  destruct (stmt_match cgs line) as [m|].
  - destruct (exec_stmt rec opts infile line m _) as [e2| |] eqn:Hx; try discriminate.
    apply exec_stmt_files in Hx. simpl in Hrun, Hx.
    destruct (should_keep_lines opts); inversion Hrun; subst; simpl;
      destruct Hx as [[-> ->]|Hx]; eauto; left; split; auto.
    exists []. now rewrite app_nil_r.
  - unfold emit_line, located in Hrun. simpl in Hrun.
    split_run Hrun; inversion Hrun; subst; simpl; left; split; eauto.
    all: exists []; now rewrite app_nil_r.
Qed.

Lemma step_files_prefix (n : Z) (line : string) (e e1 : engine) :
  step n line e = Ok e1 -> files e `prefix_of` files e1.
Proof using rec_appends.
  intros Hrun. apply step_files in Hrun.
  destruct Hrun as [[-> _]|(x & ext & ->)]; [reflexivity | now eexists].
Qed.

Lemma loop_files_prefix (lines : list string) (n : Z) (e e' : engine) :
  loop lines n e = Ok e' -> files e `prefix_of` files e'.
Proof using rec_appends.
  revert n e; induction lines as [|line lines IH]; intros n e Hrun; simpl in Hrun.
  - now inversion Hrun.
  - destruct (step (n + 1) line e) as [e1| |] eqn:H1; try discriminate.
    apply step_files_prefix in H1. apply IH in Hrun. now transitivity (files e1).
Qed.
End Guard.

Lemma finish_ok {H : Host} (e : engine) d out pf :
  finish e = Ok (d, out, pf) ->
  d = defines e /\ out = fout e /\ pf = files e /\ length (states e) = 1%nat.
Proof.
  unfold finish. intros Hf.
  destruct (Nat.ltb 1 (length (states e))) eqn:H1;
    [now apply located_raises in Hf|].
  destruct (Nat.ltb (length (states e)) 1) eqn:H2;
    [now apply located_raises in Hf|].
  inversion Hf; subst. apply Nat.ltb_ge in H1, H2. repeat split; lia.
Qed.

Lemma enter_ok {H : Host} opts ct infile out d pf cgs lines e :
  enter opts ct infile out d pf = Ok (cgs, lines, e) ->
  (path_normpath (path_abspath infile) ∉ pf) /\
  (exists text, file_read infile = Some text /\ lines = Str.readlines text) /\
  e = {| defines := <["__FILE__" := VStr infile]> d;
         states := [(EMIT, false, false)];
         fout := out;
         files := pf ++ [path_abspath infile] |}.
Proof.
  unfold enter, bind. intros He.
  destruct (decide _) as [|Hn]; try discriminate.
  split; [exact Hn|].
  split_run He; inversion He; subst; eauto.
Qed.

(** [preprocess] only ever appends to [_preprocessed_files], and the
    path of its own file comes first. *)
Lemma preprocess_appends {H : Host} (fuel : nat) (opts : options) (ct : option string) :
  appends (preprocess fuel opts ct).
Proof.
  revert ct; induction fuel as [|fuel IH]; intros ct f out d pf d' out' pf' Hrun;
    simpl in Hrun; try discriminate.
  destruct (enter opts ct f out d pf) as [[[cgs lines] e]| |] eqn:He; try discriminate.
  simpl in Hrun.
  destruct (run_lines _ opts cgs f lines 0 e) as [e'| |] eqn:Hl; try discriminate.
  simpl in Hrun. apply finish_ok in Hrun as (_ & _ & -> & _).
  apply loop_files_prefix in Hl; [|apply IH].
  apply enter_ok in He as (_ & _ & ->). simpl in Hl.
  destruct Hl as [ext ->]. exists ext. now rewrite <- app_assoc.
Qed.

(** A call on a file whose normalised absolute path is in the guard fails
    at once. *)
Lemma guarded_call_raises {H : Host} (fuel : nat) (opts : options) (ct : option string)
    (f : string) out d pf :
  path_normpath (path_abspath f) ∈ pf ->
  preprocess (S fuel) opts ct f out d pf
  = Raise (PreprocessorError ("detected recursive #include of '" +:+ f +:+ "'")
                             None None None).
Proof.
  intros Hin. simpl. unfold enter. now destruct (decide _).
Qed.

(** ** Conditional blocks *)

Section Branches.
Context {H : Host}.
Variable rec : nested.
Variable opts : options.
Variable cgs : comment_group.
Variable infile : string.

Local Abbreviation step := (process_line rec opts cgs infile).
Local Abbreviation loop := (run_lines rec opts cgs infile).

(** The state a condition leaves on top of the stack: a branch that
    emits is marked as having emitted, and no [#else] has been seen. *)
Lemma cond_top (op : cond_op) (x line : string) (e e1 : engine) :
  exec_stmt rec opts infile line (StCond op x) e = Ok e1 ->
  exists below, states e1 = (EMIT, true, false) :: below \/
                exists em, states e1 = (SKIP, em, false) :: below.
Proof.
  intros Hrun.
  destruct op; simpl in Hrun; unfold _evaluate, located, bind in Hrun;
    split_run Hrun; inversion Hrun; subst; simpl; eauto.
  all: match goal with Hr : _ = Ok _ |- _ => split_run Hr; inversion Hr; subst; simpl; eauto end.
Qed.

Lemma branch_head_emits (n : Z) (head : string) (e e1 : engine) em se below :
  classify cgs head = Opens \/ classify cgs head = Elif ->
  step n head e = Ok e1 ->
  states e1 = (EMIT, em, se) :: below ->
  em = true /\ se = false.
Proof.
  intros Hc Hrun Hs. unfold process_line in Hrun.
  assert (exists op x, stmt_match cgs head = Some (StCond op x)) as (op & x & Hm).
  { destruct Hc as [Hc|Hc].
    - destruct (classify_opens cgs head Hc) as (op & x & Hm & _); eauto.
    - destruct (classify_elif cgs head Hc) as (x & Hm); eauto. }
  rewrite Hm in Hrun.
  destruct (exec_stmt rec opts infile head _ _) as [e2| |] eqn:Hx; try discriminate.
  apply cond_top in Hx. destruct Hx as (b & Hx). simpl in Hrun.
  assert (states e1 = states e2) as Heq
    by (destruct (should_keep_lines opts); inversion Hrun; reflexivity).
  rewrite Heq in Hs. destruct Hx as [Hx|[em' Hx]]; rewrite Hx in Hs; now inversion Hs.
Qed.

End Branches.

(** ** Lines of text *)

Lemma readlines_shaped (s : string) : line_shaped (Str.readlines s).
Proof.
  induction s as [|c s IH]; simpl; auto.
  destruct (Ascii.eqb c (ascii_of_nat 10)) eqn:Hc.
  - split; [left; reflexivity | exact IH].
  - destruct (Str.readlines s) as [|l ls]; simpl in *; rewrite Hc.
    + auto.
    + destruct IH as [[Ht|[Hu ->]] IH]; split; auto.
      right. split; auto. destruct l; [discriminate|exact Hu].
Qed.

Lemma append_cons (c : ascii) (s t : string) : String c s +:+ t = String c (s +:+ t).
Proof. reflexivity. Qed.

Lemma readlines_terminated (l rest : string) :
  terminated l = true -> Str.readlines (l +:+ rest) = l :: Str.readlines rest.
Proof.
  induction l as [|c l IH]; [discriminate|].
  rewrite append_cons. simpl.
  destruct (Ascii.eqb c (ascii_of_nat 10)) eqn:Hc.
  - intros Hl. apply String.eqb_eq in Hl. subst l. simpl.
    apply Ascii.eqb_eq in Hc. now subst c.
  - intros Hl. now rewrite (IH Hl).
Qed.

Lemma readlines_unterminated (l : string) :
  unterminated l = true -> Str.readlines l = [l].
Proof.
  induction l as [|c l IH]; simpl; [discriminate|].
  destruct (Ascii.eqb c (ascii_of_nat 10)) eqn:Hc; [discriminate|].
  destruct l as [|c' l]; [reflexivity|].
  intros Hl. now rewrite (IH Hl).
Qed.

Lemma string_app_empty (s : string) : s +:+ EmptyString = s.
Proof. induction s as [|c s IH]; [reflexivity | now rewrite append_cons, IH]. Qed.

(** Written one after the other, lines of this shape are read back as
    they were written. *)
Lemma readlines_concat (ls : list string) :
  line_shaped ls -> Str.readlines (Str.concat ls) = ls.
Proof.
  induction ls as [|l ls IH]; simpl; auto.
  intros [[Ht|[Hu ->]] Hs].
  - rewrite readlines_terminated by exact Ht. now rewrite IH.
  - simpl. rewrite string_app_empty. now apply readlines_unterminated.
Qed.

Section Echo.
Context {H : Host}.
Variable rec : nested.
Variable opts : options.
Variable cgs : comment_group.
Variable infile : string.
Hypothesis rec_appends : appends rec.
Hypothesis keep : should_keep_lines opts = true.

Local Abbreviation step := (process_line rec opts cgs infile).
Local Abbreviation loop := (run_lines rec opts cgs infile).

(** In keep-lines mode a line that includes no file writes one chunk,
    decided by the stack and the defines the line is reached with. *)
Lemma step_echo (n : Z) (line : string) (e e1 : engine) :
  step n line e = Ok e1 -> files e1 = files e ->
  fout e1
  = fout e ++ [echo opts cgs (states e) (<["__LINE__" := VInt n]> (defines e)) line].
Proof using rec_appends keep.
  unfold process_line, echo. intros Hrun Hf.
  destruct (stmt_match cgs line) as [m|].
  - destruct (exec_stmt rec opts infile line m _) as [e2| |] eqn:Hx; try discriminate.
    simpl in Hrun. rewrite keep in Hrun. inversion Hrun; subst e1; clear Hrun.
    simpl in Hf. apply (exec_stmt_files rec opts infile rec_appends) in Hx.
    destruct Hx as [[_ Hout]|(x & ext & Hx)].
    + simpl. now rewrite Hout.
    + exfalso. rewrite Hx in Hf. simpl in Hf.
      apply (f_equal length) in Hf. rewrite length_app in Hf. simpl in Hf. lia.
  - unfold emit_line, located in Hrun. simpl in Hrun. rewrite keep in Hrun.
    destruct (states e) as [|[[[] a] b] below]; simpl in *.
    + split_run Hrun.
    + now inversion Hrun.
    + now inversion Hrun.
Qed.

(** A loop that includes no file writes one chunk for each line: the
    chunk of the line after [pre] is the one for the stack and the defines
    the loop has after [pre]. *)
Lemma loop_echo (lines : list string) (n : Z) (e e' : engine) :
  loop lines n e = Ok e' -> files e' = files e ->
  exists chunks,
    fout e' = fout e ++ chunks /\
    length chunks = length lines /\
    (forall pre line post,
        lines = pre ++ line :: post ->
        exists e1,
          loop pre n e = Ok e1 /\
          chunks !! length pre
          = Some (echo opts cgs (states e1)
                    (<["__LINE__" := VInt (n + Z.of_nat (length pre) + 1)]> (defines e1))
                    line)) /\
    (should_substitute opts = false ->
     Forall2 (fun line chunk => chunk = Str.nl \/ chunk = line) lines chunks).
Proof using rec_appends keep.
  revert n e; induction lines as [|line0 lines IH]; intros n e Hrun Hf; simpl in Hrun.
  - inversion Hrun; subst. exists []. rewrite app_nil_r.
    repeat split; auto.
    intros pre line post Hsplit. now destruct pre.
  - destruct (step (n + 1) line0 e) as [e1| |] eqn:H1; try discriminate. simpl in Hrun.
    assert (files e1 = files e) as Hf1.
    { pose proof (step_files_prefix rec opts cgs infile rec_appends _ _ _ _ H1) as [k1 Hk1].
      pose proof (loop_files_prefix rec opts cgs infile rec_appends _ _ _ _ Hrun) as [k2 Hk2].
      rewrite Hk2, Hk1, <- app_assoc in Hf.
      rewrite <- (app_nil_r (files e)) in Hf at 2.
      apply app_inv_head in Hf. apply app_eq_nil in Hf as [-> _].
      now rewrite app_nil_r in Hk1. }
    pose proof (step_echo _ _ _ _ H1 Hf1) as Hc1.
    destruct (IH _ _ Hrun) as (chunks & Hc & Hlen & Hat & Hshape); [congruence|].
    exists (echo opts cgs (states e) (<["__LINE__" := VInt (n + 1)]> (defines e)) line0
            :: chunks).
    split; [|split; [|split]].
    + rewrite Hc, Hc1, <- app_assoc. reflexivity.
    + simpl. now rewrite Hlen.
    + intros pre line post Hsplit. destruct pre as [|p pre]; simpl in Hsplit.
      * inversion Hsplit; subst. exists e. split; [reflexivity|].
        simpl. now rewrite Z.add_0_r.
      * inversion Hsplit; subst. destruct (Hat pre line post eq_refl) as (e2 & Hpre & Hk).
        exists e2. split.
        -- simpl. now rewrite H1.
        -- simpl length. change ((?c :: chunks) !! S (length pre)) with (chunks !! length pre).
           rewrite Hk.
           replace (n + 1 + Z.of_nat (length pre) + 1)%Z
             with (n + Z.of_nat (S (length pre)) + 1)%Z by lia.
           reflexivity.
    + intros Hsub. constructor; [|auto].
      unfold echo. rewrite Hsub.
      destruct (stmt_match cgs line0); [now left|].
      destruct (top_is_skip (states e)); [now left | now right].
Qed.
End Echo.

(** Chunks that are blank lines or the lines of a text are lines of the
    same shape. *)
Lemma echo_shaped (lines chunks : list string) :
  Forall2 (fun line chunk => chunk = Str.nl \/ chunk = line) lines chunks ->
  line_shaped lines -> line_shaped chunks.
Proof.
  intros Hall. induction Hall as [|line chunk lines chunks Hecho Hall IH]; simpl; auto.
  intros [Hl Hs]. split; [|auto].
  destruct Hecho as [-> | ->].
  - now left.
  - destruct Hl as [Hl|[Hl ->]]; [now left|].
    right. split; auto. now inversion Hall.
Qed.

(** What processing an [#include] line whose file is found comes to when
    the nested call returns: the loop goes on with the defines, the stream
    and the guard that the call returned. *)
Lemma include_line_continues {H : Host} (rec : nested) (opts : options)
    (cgs : comment_group) (infile line : string) (m : stmt) (f fname : string) (n : Z)
    (e : engine) (d' : gmap string value) (out' pf' : list string) :
  stmt_match cgs line = Some m ->
  top_is_skip (states e) = false ->
  include_ref m (<["__LINE__" := VInt n]> (defines e)) = Some f ->
  first_existing f (path_dirname infile :: include_paths opts) = Some fname ->
  rec fname (fout e) (<["__LINE__" := VInt n]> (defines e)) (files e) = Ok (d', out', pf') ->
  process_line rec opts cgs infile n line e
  = Ok {| defines := d';
          states := states e;
          fout := out' ++ blanks opts 1;
          files := pf' |}.
Proof.
  intros Hm Hs Href Hfound Hrec. unfold process_line. rewrite Hm.
  assert (exec_stmt rec opts infile line m
            (set_defines (<["__LINE__" := VInt n]> (defines e)) e)
          = Ok {| defines := d'; states := states e; fout := out'; files := pf' |}) as ->.
  { destruct m as [[] x| | | | | | |]; try discriminate Href;
      cbn [exec_stmt include_ref] in Href |- *;
      change (states (set_defines _ e)) with (states e); rewrite Hs.
    - inversion Href; subst. unfold do_include. rewrite Hfound.
      change (files (set_defines _ e)) with (files e).
      change (fout (set_defines _ e)) with (fout e).
      change (defines (set_defines ?d e)) with d.
      now rewrite Hrec.
    - change (defines (set_defines ?d e)) with d.
      destruct (<["__LINE__" := VInt n]> (defines e) !! _) as [[| | |fs|]|];
        try discriminate Href.
      inversion Href; subst. unfold do_include. rewrite Hfound.
      change (files (set_defines _ e)) with (files e).
      change (fout (set_defines _ e)) with (fout e).
      change (defines (set_defines ?d e)) with d.
      now rewrite Hrec. }
  simpl. unfold blanks, write. destruct (should_keep_lines opts); simpl.
  - reflexivity.
  - now rewrite app_nil_r.
Qed.

(** An [#include] line whose file is in the guard raises. *)
Lemma guarded_include_raises {H : Host} (fuel : nat) (opts : options)
    (cgs : comment_group) (infile line : string) (m : stmt) (f fname : string) (n : Z)
    (e : engine) :
  stmt_match cgs line = Some m ->
  top_is_skip (states e) = false ->
  include_ref m (<["__LINE__" := VInt n]> (defines e)) = Some f ->
  first_existing f (path_dirname infile :: include_paths opts) = Some fname ->
  path_normpath (path_abspath fname) ∈ files e ->
  process_line (preprocess (S fuel) opts None) opts cgs infile n line e
  = Raise (PreprocessorError ("detected recursive #include of '" +:+ fname +:+ "'")
                             None None None).
Proof.
  intros Hm Hs Href Hfound Hin. unfold process_line. rewrite Hm.
  assert (exec_stmt (preprocess (S fuel) opts None) opts infile line m
            (set_defines (<["__LINE__" := VInt n]> (defines e)) e)
          = Raise (PreprocessorError ("detected recursive #include of '" +:+ fname +:+ "'")
                                     None None None)) as ->; [|reflexivity].
  destruct m as [[] x| | | | | | |]; try discriminate Href;
    cbn [exec_stmt include_ref] in Href |- *;
    change (states (set_defines _ e)) with (states e); rewrite Hs.
  - inversion Href; subst. unfold do_include. rewrite Hfound.
    change (files (set_defines _ e)) with (files e).
    now rewrite (guarded_call_raises fuel opts None fname _ _ _ Hin).
  - change (defines (set_defines ?d e)) with d.
    destruct (<["__LINE__" := VInt n]> (defines e) !! _) as [[| | |fs|]|];
      try discriminate Href.
    inversion Href; subst. unfold do_include. rewrite Hfound.
    change (files (set_defines _ e)) with (files e).
    now rewrite (guarded_call_raises fuel opts None fname _ _ _ Hin).
Qed.

(** ** Chains of nested calls *)

Section Chains.
Context {H : Host}.
Variable opts : options.

Lemma includes_guard (m : nat) (c c' : call) :
  includes m opts c c' ->
  c_files c ++ [path_abspath (c_infile c)] `prefix_of` c_files c'.
Proof.
  intros (cgs & lines & e0 & pre & line & post & e & st & f & fname
          & He & _ & Hpre & _ & _ & _ & _ & ->).
  apply enter_ok in He as (_ & _ & ->).
  apply loop_files_prefix in Hpre; [exact Hpre | apply preprocess_appends].
Qed.

(** The paths of the files being processed are all in the guard a
    nested call receives. *)
Lemma chain_guard (n : nat) (c0 : call) (m : nat) (c : call) (active : list string) :
  chain opts n c0 m c active ->
  forall g, g ∈ active -> path_abspath g ∈ c_files c.
Proof.
  induction 1 as [|m c1 c2 active _ IH Hinc]; intros g Hg.
  - now apply elem_of_nil in Hg.
  - apply includes_guard in Hinc as [k ->].
    apply elem_of_app. left. apply elem_of_app.
    apply elem_of_cons in Hg as [->|Hg].
    + right. now apply list_elem_of_singleton.
    + left. now apply IH.
Qed.

(** An exception of the included file is an exception of the including
    one. *)
Local Arguments first_existing : simpl never.

Lemma includes_raise (m : nat) (c c' : call) (x : exn) :
  includes m opts c c' -> run m opts c' = Raise x -> run (S m) opts c = Raise x.
Proof.
  intros (cgs & lines & e0 & pre & line & post & e & st & f & fname
          & He & -> & Hpre & Hm & Hs & Hf & Hfound & ->) Hrun.
  unfold run in *. simpl in Hrun. simpl preprocess. rewrite He. simpl bind.
  rewrite (run_lines_next _ _ _ _ _ _ _ _ _ _ Hpre).
  unfold process_line. rewrite Hm.
  assert (exec_stmt (preprocess m opts None) opts (c_infile c) line st
            (set_defines (<["__LINE__" := VInt (0 + Z.of_nat (length pre) + 1)]> (defines e)) e)
          = Raise x) as ->; [|reflexivity].
  change (0 + Z.of_nat (length pre) + 1)%Z with (Z.of_nat (length pre) + 1)%Z.
  destruct st as [| | | | | |fn|var]; simpl in Hf; try discriminate;
    simpl; rewrite Hs.
  - inversion Hf; subst fn. unfold do_include. simpl. rewrite Hfound, Hrun. reflexivity.
  - destruct (_ !! var) as [[]|]; try discriminate. inversion Hf; subst.
    unfold do_include. simpl. rewrite Hfound, Hrun. reflexivity.
Qed.

Lemma chain_raise (n : nat) (c0 : call) (m : nat) (c : call) (active : list string)
    (x : exn) :
  chain opts n c0 m c active -> run m opts c = Raise x -> run n opts c0 = Raise x.
Proof.
  induction 1 as [|m c1 c2 active _ IH Hinc]; intros Hrun; auto.
  apply IH. eapply includes_raise; eauto.
Qed.
End Chains.

(** A complete, properly nested input passes the check after the loop. *)
Lemma balanced_input_passes_check {H : Host} (rec : nested) (opts : options)
    (cgs : comment_group) (infile : string) (lines : list string) (n : Z)
    (e e' : engine) :
  balanced cgs lines ->
  length (states e) = 1%nat ->
  run_lines rec opts cgs infile lines n e = Ok e' ->
  finish e' = Ok (defines e', fout e', files e').
Proof.
  intros Hb Hlen Hrun.
  apply (proj1 (blocks_restore rec opts cgs infile) lines Hb) in Hrun.
  unfold finish. now rewrite Hrun, Hlen.
Qed.

(** ** Sample runs *)

Example replace_nonoverlapping :
  Str.replace "aa" "b" "aaa" = "ba" /\ Str.replace "ab" "x" "cabab-ab" = "cxx-x" /\
  Str.replace EmptyString "-" "abc" = "-a-b-c-".
Proof. repeat split; reflexivity. Qed.

Example readlines_keeps_newlines :
  Str.readlines ("a" +:+ Str.nl +:+ Str.nl +:+ "bc") = ["a" +:+ Str.nl; Str.nl; "bc"].
Proof. reflexivity. Qed.

Example sorted_is_stable :
  sorted_by_len ["bb"; "a"; "cc"; "d"; "eee"] = ["a"; "d"; "bb"; "cc"; "eee"].
Proof. reflexivity. Qed.

Example statements_in_hash_comments :
  map (Posix.match_line Demo.hash)
      ["# #if FOO" +:+ Str.nl; "  # # ifdef X "; "#if FOO"; "# #define N 5"; "# #define N";
       "# #undef N M"; "# #include " +:+ Demo.quoted "b.txt"; "# #include INC";
       "# #else"; "# #elsewhere"; "# #error  boom  "; "plain text"]
  = [Some (StCond OpIf "FOO"); Some (StCond OpIfdef "X"); None;
     Some (StDefine "N" (Some "5")); Some (StDefine "N" None); None;
     Some (StIncludeFile "b.txt"); Some (StIncludeVar "INC");
     Some StElse; None; Some (StError "boom"); None].
Proof. vm_compute. reflexivity. Qed.

Example statements_in_block_comments :
  map (Posix.match_line [(Lit "<!--", Lit "-->"); (Lit "/*", Lit "*/"); (Lit "//", Lit EmptyString)])
      ["<!-- #ifdef X -->"; "/* #define N 5 */"; "  /*#endif*/ "; "// #else"; "<!-- #endif"]
  = [Some (StCond OpIfdef "X"); Some (StDefine "N" (Some "5")); Some StEndif;
     Some StElse; None].
Proof. vm_compute. reflexivity. Qed.

Example posix_paths :
  Posix.normpath "a/./b/../c//d" = "a/c/d" /\ Posix.normpath "/../x" = "/x" /\
  Posix.dirname "a/b/c.txt" = "a/b" /\ Posix.dirname "c.txt" = EmptyString /\
  Posix.basename "a/b/c.txt" = "c.txt" /\ Posix.abspath "/w" "b.txt" = "/w/b.txt" /\
  Posix.join "inc" "b.txt" = "inc/b.txt".
Proof. repeat split; reflexivity. Qed.

Example content_type_by_suffix :
  get_content_type (H := Demo.host [("lib/a.py", "import os")]) Demo.registry "lib/a.py"
  = Ok (Some "Python").
Proof. vm_compute. reflexivity. Qed.

(** [# #if FOO] / [kept] / [# #else] / [dropped] / [# #endif] with [FOO]
    defined as 1 writes [kept]. *)
Example taken_branch_is_kept :
  preprocess (H := Demo.host [("a.txt", Demo.text ["# #if FOO"; "kept"; "# #else"; "dropped";
                                                   "# #endif"])])
             1 (Demo.opts false false) None "a.txt" [] {[ "FOO" := VInt 1 ]} []
  = Ok (<["__LINE__" := VInt 5]> (<["__FILE__" := VStr "a.txt"]> {[ "FOO" := VInt 1 ]}),
        ["kept" +:+ Str.nl], ["/w/a.txt"]).
Proof. vm_compute. reflexivity. Qed.

(** [#define N 5] followed by [value is N], with substitution, writes
    [value is 5]. *)
Example define_is_substituted :
  preprocess (H := Demo.host [("a.txt", Demo.text ["# #define N 5"; "value is N"])])
             1 (Demo.opts false true) None "a.txt" [] Demo.no_defines []
  = Ok (<["__LINE__" := VInt 2]> (<["N" := VInt 5]> {[ "__FILE__" := VStr "a.txt" ]}),
        ["value is 5" +:+ Str.nl], ["/w/a.txt"]).
Proof. vm_compute. reflexivity. Qed.

(** [#if BAR] with [BAR] undefined fails, naming [BAR], the file and the
    line. *)
Example undefined_name_is_reported :
  preprocess (H := Demo.host [("a.txt", Demo.text ["# #if BAR"])])
             1 (Demo.opts false false) None "a.txt" [] Demo.no_defines []
  = Raise (PreprocessorError "name 'BAR' is not defined" (Some (VStr "a.txt"))
                             (Some (VInt 1)) None).
Proof. vm_compute. reflexivity. Qed.

(** * The claims *)

(** C1. The input [# #endif] / [# #if 1] is unbalanced both ways: its
    [#endif] has no [#if] before it and its [#if] is never closed.
    [preprocess] returns all the same: the [#endif] pops the bottom state
    of the stack without an error, the [#if] pushes a state in its place,
    and the check after the loop finds one state. *)
Theorem surplus_endif_then_open_if_is_accepted :
  preprocess (H := Demo.host Demo.unbalanced) 1 (Demo.opts false false) None "a.txt"
             [] Demo.no_defines []
  = Ok (<["__LINE__" := VInt 2]> {[ "__FILE__" := VStr "a.txt" ]}, [], ["/w/a.txt"]).
Proof. vm_compute. reflexivity. Qed.

(** C2. Whenever a call of [preprocess] nested in a run, at any depth,
    is made on a file that is being processed (a file whose normalised
    absolute path is that of a file of the active chain), the call fails
    with the recursive-include error at its guard check, before anything
    of the file is read, and the whole run fails with that error. *)
Theorem recursive_include_is_detected {H : Host} (opts : options) (n : nat) (c0 : call)
    (m : nat) (c : call) (active : list string) (g : string) :
  chain opts n c0 (S m) c active ->
  g ∈ active ->
  path_normpath (path_abspath (c_infile c)) = path_abspath g ->
  run (S m) opts c
    = Raise (PreprocessorError ("detected recursive #include of '" +:+ c_infile c +:+ "'")
                               None None None) /\
  run n opts c0
    = Raise (PreprocessorError ("detected recursive #include of '" +:+ c_infile c +:+ "'")
                               None None None).
Proof.
  intros Hchain Hg Hsame.
  assert (run (S m) opts c
          = Raise (PreprocessorError
                     ("detected recursive #include of '" +:+ c_infile c +:+ "'")
                     None None None)) as Hrun.
  { apply guarded_call_raises. rewrite Hsame. eapply chain_guard; eauto. }
  split; [exact Hrun|]. eapply chain_raise; eauto.
Qed.

Lemma recursive_include_is_detected_witness :
  run (H := Demo.host Demo.cycle) 1 (Demo.opts false false) Demo.inner_call
    = Raise (PreprocessorError "detected recursive #include of 'a.txt'" None None None) /\
  run (H := Demo.host Demo.cycle) 3 (Demo.opts false false) Demo.outer_call
    = Raise (PreprocessorError "detected recursive #include of 'a.txt'" None None None).
Proof.
  apply (recursive_include_is_detected (H := Demo.host Demo.cycle) (Demo.opts false false)
           3 Demo.outer_call 0 Demo.inner_call ["b.txt"; "a.txt"] "a.txt").
  - apply (chain_include _ 3 _ 1 Demo.middle_call Demo.inner_call ["a.txt"]).
    + apply (chain_include _ 3 _ 2 Demo.outer_call Demo.middle_call []).
      * apply chain_top.
      * exists Demo.hash, ["# #include " +:+ Demo.quoted "b.txt" +:+ Str.nl],
          Demo.start, [], ("# #include " +:+ Demo.quoted "b.txt" +:+ Str.nl), [],
          Demo.start, (StIncludeFile "b.txt"), "b.txt", "b.txt".
        repeat split; vm_compute; reflexivity.
    + exists Demo.hash, ["# #include " +:+ Demo.quoted "a.txt" +:+ Str.nl],
        Demo.start_included, [], ("# #include " +:+ Demo.quoted "a.txt" +:+ Str.nl), [],
        Demo.start_included, (StIncludeFile "a.txt"), "a.txt", "a.txt".
      repeat split; vm_compute; reflexivity.
  - apply elem_of_cons. right. apply elem_of_cons. now left.
  - vm_compute. reflexivity.
Defined.

(** C3. [__FILE__] is set when a file is entered and is not set back when
    an [#include] returns.  In [a.txt], whose line 1 includes [b.txt], the
    condition on line 2 is evaluated with [__FILE__] holding [b.txt], and
    its failure is reported for [b.txt], line 2. *)
Theorem file_identifier_is_stale_after_include :
  (exists e,
      run_lines (H := Demo.host Demo.after_include)
                (preprocess (H := Demo.host Demo.after_include) 1 (Demo.opts false false) None)
                (Demo.opts false false)
                Demo.hash "a.txt" ["# #include " +:+ Demo.quoted "b.txt" +:+ Str.nl] 0
                Demo.start = Ok e /\
      defines e !! "__FILE__" = Some (VStr "b.txt")) /\
  preprocess (H := Demo.host Demo.after_include) 2 (Demo.opts false false) None "a.txt"
             [] Demo.no_defines []
  = Raise (PreprocessorError "name 'NOPE' is not defined" (Some (VStr "b.txt"))
                             (Some (VInt 2)) None).
Proof.
  split.
  - eexists. split; vm_compute; reflexivity.
  - vm_compute. reflexivity.
Qed.

(** C4. The content of the file is sniffed whether or not the path has
    given a content type: for [a.py], which the suffix map resolves to
    Python and whose text starts with [<?xml], [get_content_type] returns
    XML. *)
Theorem xml_sniffing_overrides_the_suffix :
  suffixMap Demo.registry !! ".py" = Some "Python" /\
  get_content_type (H := Demo.host Demo.xml_python) Demo.registry "a.py" = Ok (Some "XML").
Proof. split; vm_compute; reflexivity. Qed.

(** C5. Of the branches of an [#if]/[#elif]/[#else] chain at most one
    emits.  When the head of a branch, an [#if], [#ifdef], [#ifndef] or
    [#elif] line, leaves EMIT on top of the stack and the body of the branch
    has been processed, the rest of the chain, every later [#elif] and
    [#else] branch up to the [#endif], is only passed over: nothing is
    written but the blank lines of keep-lines mode, nothing is defined or
    included, and the block is popped.  This holds for every evaluator, so
    the later conditions are not evaluated, whatever they would yield. *)
Theorem emitting_branch_excludes_later_ones {H : Host} (rec : nested) (opts : options)
    (cgs : comment_group) (infile head : string) (body tail : list string)
    (n : Z) (e e1 e2 : engine) (em se : bool) (below : list cond_state) :
  classify cgs head = Opens \/ classify cgs head = Elif ->
  balanced cgs body ->
  chain_tail cgs tail ->
  process_line rec opts cgs infile (n + 1) head e = Ok e1 ->
  states e1 = (EMIT, em, se) :: below ->
  run_lines rec opts cgs infile body (n + 1) e1 = Ok e2 ->
  run_lines rec opts cgs infile tail (n + 1 + Z.of_nat (length body)) e2
    = Ok (passed_over opts (n + 1 + Z.of_nat (length body)) (length tail) below e2) /\
  run_lines rec opts cgs infile (head :: body ++ tail) n e
    = Ok (passed_over opts (n + 1 + Z.of_nat (length body)) (length tail) below e2).
Proof.
  intros Hc Hb Ht H1 Hs H2.
  destruct (branch_head_emits rec opts cgs infile _ _ _ _ _ _ _ Hc H1 Hs) as [-> ->].
  assert (states e2 = (EMIT, true, false) :: below) as Hs2.
  { rewrite <- Hs. exact (proj1 (blocks_restore rec opts cgs infile) body Hb _ _ _ H2). }
  assert (run_lines rec opts cgs infile tail (n + 1 + Z.of_nat (length body)) e2
          = Ok (passed_over opts (n + 1 + Z.of_nat (length body)) (length tail) below e2))
    as Htail.
  { apply (proj2 (skip_blocks rec opts cgs infile) tail Ht _ _ EMIT true below Hs2).
    now left. }
  split; [exact Htail|].
  simpl run_lines. rewrite H1. simpl bind.
  rewrite run_lines_app, H2. exact Htail.
Qed.

Lemma emitting_branch_excludes_later_ones_witness :
  run_lines (H := Demo.host []) (preprocess (H := Demo.host []) 0 (Demo.opts false false) None)
            (Demo.opts false false) Demo.hash "a.txt" Demo.chain_rest
            (0 + 1 + Z.of_nat (length Demo.chain_body)) Demo.after_first_branch
    = Ok (passed_over (Demo.opts false false) (0 + 1 + Z.of_nat (length Demo.chain_body))
                      (length Demo.chain_rest) [(EMIT, false, false)]
                      Demo.after_first_branch) /\
  run_lines (H := Demo.host []) (preprocess (H := Demo.host []) 0 (Demo.opts false false) None)
            (Demo.opts false false) Demo.hash "a.txt"
            (Demo.chain_head :: Demo.chain_body ++ Demo.chain_rest) 0 Demo.start
    = Ok (passed_over (Demo.opts false false) (0 + 1 + Z.of_nat (length Demo.chain_body))
                      (length Demo.chain_rest) [(EMIT, false, false)]
                      Demo.after_first_branch).
Proof.
  apply (emitting_branch_excludes_later_ones (H := Demo.host [])
           (preprocess (H := Demo.host []) 0 (Demo.opts false false) None) (Demo.opts false false) Demo.hash
           "a.txt" Demo.chain_head Demo.chain_body Demo.chain_rest 0%Z Demo.start
           {| defines := Demo.at_line_1;
              states := [(EMIT, true, false); (EMIT, false, false)];
              fout := []; files := ["/w/a.txt"] |}
           Demo.after_first_branch true false [(EMIT, false, false)]).
  - left. vm_compute. reflexivity.
  - apply balanced_plain; [vm_compute; reflexivity | apply balanced_nil].
  - apply (tail_elif Demo.hash ("# #elif NOPE" +:+ Str.nl) ["B" +:+ Str.nl]
             ["# #else" +:+ Str.nl; "C" +:+ Str.nl; "# #endif" +:+ Str.nl]).
    + vm_compute. reflexivity.
    + apply balanced_plain; [vm_compute; reflexivity | apply balanced_nil].
    + apply (tail_else Demo.hash ("# #else" +:+ Str.nl) ["C" +:+ Str.nl]
               ("# #endif" +:+ Str.nl)).
      * vm_compute. reflexivity.
      * apply balanced_plain; [vm_compute; reflexivity | apply balanced_nil].
      * vm_compute. reflexivity.
  - vm_compute. reflexivity.
  - reflexivity.
  - vm_compute. reflexivity.
Defined.

(** C6. An [#if], [#ifdef] or [#ifndef] met while the top of the stack is
    SKIP pushes (SKIP, 0, 0) and its condition is not evaluated: the line
    is passed over whatever the evaluator would do with the expression.
    The same holds for every complete block of lines in a skipped section:
    no expression in it is evaluated, so none can raise. *)
Theorem skipped_section_evaluates_nothing {H : Host} (rec : nested) (opts : options)
    (cgs : comment_group) (infile : string) :
  (forall (n : Z) (line : string) (op : cond_op) (expr : string) (e : engine),
      stmt_match cgs line = Some (StCond op expr) ->
      op <> OpElif ->
      top_is_skip (states e) = true ->
      process_line rec opts cgs infile (n + 1) line e
      = Ok (passed_over opts n 1 ((SKIP, false, false) :: states e) e)) /\
  (forall (n : Z) (body : list string) (e : engine),
      balanced cgs body ->
      top_is_skip (states e) = true ->
      run_lines rec opts cgs infile body n e
      = Ok (passed_over opts n (length body) (states e) e)).
Proof.
  split.
  - intros n line op expr e Hm Hop Hs.
    apply skip_opens; auto.
    unfold classify. rewrite Hm. now destruct op.
  - intros n body e Hb Hs.
    now apply (proj1 (skip_blocks rec opts cgs infile)).
Qed.

Lemma skipped_section_evaluates_nothing_witness :
  py_eval (Host := Demo.host []) "NOPE" (<["__LINE__" := VInt 1]> (defines Demo.skipping))
    = EvalExc "name 'NOPE' is not defined" /\
  process_line (H := Demo.host []) (preprocess (H := Demo.host []) 0 (Demo.opts false false) None)
               (Demo.opts false false) Demo.hash "a.txt" (0 + 1)
               ("# #if NOPE" +:+ Str.nl) Demo.skipping
    = Ok (passed_over (Demo.opts false false) 0 1
                      ((SKIP, false, false) :: states Demo.skipping) Demo.skipping) /\
  run_lines (H := Demo.host []) (preprocess (H := Demo.host []) 0 (Demo.opts false false) None)
            (Demo.opts false false) Demo.hash "a.txt"
            (("# #if NOPE" +:+ Str.nl) :: [] ++ ["# #endif" +:+ Str.nl] ++ []) 0 Demo.skipping
    = Ok (passed_over (Demo.opts false false) 0 2 (states Demo.skipping) Demo.skipping).
Proof.
  split; [vm_compute; reflexivity|]. split.
  - apply (proj1 (skipped_section_evaluates_nothing (H := Demo.host [])
                    (preprocess (H := Demo.host []) 0 (Demo.opts false false) None) (Demo.opts false false)
                    Demo.hash "a.txt") 0%Z ("# #if NOPE" +:+ Str.nl) OpIf "NOPE" Demo.skipping).
    + vm_compute. reflexivity.
    + discriminate.
    + reflexivity.
  - apply (proj2 (skipped_section_evaluates_nothing (H := Demo.host [])
                    (preprocess (H := Demo.host []) 0 (Demo.opts false false) None) (Demo.opts false false)
                    Demo.hash "a.txt") 0%Z
                 (("# #if NOPE" +:+ Str.nl) :: [] ++ ["# #endif" +:+ Str.nl] ++ [])
                 Demo.skipping).
    + apply balanced_block.
      * vm_compute. reflexivity.
      * apply balanced_nil.
      * apply tail_endif. vm_compute. reflexivity.
      * apply balanced_nil.
    + reflexivity.
Defined.

(** C7, as the specification states it, fails: in keep-lines mode the
    one-line file [a.txt] of [Demo.includer] includes a two-line file, and
    three lines are written. *)
Lemma keep_lines_count_fails_with_include :
  ~ (forall (H : Host) (fuel : nat) (opts : options) (ct : option string)
            (infile text : string) (d d' : gmap string value) (out' pf' : list string),
        should_keep_lines opts = true ->
        file_read infile = Some text ->
        preprocess fuel opts ct infile [] d [] = Ok (d', out', pf') ->
        length (Str.readlines (Str.concat out')) = length (Str.readlines text)).
Proof.
  intros claim.
  pose (H := Demo.host Demo.includer).
  destruct (preprocess 2 (Demo.opts true false) None "a.txt" [] Demo.no_defines [])
    as [[[d' out'] pf']| |] eqn:Hrun; try (vm_compute in Hrun; discriminate Hrun).
  specialize (claim H 2%nat (Demo.opts true false) None "a.txt"
                    (Demo.text ["# #include " +:+ Demo.quoted "b.txt"]) Demo.no_defines d' out' pf'
                    eq_refl eq_refl Hrun).
  vm_compute in Hrun. inversion Hrun; subst out'.
  vm_compute in claim. discriminate claim.
Qed.

(** The count fails with substitution as well, although no file is
    included: the value of a symbol may hold a newline.  With [X] defined
    as a text of two lines, the one-line file [a.txt] of
    [Demo.symbol_line] is written as two lines. *)
Lemma keep_lines_count_fails_with_substitution :
  ~ (forall (H : Host) (fuel : nat) (opts : options) (ct : option string)
            (infile text : string) (d d' : gmap string value) (out' pf' : list string),
        should_keep_lines opts = true ->
        file_read infile = Some text ->
        preprocess fuel opts ct infile [] d [] = Ok (d', out', pf') ->
        pf' = [path_abspath infile] ->
        length (Str.readlines (Str.concat out')) = length (Str.readlines text)).
Proof.
  intros claim.
  pose (H := Demo.host Demo.symbol_line).
  destruct (preprocess 1 (Demo.opts true true) None "a.txt" [] Demo.two_line_value [])
    as [[[d' out'] pf']| |] eqn:Hrun; try (vm_compute in Hrun; discriminate Hrun).
  assert (pf' = ["/w/a.txt"] /\ out' = ["a" +:+ Str.nl +:+ "b" +:+ Str.nl]) as [Hpf Hout].
  { vm_compute in Hrun. inversion Hrun; subst. split; reflexivity. }
  specialize (claim H 1%nat (Demo.opts true true) None "a.txt"
                    (Demo.text ["X"]) Demo.two_line_value d' out' pf'
                    eq_refl eq_refl Hrun Hpf).
  rewrite Hout in claim. vm_compute in claim. discriminate claim.
Qed.

(** C7, amended.  In keep-lines mode, when [preprocess] returns and no
    other file was entered on the way (the guard has grown by the path of
    the input alone), the output is one chunk for each line of the input,
    in the order of the lines.  The chunk of a line is decided by the
    statement patterns of the content type of the file and by the stack
    and the defines the loop has reached the line with: a blank line for
    a statement line, a blank line for a content line when the top of the
    stack is a skipping state, and the line itself, after substitution if
    that is enabled, for a content line when the top of the stack is an
    emitting state.  With substitution disabled the text written has
    exactly as many lines as the input. *)
Theorem keep_lines_line_for_line {H : Host} (fuel : nat) (opts : options)
    (ct : option string) (infile : string) (out : list string)
    (d d' : gmap string value) (pf out' pf' : list string) :
  should_keep_lines opts = true ->
  preprocess (S fuel) opts ct infile out d pf = Ok (d', out', pf') ->
  pf' = pf ++ [path_abspath infile] ->
  exists cgs text e0 chunks,
    enter opts ct infile out d pf = Ok (cgs, Str.readlines text, e0) /\
    file_read infile = Some text /\
    out' = out ++ chunks /\
    length chunks = length (Str.readlines text) /\
    (forall pre line post,
        Str.readlines text = pre ++ line :: post ->
        exists e,
          run_lines (preprocess fuel opts None) opts cgs infile pre 0 e0 = Ok e /\
          chunks !! length pre
          = Some (echo opts cgs (states e)
                    (<["__LINE__" := VInt (Z.of_nat (length pre) + 1)]> (defines e))
                    line)) /\
    (should_substitute opts = false ->
     length (Str.readlines (Str.concat chunks)) = length (Str.readlines text)).
Proof.
  intros Hkeep Hrun Hpf. simpl in Hrun.
  destruct (enter opts ct infile out d pf) as [[[cgs lines] e]| |] eqn:He; try discriminate.
  simpl in Hrun.
  destruct (run_lines _ opts cgs infile lines 0 e) as [e'| |] eqn:Hl; try discriminate.
  simpl in Hrun. apply finish_ok in Hrun as (_ & -> & -> & _).
  apply enter_ok in He as (_ & (text & Hread & ->) & ->).
  apply (loop_echo _ opts cgs infile (preprocess_appends fuel opts None) Hkeep) in Hl;
    [|now rewrite Hpf].
  destruct Hl as (chunks & Hout & Hlen & Hat & Hshape). simpl in Hout.
  exists cgs, text. eexists. exists chunks. split; [reflexivity|].
  split; [exact Hread|]. split; [exact Hout|]. split; [exact Hlen|]. split.
  - intros pre line post Hsplit. destruct (Hat pre line post Hsplit) as (e1 & Hpre & Hk).
    exists e1. split; [exact Hpre|]. now rewrite Z.add_0_l in Hk.
  - intros Hsub. rewrite readlines_concat; [exact Hlen|].
    eapply echo_shaped; [exact (Hshape Hsub) | apply readlines_shaped].
Qed.

Lemma keep_lines_line_for_line_witness :
  exists cgs text e0 chunks,
    enter (H := Demo.host Demo.two_branches) (Demo.opts true false) None "a.txt" []
          Demo.no_defines []
    = Ok (cgs, Str.readlines text, e0) /\
    file_read (Host := Demo.host Demo.two_branches) "a.txt" = Some text /\
    [Str.nl; Str.nl; Str.nl; "shown" +:+ Str.nl; Str.nl] = [] ++ chunks /\
    length chunks = length (Str.readlines text) /\
    (forall pre line post,
        Str.readlines text = pre ++ line :: post ->
        exists e,
          run_lines (H := Demo.host Demo.two_branches)
                    (preprocess (H := Demo.host Demo.two_branches) 0
                                (Demo.opts true false) None)
                    (Demo.opts true false) cgs "a.txt" pre 0 e0 = Ok e /\
          chunks !! length pre
          = Some (echo (H := Demo.host Demo.two_branches) (Demo.opts true false) cgs
                    (states e)
                    (<["__LINE__" := VInt (Z.of_nat (length pre) + 1)]> (defines e))
                    line)) /\
    (should_substitute (Demo.opts true false) = false ->
     length (Str.readlines (Str.concat chunks)) = length (Str.readlines text)).
Proof.
  apply (keep_lines_line_for_line (H := Demo.host Demo.two_branches) 0
           (Demo.opts true false) None "a.txt" [] Demo.no_defines
           (<["__LINE__" := VInt 5]> {[ "__FILE__" := VStr "a.txt" ]}) []
           [Str.nl; Str.nl; Str.nl; "shown" +:+ Str.nl; Str.nl] ["/w/a.txt"]).
  - reflexivity.
  - vm_compute. reflexivity.
  - vm_compute. reflexivity.
Defined.

(** C8. The substitution loop replaces one symbol after the other in the
    line as it stands, so what one replacement has written is matched by
    the next: with [AB] defined as [C] and [C] as [x], the content line
    [AB] is written as [x]. *)
Theorem substituted_text_is_substituted_again :
  substitute (<["C" := VStr "x"]> (<["AB" := VStr "C"]> Demo.at_line_1)) ("AB" +:+ Str.nl)
  = "x" +:+ Str.nl /\
  preprocess (H := Demo.host Demo.chained_defines) 1 (Demo.opts false true) None "a.txt"
             [] Demo.no_defines []
  = Ok (<["__LINE__" := VInt 3]>
          (<["C" := VStr "x"]> (<["AB" := VStr "C"]> {[ "__FILE__" := VStr "a.txt" ]})),
        ["x" +:+ Str.nl], ["/w/a.txt"]).
Proof. split; vm_compute; reflexivity. Qed.

(** C9, as the specification states it, fails: the message of the failure
    an [#error] line raises is not the text of its argument.  For the file
    [a.txt] of [Demo.error_line] the message is [#error: boom]. *)
Lemma error_message_is_not_the_bare_argument :
  ~ (forall (H : Host) (fuel : nat) (opts : options) (ct : option string)
            (infile : string) (out : list string) (d : gmap string value)
            (pf : list string) (cgs : comment_group) (lines : list string)
            (e0 : engine) (pre : list string) (line : string) (post : list string)
            (e : engine) (error : string),
        enter opts ct infile out d pf = Ok (cgs, lines, e0) ->
        lines = pre ++ line :: post ->
        run_lines (preprocess fuel opts None) opts cgs infile pre 0 e0 = Ok e ->
        stmt_match cgs line = Some (StError error) ->
        (exists a b below, states e = (EMIT, a, b) :: below) ->
        exists file number text,
          preprocess (S fuel) opts ct infile out d pf
          = Raise (PreprocessorError error file number text)).
Proof.
  intros claim.
  destruct (claim (Demo.host Demo.error_line) 0%nat (Demo.opts false false) None "a.txt"
                  [] Demo.no_defines [] Demo.hash ["# #error boom" +:+ Str.nl]
                  Demo.start
                  [] ("# #error boom" +:+ Str.nl) [] Demo.start "boom")
    as (file & number & text & Hrun).
  - vm_compute. reflexivity.
  - reflexivity.
  - reflexivity.
  - vm_compute. reflexivity.
  - now exists false, false, [].
  - vm_compute in Hrun. discriminate Hrun.
Qed.

(** C9, amended.  When the loop of [preprocess] reaches an [#error] line
    while the top of the stack is EMIT and [__FILE__] holds the path of the
    input, [preprocess] fails with a [PreprocessorError] that carries that
    path, the number of the line and the line, and whose message is
    [#error: ] followed by the argument of the directive.  While the top of
    the stack is SKIP the line is passed over and the loop goes on. *)
Theorem error_directive_raises {H : Host} (fuel : nat) (opts : options)
    (ct : option string) (infile : string) (out : list string) (d : gmap string value)
    (pf : list string) (cgs : comment_group) (lines : list string) (e0 : engine)
    (pre : list string) (line : string) (post : list string) (e : engine)
    (error : string) :
  enter opts ct infile out d pf = Ok (cgs, lines, e0) ->
  lines = pre ++ line :: post ->
  run_lines (preprocess fuel opts None) opts cgs infile pre 0 e0 = Ok e ->
  stmt_match cgs line = Some (StError error) ->
  ((exists a b below, states e = (EMIT, a, b) :: below) ->
   defines e !! "__FILE__" = Some (VStr infile) ->
   preprocess (S fuel) opts ct infile out d pf
   = Raise (PreprocessorError ("#error: " +:+ error) (Some (VStr infile))
                              (Some (VInt (Z.of_nat (length pre) + 1))) (Some line))) /\
  ((exists a b below, states e = (SKIP, a, b) :: below) ->
   preprocess (S fuel) opts ct infile out d pf
   = bind (run_lines (preprocess fuel opts None) opts cgs infile post
                     (Z.of_nat (length pre) + 1)
                     (passed_over opts (Z.of_nat (length pre)) 1 (states e) e))
          finish).
Proof.
  intros He -> Hpre Hm.
  simpl preprocess. rewrite He. simpl bind.
  rewrite (run_lines_next _ _ _ _ _ _ _ _ _ _ Hpre).
  change (0 + Z.of_nat (length pre) + 1)%Z with (Z.of_nat (length pre) + 1)%Z.
  split.
  - intros (a & b & below & Hs) Hfile.
    unfold process_line. rewrite Hm. simpl. rewrite Hs. simpl.
    unfold located.
    rewrite lookup_insert_ne by discriminate. rewrite Hfile.
    rewrite lookup_insert_eq. reflexivity.
  - intros (a & b & below & Hs).
    rewrite skip_plain.
    + reflexivity.
    + unfold classify. now rewrite Hm.
    + now rewrite Hs.
Qed.

Lemma error_directive_raises_witness :
  preprocess (H := Demo.host Demo.error_line) 1 (Demo.opts false false) None "a.txt" [] Demo.no_defines []
  = Raise (PreprocessorError ("#error: " +:+ "boom") (Some (VStr "a.txt"))
                             (Some (VInt (Z.of_nat (length (@nil string)) + 1)))
                             (Some ("# #error boom" +:+ Str.nl))).
Proof.
  apply (proj1 (error_directive_raises (H := Demo.host Demo.error_line) 0
                  (Demo.opts false false) None "a.txt" [] Demo.no_defines []
                  Demo.hash
                  ["# #error boom" +:+ Str.nl] Demo.start
                  [] ("# #error boom" +:+ Str.nl) [] Demo.start "boom"
                  ltac:(vm_compute; reflexivity) eq_refl eq_refl
                  ltac:(vm_compute; reflexivity))).
  - now exists false, false, [].
  - vm_compute. reflexivity.
Defined.

(** C10. [_preprocessed_files] is append-only.  A call of [preprocess]
    that returns has appended the path of its file, and nothing the loop
    of a later or enclosing call does removes it; any call made while the
    list holds the path, on a file with that normalised absolute path,
    fails with the recursive-include error, although the file is no longer
    being processed.  The list is threaded: when the call is the one an
    [#include] line makes, the loop of the including file goes on with the
    list the call returned, and a later [#include] of that loop, after
    any lines that were processed, whose file has that normalised absolute
    path raises the recursive-include error. *)
Theorem guard_is_append_only {H : Host} (fuel : nat) (opts : options) (ct : option string)
    (f : string) (out : list string) (d d' : gmap string value) (pf out' pf' : list string) :
  preprocess fuel opts ct f out d pf = Ok (d', out', pf') ->
  (exists ext, pf' = pf ++ path_abspath f :: ext) /\
  (forall (m : nat) (cgs : comment_group) (infile : string) (lines : list string)
          (n : Z) (e e' : engine),
      pf' `prefix_of` files e ->
      run_lines (preprocess m opts None) opts cgs infile lines n e = Ok e' ->
      pf' `prefix_of` files e') /\
  (forall (m : nat) (ct2 : option string) (f2 : string) (out2 : list string)
          (d2 : gmap string value) (pf2 : list string),
      pf' `prefix_of` pf2 ->
      path_normpath (path_abspath f2) = path_abspath f ->
      preprocess (S m) opts ct2 f2 out2 d2 pf2
      = Raise (PreprocessorError ("detected recursive #include of '" +:+ f2 +:+ "'")
                                 None None None)) /\
  (forall (cgs : comment_group) (infile line : string) (m1 : stmt) (f1 : string)
          (n : Z) (e : engine),
      ct = None ->
      out = fout e ->
      d = <["__LINE__" := VInt n]> (defines e) ->
      pf = files e ->
      stmt_match cgs line = Some m1 ->
      top_is_skip (states e) = false ->
      include_ref m1 d = Some f1 ->
      first_existing f1 (path_dirname infile :: include_paths opts) = Some f ->
      process_line (preprocess fuel opts None) opts cgs infile n line e
      = Ok {| defines := d';
              states := states e;
              fout := out' ++ blanks opts 1;
              files := pf' |} /\
      forall (mid : list string) (e2 : engine) (line2 : string) (m2 : stmt)
             (f2 fname2 : string),
        run_lines (preprocess fuel opts None) opts cgs infile mid n
                  {| defines := d';
                     states := states e;
                     fout := out' ++ blanks opts 1;
                     files := pf' |} = Ok e2 ->
        stmt_match cgs line2 = Some m2 ->
        top_is_skip (states e2) = false ->
        include_ref m2 (<["__LINE__" := VInt (n + Z.of_nat (length mid) + 1)]> (defines e2))
        = Some f2 ->
        first_existing f2 (path_dirname infile :: include_paths opts) = Some fname2 ->
        path_normpath (path_abspath fname2) = path_abspath f ->
        pf' `prefix_of` files e2 /\
        process_line (preprocess fuel opts None) opts cgs infile
                     (n + Z.of_nat (length mid) + 1) line2 e2
        = Raise (PreprocessorError
                   ("detected recursive #include of '" +:+ fname2 +:+ "'")
                   None None None)).
Proof.
  intros Hrun. pose proof Hrun as Hcall.
  apply preprocess_appends in Hrun as [ext ->].
  split; [eauto|]. split; [|split].
  - intros m cgs infile lines n e e' Hpre Hloop.
    apply loop_files_prefix in Hloop; [|apply preprocess_appends].
    now transitivity (files e).
  - intros m ct2 f2 out2 d2 pf2 [k ->] Hsame.
    apply guarded_call_raises. rewrite Hsame.
    apply elem_of_app. left. apply elem_of_app. right. apply elem_of_cons. now left.
  - intros cgs infile line m1 f1 n e -> -> -> -> Hm Hs Href Hfound. split.
    + now apply (include_line_continues _ opts cgs infile line m1 f1 f n e).
    + intros mid e2 line2 m2 f2 fname2 Hmid Hm2 Hs2 Href2 Hfound2 Hsame.
      apply loop_files_prefix in Hmid; [|apply preprocess_appends].
      simpl in Hmid. split; [exact Hmid|].
      destruct fuel as [|fuel]; [discriminate Hcall|].
      apply (guarded_include_raises fuel opts cgs infile line2 m2 f2 fname2); auto.
      rewrite Hsame. destruct Hmid as [k ->].
      apply elem_of_app. left. apply elem_of_app. right. apply elem_of_cons. now left.
Qed.

Lemma guard_is_append_only_witness :
  process_line (H := Demo.host Demo.siblings)
               (preprocess (H := Demo.host Demo.siblings) 1 (Demo.opts false false) None)
               (Demo.opts false false) Demo.hash "a.txt" 1
               ("# #include " +:+ Demo.quoted "b.txt" +:+ Str.nl) Demo.start
  = Ok {| defines := <["__FILE__" := VStr "b.txt"]> Demo.at_line_1;
          states := states Demo.start;
          fout := ["x" +:+ Str.nl] ++ blanks (Demo.opts false false) 1;
          files := ["/w/a.txt"; "/w/b.txt"] |} /\
  process_line (H := Demo.host Demo.siblings)
               (preprocess (H := Demo.host Demo.siblings) 1 (Demo.opts false false) None)
               (Demo.opts false false) Demo.hash "a.txt" (1 + Z.of_nat (length (A := string) []) + 1)
               ("# #include " +:+ Demo.quoted "b.txt" +:+ Str.nl)
               {| defines := <["__FILE__" := VStr "b.txt"]> Demo.at_line_1;
                  states := states Demo.start;
                  fout := ["x" +:+ Str.nl] ++ blanks (Demo.opts false false) 1;
                  files := ["/w/a.txt"; "/w/b.txt"] |}
  = Raise (PreprocessorError "detected recursive #include of 'b.txt'" None None None) /\
  preprocess (H := Demo.host Demo.siblings) 2 (Demo.opts false false) None "a.txt" []
             Demo.no_defines []
  = Raise (PreprocessorError "detected recursive #include of 'b.txt'" None None None).
Proof.
  assert (preprocess (H := Demo.host Demo.siblings) 1 (Demo.opts false false) None "b.txt"
                     (fout Demo.start)
                     (<["__LINE__" := VInt 1]> (defines Demo.start)) (files Demo.start)
          = Ok (<["__FILE__" := VStr "b.txt"]> Demo.at_line_1, ["x" +:+ Str.nl],
                ["/w/a.txt"; "/w/b.txt"]))
    as Hfirst by (vm_compute; reflexivity).
  destruct (proj2 (proj2 (proj2
              (guard_is_append_only (H := Demo.host Demo.siblings) 1
                 (Demo.opts false false) None "b.txt" _ _ _ _ _ _ Hfirst)))
              Demo.hash "a.txt" ("# #include " +:+ Demo.quoted "b.txt" +:+ Str.nl)
              (StIncludeFile "b.txt") "b.txt" 1%Z Demo.start
              eq_refl eq_refl eq_refl eq_refl
              ltac:(vm_compute; reflexivity) eq_refl eq_refl
              ltac:(vm_compute; reflexivity))
    as [Hline Hlater].
  split; [exact Hline|]. split.
  - apply (Hlater [] _ ("# #include " +:+ Demo.quoted "b.txt" +:+ Str.nl)
                  (StIncludeFile "b.txt") "b.txt" "b.txt").
    + reflexivity.
    + vm_compute. reflexivity.
    + reflexivity.
    + reflexivity.
    + vm_compute. reflexivity.
    + vm_compute. reflexivity.
  - vm_compute. reflexivity.
Defined.

(** * Further properties *)

(** ** Depth of the stack *)

Section Depth.
Context {H : Host}.
Variable rec : nested.
Variable opts : options.
Variable cgs : comment_group.
Variable infile : string.

Lemma step_depth (n : Z) (line : string) (e e1 : engine) :
  process_line rec opts cgs infile n line e = Ok e1 ->
  Z.of_nat (length (states e1))
  = (Z.of_nat (length (states e)) + nesting cgs [line])%Z.
Proof.
  intros Hrun. apply step_states in Hrun. simpl nesting.
  destruct (classify cgs line).
  - rewrite Hrun. lia.
  - destruct Hrun as [top ->]. simpl length. lia.
  - destruct Hrun as (t & t' & b & -> & ->). simpl length. lia.
  - destruct Hrun as (t & t' & b & -> & ->). simpl length. lia.
  - destruct Hrun as [top ->]. simpl length. lia.
Qed.

Lemma nesting_cons (line : string) (rest : list string) :
  nesting cgs (line :: rest) = (nesting cgs [line] + nesting cgs rest)%Z.
Proof. simpl. lia. Qed.

Lemma loop_depth (lines : list string) (n : Z) (e e' : engine) :
  run_lines rec opts cgs infile lines n e = Ok e' ->
  Z.of_nat (length (states e'))
  = (Z.of_nat (length (states e)) + nesting cgs lines)%Z.
Proof.
  revert n e; induction lines as [|line lines IH]; intros n e Hrun.
  - inversion Hrun; subst. simpl. lia.
  - simpl in Hrun.
    destruct (process_line rec opts cgs infile (n + 1) line e) as [e1| |] eqn:H1;
      try discriminate.
    apply step_depth in H1. apply IH in Hrun. rewrite nesting_cons. lia.
Qed.

End Depth.

(** X1. When the loop over the lines of a file completes, the stack has
    grown by the number of [#if], [#ifdef] and [#ifndef] lines less the
    number of [#endif] lines, skipped or not; [#elif], [#else] and all
    other lines leave its depth alone. *)
Theorem stack_depth_counts_blocks {H : Host} (rec : nested) (opts : options)
    (cgs : comment_group) (infile : string) (lines : list string) (n : Z)
    (e e' : engine) :
  run_lines rec opts cgs infile lines n e = Ok e' ->
  Z.of_nat (length (states e'))
  = (Z.of_nat (length (states e)) + nesting cgs lines)%Z.
Proof. apply loop_depth. Qed.

Lemma stack_depth_counts_blocks_witness :
  Z.of_nat (length (states Demo.after_first_branch))
  = (Z.of_nat (length (states Demo.start))
     + nesting (H := Demo.host []) Demo.hash (Demo.chain_head :: Demo.chain_body))%Z.
Proof.
  apply (stack_depth_counts_blocks (H := Demo.host [])
           (preprocess (H := Demo.host []) 0 (Demo.opts false false) None)
           (Demo.opts false false) Demo.hash "a.txt"
           (Demo.chain_head :: Demo.chain_body) 0%Z Demo.start Demo.after_first_branch).
  vm_compute. reflexivity.
Defined.

(** X2. What the check after the loop makes of a file whose lines were
    all processed: with as many opening lines as [#endif] lines
    [preprocess] returns the defines, the stream and the guard of the
    loop; with more opening lines it raises the unterminated-block error,
    with fewer the superfluous-[#endif] error, both located at [__FILE__]
    and [__LINE__]. *)
Theorem final_check_by_counts {H : Host} (fuel : nat) (opts : options)
    (ct : option string) (infile : string) (out : list string) (d : gmap string value)
    (pf : list string) (cgs : comment_group) (lines : list string) (e0 e' : engine)
    (f k : value) :
  enter opts ct infile out d pf = Ok (cgs, lines, e0) ->
  run_lines (preprocess fuel opts None) opts cgs infile lines 0 e0 = Ok e' ->
  defines e' !! "__FILE__" = Some f ->
  defines e' !! "__LINE__" = Some k ->
  (nesting cgs lines = 0%Z ->
   preprocess (S fuel) opts ct infile out d pf = Ok (defines e', fout e', files e')) /\
  ((0 < nesting cgs lines)%Z ->
   preprocess (S fuel) opts ct infile out d pf
   = Raise (PreprocessorError "unterminated #if block" (Some f) (Some k) None)) /\
  ((nesting cgs lines < 0)%Z ->
   preprocess (S fuel) opts ct infile out d pf
   = Raise (PreprocessorError "superfluous #endif on or before this line"
                              (Some f) (Some k) None)).
Proof.
  intros He Hrun Hf Hk.
  pose proof (loop_depth _ _ _ _ _ _ _ _ Hrun) as Hd.
  apply enter_ok in He as Hstart. destruct Hstart as (_ & _ & ->). simpl in Hd.
  simpl preprocess. rewrite He. simpl bind. rewrite Hrun. simpl bind.
  unfold finish, located. rewrite Hf, Hk.
  repeat split; intros Hn.
  - replace (length (states e')) with 1%nat by lia. reflexivity.
  - destruct (Nat.ltb 1 (length (states e'))) eqn:Hlt; [reflexivity|].
    apply Nat.ltb_ge in Hlt. lia.
  - destruct (Nat.ltb 1 (length (states e'))) eqn:Hlt.
    + apply Nat.ltb_lt in Hlt. lia.
    + destruct (Nat.ltb (length (states e')) 1) eqn:Hlt2; [reflexivity|].
      apply Nat.ltb_ge in Hlt2. lia.
Qed.

Lemma final_check_by_counts_witness :
  preprocess (H := Demo.host Samples.open_block) 1 (Demo.opts false false) None "a.txt"
             [] Demo.no_defines []
  = Raise (PreprocessorError "unterminated #if block" (Some (VStr "a.txt"))
                             (Some (VInt 2)) None).
Proof.
  eapply (fun e' h1 h2 h3 h4 =>
            proj1 (proj2 (final_check_by_counts (H := Demo.host Samples.open_block) 0
                            (Demo.opts false false) None "a.txt" [] Demo.no_defines []
                            Demo.hash ["# #if 1" +:+ Str.nl; "x" +:+ Str.nl] Demo.start e'
                            (VStr "a.txt") (VInt 2) h1 h2 h3 h4))).
  - vm_compute. reflexivity.
  - vm_compute. reflexivity.
  - vm_compute. reflexivity.
  - vm_compute. reflexivity.
  - vm_compute. reflexivity.
Defined.

(** ** The output stream *)

Section Output.
Context {H : Host}.
Variable rec : nested.
Variable opts : options.
Variable cgs : comment_group.
Variable infile : string.
Hypothesis rec_writes_after : writes_after rec.

Lemma exec_stmt_out (line : string) (m : stmt) (e e1 : engine) :
  exec_stmt rec opts infile line m e = Ok e1 -> fout e `prefix_of` fout e1.
Proof using rec_writes_after.
  intros Hrun.
  destruct m as [[] x| | | | | | |]; simpl in Hrun;
    unfold _evaluate, located, do_include, bind in Hrun;
    split_run Hrun; inversion Hrun; subst; simpl; try reflexivity.
  all: try match goal with
           | Hr : rec _ _ _ _ = Ok _ |- _ => now apply rec_writes_after in Hr
           end.
  all: match goal with
       | Hr : _ = Ok _ |- _ => split_run Hr; inversion Hr; subst; simpl; reflexivity
       end.
Qed.

Lemma step_out (n : Z) (line : string) (e e1 : engine) :
  process_line rec opts cgs infile n line e = Ok e1 -> fout e `prefix_of` fout e1.
Proof using rec_writes_after.
  unfold process_line. intros Hrun.
  destruct (stmt_match cgs line) as [m|].
  - destruct (exec_stmt rec opts infile line m _) as [e2| |] eqn:Hx; try discriminate.
    apply exec_stmt_out in Hx. simpl in Hrun, Hx.
    destruct (should_keep_lines opts); inversion Hrun; subst; simpl; auto.
    transitivity (fout e2); [exact Hx | now apply prefix_app_r].
  - unfold emit_line, located in Hrun. simpl in Hrun.
    split_run Hrun; inversion Hrun; subst; simpl; try reflexivity;
      now apply prefix_app_r.
Qed.

Lemma loop_out (lines : list string) (n : Z) (e e' : engine) :
  run_lines rec opts cgs infile lines n e = Ok e' -> fout e `prefix_of` fout e'.
Proof using rec_writes_after.
  revert n e; induction lines as [|line lines IH]; intros n e Hrun; simpl in Hrun.
  - now inversion Hrun.
  - destruct (process_line rec opts cgs infile (n + 1) line e) as [e1| |] eqn:H1;
      try discriminate.
    apply step_out in H1. apply IH in Hrun. now transitivity (fout e1).
Qed.

End Output.

Lemma preprocess_writes_after {H : Host} (fuel : nat) (opts : options)
    (ct : option string) : writes_after (preprocess fuel opts ct).
Proof.
  revert ct; induction fuel as [|fuel IH]; intros ct f out d pf d' out' pf' Hrun;
    simpl in Hrun; try discriminate.
  destruct (enter opts ct f out d pf) as [[[cgs lines] e]| |] eqn:He; try discriminate.
  simpl in Hrun.
  destruct (run_lines _ opts cgs f lines 0 e) as [e'| |] eqn:Hl; try discriminate.
  simpl in Hrun. apply finish_ok in Hrun as (_ & -> & _ & _).
  apply loop_out in Hl; [|apply IH].
  apply enter_ok in He as (_ & _ & ->). exact Hl.
Qed.

(** X3. [preprocess] only adds to the output stream: what was in the
    stream when it was called, by the caller or by the including file, is
    the beginning of what is in it when it returns, however many files were
    included on the way. *)
Theorem output_is_append_only {H : Host} (fuel : nat) (opts : options)
    (ct : option string) (infile : string) (out : list string)
    (d d' : gmap string value) (pf out' pf' : list string) :
  preprocess fuel opts ct infile out d pf = Ok (d', out', pf') ->
  out `prefix_of` out'.
Proof. apply preprocess_writes_after. Qed.

Lemma output_is_append_only_witness :
  ["kept"] `prefix_of` ["kept"; "x" +:+ Str.nl; "y" +:+ Str.nl; Str.nl].
Proof.
  apply (output_is_append_only (H := Demo.host Demo.includer) 2 (Demo.opts true false)
           None "a.txt" ["kept"] Demo.no_defines
           (<["__LINE__" := VInt 2]> (<["__FILE__" := VStr "b.txt"]> Demo.at_line_1))
           [] ["kept"; "x" +:+ Str.nl; "y" +:+ Str.nl; Str.nl] ["/w/a.txt"; "/w/b.txt"]).
  vm_compute. reflexivity.
Defined.

(** ** Content lines *)

Lemma concat_readlines (s : string) : Str.concat (Str.readlines s) = s.
Proof.
  induction s as [|c s IH]; [reflexivity|]. simpl Str.readlines.
  destruct (Ascii.eqb c (ascii_of_nat 10)) eqn:Hc.
  - apply Ascii.eqb_eq in Hc. subst c. cbn [Str.concat fold_right]. fold (Str.concat (Str.readlines s)).
    rewrite IH. reflexivity.
  - destruct (Str.readlines s) as [|l ls].
    + simpl in IH. subst s. reflexivity.
    + cbn [Str.concat fold_right] in *. rewrite append_cons. now rewrite IH.
Qed.

Section Copy.
Context {H : Host}.
Variable rec : nested.
Variable opts : options.
Variable cgs : comment_group.
Variable infile : string.
Hypothesis verbatim : should_substitute opts = false.

(** Content lines in an emitting section are written as they are. *)
Lemma loop_copies (lines : list string) (n : Z) (e : engine) a b below :
  Forall (fun line => stmt_match cgs line = None) lines ->
  states e = (EMIT, a, b) :: below ->
  run_lines rec opts cgs infile lines n e
  = Ok {| defines := mark_line n (length lines) (defines e);
          states := states e;
          fout := fout e ++ lines;
          files := files e |}.
Proof using verbatim.
  intros Hall. revert n e. induction Hall as [|line lines Hline Hall IH]; intros n e Hs.
  - simpl. rewrite app_nil_r. now destruct e.
  - simpl run_lines. unfold process_line. rewrite Hline.
    unfold emit_line. simpl. rewrite Hs, verbatim. simpl bind.
    rewrite IH by (simpl; exact Hs). simpl. f_equal. f_equal.
    + change (n + 1)%Z with (n + Z.of_nat 1)%Z.
      change (<["__LINE__" := VInt (n + Z.of_nat 1)]> (defines e))
        with (mark_line n 1 (defines e)).
      now rewrite mark_line_add.
    + congruence.
    + now rewrite <- app_assoc.
Qed.

End Copy.

(** X4. A file in which no line is a statement is copied: without
    substitution [preprocess] appends the lines of the file, as they are
    and in their order, to the stream (so the text written is the text of
    the file), records the file in the guard, and changes nothing in the
    defines but [__FILE__] and [__LINE__]. *)
Theorem file_without_statements_is_copied {H : Host} (fuel : nat) (opts : options)
    (ct : option string) (infile : string) (out : list string) (d : gmap string value)
    (pf : list string) (cgs : comment_group) (lines : list string) (e0 : engine) :
  should_substitute opts = false ->
  enter opts ct infile out d pf = Ok (cgs, lines, e0) ->
  Forall (fun line => stmt_match cgs line = None) lines ->
  preprocess (S fuel) opts ct infile out d pf
  = Ok (mark_line 0 (length lines) (<["__FILE__" := VStr infile]> d),
        out ++ lines, pf ++ [path_abspath infile]) /\
  file_read infile = Some (Str.concat lines).
Proof.
  intros Hsub He Hall. simpl preprocess. rewrite He. simpl bind.
  apply enter_ok in He as (_ & (text & Hread & ->) & ->).
  erewrite (loop_copies _ _ _ _ Hsub _ _ _ false false [] Hall); [|reflexivity].
  split; [reflexivity|]. now rewrite concat_readlines.
Qed.

Lemma file_without_statements_is_copied_witness :
  preprocess (H := Demo.host Samples.plain_file) 1 (Demo.opts false false) None "a.txt"
             [] Demo.no_defines []
  = Ok (mark_line 0 (length ["one" +:+ Str.nl; "two"])
                  (<["__FILE__" := VStr "a.txt"]> Demo.no_defines),
        [] ++ ["one" +:+ Str.nl; "two"], [] ++ ["/w/a.txt"]) /\
  file_read (Host := Demo.host Samples.plain_file) "a.txt"
  = Some (Str.concat ["one" +:+ Str.nl; "two"]).
Proof.
  apply (file_without_statements_is_copied (H := Demo.host Samples.plain_file) 0
           (Demo.opts false false) None "a.txt" [] Demo.no_defines [] Demo.hash
           ["one" +:+ Str.nl; "two"] Demo.start).
  - reflexivity.
  - vm_compute. reflexivity.
  - repeat constructor.
Defined.

(** ** Statements in their block *)

Section Statements.
Context {H : Host}.
Variable rec : nested.
Variable opts : options.
Variable cgs : comment_group.
Variable infile : string.

(** An [#else] that does not raise marks its block as having seen it. *)
Lemma else_marks_block (n : Z) (line : string) (e e1 : engine) :
  classify cgs line = Else ->
  process_line rec opts cgs infile n line e = Ok e1 ->
  exists m em below, states e1 = (m, em, true) :: below.
Proof.
  intros Hc Hrun. apply classify_else in Hc.
  unfold process_line in Hrun. rewrite Hc in Hrun.
  destruct (exec_stmt rec opts infile line StElse _) as [e2| |] eqn:Hx; try discriminate.
  assert (states e1 = states e2) as ->
    by (simpl in Hrun; destruct (should_keep_lines opts); inversion Hrun; reflexivity).
  simpl in Hx. unfold located in Hx.
  split_run Hx; inversion Hx; subst; simpl; eauto.
Qed.

(** In a block that has seen its [#else], an [#elif] or [#else] raises. *)
Lemma after_else_raises (n : Z) (line : string) (e : engine) m em below (f : value) :
  classify cgs line = Elif \/ classify cgs line = Else ->
  states e = (m, em, true) :: below ->
  defines e !! "__FILE__" = Some f ->
  process_line rec opts cgs infile n line e
  = Raise (PreprocessorError
             (match classify cgs line with
              | Elif => "illegal #elif after #else in same #if block"
              | _ => "illegal #else after #else in same #if block"
              end) (Some f) (Some (VInt n)) (Some line)).
Proof.
  intros Hc Hs Hf. unfold process_line.
  destruct Hc as [Hc|Hc]; rewrite Hc.
  - destruct (classify_elif cgs line Hc) as [x ->]. simpl. rewrite Hs. simpl.
    unfold located. rewrite lookup_insert_ne by discriminate. rewrite Hf.
    now rewrite lookup_insert_eq.
  - rewrite (classify_else cgs line Hc). simpl. rewrite Hs. simpl.
    unfold located. rewrite lookup_insert_ne by discriminate. rewrite Hf.
    now rewrite lookup_insert_eq.
Qed.

(** The candidates of an [#include] are tried in order. *)
Lemma first_existing_spec (f : string) (dirs : list string) (fname : string) :
  first_existing f dirs = Some fname <->
  exists before d after,
    dirs = before ++ d :: after /\
    fname = path_normpath (path_join d f) /\
    path_exists fname = true /\
    Forall (fun d' => path_exists (path_normpath (path_join d' f)) = false) before.
Proof.
  induction dirs as [|d0 dirs IH]; simpl.
  - split; [discriminate|]. intros (before & d & after & Hd & _).
    now destruct before.
  - destruct (path_exists (path_normpath (path_join d0 f))) eqn:Hex.
    + split.
      * intros Hs. inversion Hs; subst. exists [], d0, dirs. repeat split; auto.
      * intros (before & d & after & Hd & -> & Hex' & Hall).
        destruct before as [|b before]; simpl in Hd; inversion Hd; subst; auto.
        inversion Hall; subst. congruence.
    + rewrite IH. split.
      * intros (before & d & after & -> & -> & Hex' & Hall).
        exists (d0 :: before), d, after. repeat split; auto.
      * intros (before & d & after & Hd & -> & Hex' & Hall).
        destruct before as [|b before]; simpl in Hd; inversion Hd; subst.
        -- congruence.
        -- inversion Hall; subst. exists before, d, after. repeat split; auto.
Qed.

Lemma first_existing_none (f : string) (dirs : list string) :
  first_existing f dirs = None <->
  Forall (fun d => path_exists (path_normpath (path_join d f)) = false) dirs.
Proof.
  induction dirs as [|d0 dirs IH]; simpl.
  - split; auto.
  - destruct (path_exists (path_normpath (path_join d0 f))) eqn:Hex.
    + split; [discriminate|]. intros Hall. inversion Hall; subst. congruence.
    + rewrite IH. split; [now constructor | intros Hall; now inversion Hall].
Qed.

End Statements.

(** X5. Once a block has seen its [#else], a further [#elif] or [#else]
    of the block raises the illegal-after-[#else] error for its line,
    whether the block is emitting or skipped and whatever was emitted
    before: after an [#else] line and the complete blocks that follow it,
    an [#elif] or [#else] line fails. *)
Theorem branch_after_else_is_refused {H : Host} (rec : nested) (opts : options)
    (cgs : comment_group) (infile : string) (head : string) (body : list string)
    (next : string) (n : Z) (e e1 e2 : engine) (f : value) :
  classify cgs head = Else ->
  balanced cgs body ->
  classify cgs next = Elif \/ classify cgs next = Else ->
  process_line rec opts cgs infile (n + 1) head e = Ok e1 ->
  run_lines rec opts cgs infile body (n + 1) e1 = Ok e2 ->
  defines e2 !! "__FILE__" = Some f ->
  run_lines rec opts cgs infile (head :: body ++ [next]) n e
  = Raise (PreprocessorError
             (match classify cgs next with
              | Elif => "illegal #elif after #else in same #if block"
              | _ => "illegal #else after #else in same #if block"
              end)
             (Some f) (Some (VInt (n + 1 + Z.of_nat (length body) + 1))) (Some next)).
Proof.
  intros Hh Hb Hn H1 H2 Hf.
  destruct (else_marks_block rec opts cgs infile _ _ _ _ Hh H1) as (m & em & below & Hs).
  assert (states e2 = (m, em, true) :: below) as Hs2.
  { rewrite <- Hs. exact (proj1 (blocks_restore rec opts cgs infile) body Hb _ _ _ H2). }
  simpl run_lines. rewrite H1. simpl bind.
  rewrite (run_lines_next _ _ _ _ _ _ _ _ _ _ H2).
  now rewrite (after_else_raises rec opts cgs infile _ _ _ _ _ _ _ Hn Hs2 Hf).
Qed.

Lemma branch_after_else_is_refused_witness :
  run_lines (H := Demo.host [])
            (preprocess (H := Demo.host []) 0 (Demo.opts false false) None)
            (Demo.opts false false) Demo.hash "a.txt"
            (("# #else" +:+ Str.nl) :: ["x" +:+ Str.nl] ++ ["# #elif 1" +:+ Str.nl]) 4
            Demo.skipping
  = Raise (PreprocessorError "illegal #elif after #else in same #if block"
                             (Some (VStr "a.txt"))
                             (Some (VInt (4 + 1 + Z.of_nat (length ["x" +:+ Str.nl]) + 1)))
                             (Some ("# #elif 1" +:+ Str.nl))).
Proof.
  eapply (branch_after_else_is_refused (H := Demo.host [])
            (preprocess (H := Demo.host []) 0 (Demo.opts false false) None)
            (Demo.opts false false) Demo.hash "a.txt" ("# #else" +:+ Str.nl)
            ["x" +:+ Str.nl] ("# #elif 1" +:+ Str.nl) 4%Z Demo.skipping).
  - vm_compute. reflexivity.
  - apply balanced_plain; [vm_compute; reflexivity | apply balanced_nil].
  - left. vm_compute. reflexivity.
  - vm_compute. reflexivity.
  - vm_compute. reflexivity.
  - vm_compute. reflexivity.
Defined.

(** X6. An [#include] in a section that is not skipped, whose file exists
    neither beside the including file nor in any directory of the include
    path, raises the could-not-find error, which carries neither a file
    nor a line; no nested call is made and nothing is written. *)
Theorem include_of_missing_file_raises {H : Host} (rec : nested) (opts : options)
    (cgs : comment_group) (infile line fname : string) (n : Z) (e : engine) :
  stmt_match cgs line = Some (StIncludeFile fname) ->
  top_is_skip (states e) = false ->
  Forall (fun d => path_exists (path_normpath (path_join d fname)) = false)
         (path_dirname infile :: include_paths opts) ->
  process_line rec opts cgs infile n line e
  = Raise (PreprocessorError
             ("could not find #include'd file " +:+ Str.dq +:+ fname +:+ Str.dq
              +:+ " on include path: " +:+ py_repr (include_paths opts))
             None None None).
Proof.
  intros Hm Hs Hall. apply first_existing_none in Hall.
  unfold process_line. rewrite Hm. unfold exec_stmt.
  change (states (set_defines _ e)) with (states e). rewrite Hs.
  unfold do_include. now rewrite Hall.
Qed.

Lemma include_of_missing_file_raises_witness :
  process_line (H := Demo.host [])
               (preprocess (H := Demo.host []) 0 (Demo.opts false false) None)
               (Demo.opts false false) Demo.hash "a.txt" 1
               ("# #include " +:+ Demo.quoted "b.txt" +:+ Str.nl) Demo.start
  = Raise (PreprocessorError
             ("could not find #include'd file " +:+ Str.dq +:+ "b.txt" +:+ Str.dq
              +:+ " on include path: "
              +:+ py_repr (Host := Demo.host []) (include_paths (Demo.opts false false)))
             None None None).
Proof.
  apply (include_of_missing_file_raises (H := Demo.host [])).
  - vm_compute. reflexivity.
  - reflexivity.
  - repeat constructor.
Defined.

(** X7. [#include NAME], in a section that is not skipped, with [NAME] not
    in the defines raises a bare [KeyError] for the name, not a
    [PreprocessorError]. *)
Theorem include_of_undefined_name_is_a_key_error {H : Host} (rec : nested)
    (opts : options) (cgs : comment_group) (infile line var : string) (n : Z)
    (e : engine) :
  stmt_match cgs line = Some (StIncludeVar var) ->
  top_is_skip (states e) = false ->
  var <> "__LINE__" ->
  defines e !! var = None ->
  process_line rec opts cgs infile n line e = Raise (KeyError var).
Proof.
  intros Hm Hs Hne Hd. unfold process_line. rewrite Hm. unfold exec_stmt.
  change (states (set_defines _ e)) with (states e). rewrite Hs.
  change (defines (set_defines ?d e)) with d.
  rewrite lookup_insert_ne by congruence. now rewrite Hd.
Qed.

Lemma include_of_undefined_name_is_a_key_error_witness :
  process_line (H := Demo.host [])
               (preprocess (H := Demo.host []) 0 (Demo.opts false false) None)
               (Demo.opts false false) Demo.hash "a.txt" 1
               ("# #include HEADER" +:+ Str.nl) Demo.start
  = Raise (KeyError "HEADER").
Proof.
  apply (include_of_undefined_name_is_a_key_error (H := Demo.host [])).
  - vm_compute. reflexivity.
  - reflexivity.
  - discriminate.
  - vm_compute. reflexivity.
Defined.

(** X8. The file an [#include] resolves to is the first candidate that
    exists, the directory of the including file being tried before the
    directories of the include path, in their order: the search yields
    [fname] exactly when [fname] is the normalised join of one of these
    directories with the name, exists, and no earlier candidate exists. *)
Theorem include_search_order {H : Host} (infile f fname : string) (paths : list string) :
  first_existing f (path_dirname infile :: paths) = Some fname <->
  exists before d after,
    path_dirname infile :: paths = before ++ d :: after /\
    fname = path_normpath (path_join d f) /\
    path_exists fname = true /\
    Forall (fun d' => path_exists (path_normpath (path_join d' f)) = false) before.
Proof. apply first_existing_spec. Qed.

Lemma include_search_order_witness :
  first_existing (H := Demo.host Samples.header_on_path) "b.txt"
                 (path_dirname (Host := Demo.host Samples.header_on_path) "a.txt" :: ["inc"])
  = Some "inc/b.txt".
Proof.
  apply (include_search_order (H := Demo.host Samples.header_on_path)
           "a.txt" "b.txt" "inc/b.txt" ["inc"]).
  exists [EmptyString], "inc", []. repeat split.
  repeat constructor.
Defined.

(** ** Defines *)

(** X9. [#undef] of a name that is not defined is not an error: the line
    is passed over like a skipped one, emitting section or not. *)
Theorem undef_of_undefined_name_is_passed_over {H : Host} (rec : nested)
    (opts : options) (cgs : comment_group) (infile line var : string) (n : Z)
    (e : engine) :
  stmt_match cgs line = Some (StUndef var) ->
  var <> "__LINE__" ->
  defines e !! var = None ->
  process_line rec opts cgs infile (n + 1) line e
  = Ok (passed_over opts n 1 (states e) e).
Proof.
  intros Hm Hne Hd. unfold process_line. rewrite Hm. unfold exec_stmt.
  change (states (set_defines _ e)) with (states e).
  destruct (top_is_skip (states e)); simpl bind.
  - apply passed_over_one.
  - unfold set_defines at 1. simpl.
    rewrite delete_id by (rewrite lookup_insert_ne by congruence; exact Hd).
    unfold passed_over, blanks, write. simpl.
    destruct (should_keep_lines opts); simpl; now rewrite ?app_nil_r.
Qed.

Lemma undef_of_undefined_name_is_passed_over_witness :
  process_line (H := Demo.host [])
               (preprocess (H := Demo.host []) 0 (Demo.opts false false) None)
               (Demo.opts false false) Demo.hash "a.txt" (0 + 1)
               ("# #undef NOPE" +:+ Str.nl) Demo.start
  = Ok (passed_over (Demo.opts false false) 0 1 (states Demo.start) Demo.start).
Proof.
  apply (undef_of_undefined_name_is_passed_over (H := Demo.host [])) with (var := "NOPE").
  - vm_compute. reflexivity.
  - discriminate.
  - vm_compute. reflexivity.
Defined.

(** X10. [#define] followed by [#undef] of the same name, not defined
    before, leaves the defines as they were: the two lines come to two
    lines passed over, whatever value was given and whether or not the
    section is skipped. *)
Theorem define_then_undef_restores_defines {H : Host} (rec : nested) (opts : options)
    (cgs : comment_group) (infile l1 l2 var : string) (val : option string) (n : Z)
    (e : engine) :
  stmt_match cgs l1 = Some (StDefine var val) ->
  stmt_match cgs l2 = Some (StUndef var) ->
  var <> "__LINE__" ->
  defines e !! var = None ->
  run_lines rec opts cgs infile [l1; l2] n e
  = Ok (passed_over opts n 2 (states e) e).
Proof.
  intros H1 H2 Hne Hd. simpl run_lines. unfold process_line. rewrite H1, H2.
  replace (n + 1 + 1)%Z with (n + Z.of_nat 2)%Z by lia.
  unfold exec_stmt.
  change (states (set_defines _ e)) with (states e).
  destruct (top_is_skip (states e)) eqn:Hs; simpl bind.
  - destruct (should_keep_lines opts) eqn:Hk; simpl; rewrite Hs; simpl;
      unfold passed_over, blanks, write, set_defines; rewrite Hk; simpl;
      rewrite insert_insert_eq, <- ?app_assoc, ?app_nil_r; reflexivity.
  - destruct (should_keep_lines opts) eqn:Hk; simpl; rewrite Hs; simpl;
      unfold passed_over, blanks, write, set_defines; rewrite Hk; simpl;
      rewrite (delete_insert_ne _ var "__LINE__") by congruence;
      rewrite delete_insert_eq;
      rewrite (delete_insert_ne _ var "__LINE__") by congruence;
      rewrite (delete_id _ var) by exact Hd;
      rewrite insert_insert_eq; rewrite <- ?app_assoc, ?app_nil_r; reflexivity.
Qed.

Lemma define_then_undef_restores_defines_witness :
  run_lines (H := Demo.host [])
            (preprocess (H := Demo.host []) 0 (Demo.opts false false) None)
            (Demo.opts false false) Demo.hash "a.txt"
            ["# #define N 5" +:+ Str.nl; "# #undef N" +:+ Str.nl] 0 Demo.start
  = Ok (passed_over (Demo.opts false false) 0 2 (states Demo.start) Demo.start).
Proof.
  apply (define_then_undef_restores_defines (H := Demo.host []))
    with (var := "N") (val := Some "5").
  - vm_compute. reflexivity.
  - vm_compute. reflexivity.
  - discriminate.
  - vm_compute. reflexivity.
Defined.

(** ** Content types *)

Lemma mem_dot_head (c : ascii) (s : string) :
  Ascii.eqb c "."%char = false ->
  Str.mem "."%char (String c s) = Str.mem "."%char s.
Proof.
  intros Hc.
  change (Str.mem "."%char (String c s))
    with (if Ascii.eqb "."%char c then true else Str.mem "."%char s).
  now rewrite Ascii.eqb_sym, Hc.
Qed.

Lemma after_last_dot_has_no_dot (s : string) :
  Str.mem "."%char (after_last_dot s) = false.
Proof.
  induction s as [|c s IH]; [reflexivity|]. cbn [after_last_dot].
  destruct (Str.mem "."%char s) eqn:Hs; [exact IH|].
  destruct (Ascii.eqb c "."%char) eqn:Hc; [exact Hs|].
  now rewrite mem_dot_head.
Qed.

Lemma lower_ascii_dot (c : ascii) :
  Ascii.eqb "."%char (Str.lower_ascii c) = Ascii.eqb "."%char c.
Proof. destruct c as [[] [] [] [] [] [] [] []]; reflexivity. Qed.

Lemma lower_keeps_dots (s : string) :
  Str.mem "."%char (Str.lower s) = Str.mem "."%char s.
Proof.
  induction s as [|c s IH]; [reflexivity|]. cbn [Str.lower Str.mem].
  now rewrite lower_ascii_dot, IH.
Qed.

(** The suffix looked up for a name is a dot followed by text without a
    dot. *)
Lemma looked_up_suffix_is_plain {H : Host} (basename : string) :
  plain_suffix ((if platform_win then Str.lower else fun s => s)
                  ("." +:+ after_last_dot basename)) = true.
Proof.
  change ("." +:+ after_last_dot basename)
    with (String "."%char (after_last_dot basename)).
  destruct platform_win; cbn [Str.lower plain_suffix].
  - now rewrite lower_keeps_dots, after_last_dot_has_no_dot.
  - now rewrite after_last_dot_has_no_dot.
Qed.

(** X11. The order of the lookups by name: for a file that can be read and
    does not start with [<?xml], a type registered for the base name wins
    over the suffix map and the patterns; with none for the base name, a
    type registered for the suffix wins over the patterns; with neither,
    the first pattern that matches decides, and with no match the result is
    [None]. *)
Theorem content_type_lookup_order {H : Host} (self : ContentTypesRegistry)
    (path content : string) :
  file_read path = Some content ->
  Str.startswith "<?xml" content = false ->
  (forall t, filenameMap self !! path_basename path = Some t ->
             unset (Some t) = false ->
             get_content_type self path = Ok (Some t)) /\
  (forall t, filenameMap self !! path_basename path = None ->
             Str.mem "."%char (path_basename path) = true ->
             suffixMap self !! (if platform_win then Str.lower else fun s => s)
                                 ("." +:+ after_last_dot (path_basename path)) = Some t ->
             unset (Some t) = false ->
             get_content_type self path = Ok (Some t)) /\
  (filenameMap self !! path_basename path = None ->
   (Str.mem "."%char (path_basename path) = false \/
    suffixMap self !! (if platform_win then Str.lower else fun s => s)
                        ("." +:+ after_last_dot (path_basename path)) = None) ->
   get_content_type self path
   = Ok (first_regex (regexMap self) (path_basename path))).
Proof.
  intros Hread Hxml. unfold get_content_type. rewrite Hread, Hxml. cbv zeta.
  change (unset None) with true. cbv iota.
  repeat split.
  - intros t Hf Ht. rewrite Hf, Ht. simpl andb. cbv iota. now rewrite Ht.
  - intros t Hf Hdot Hs Ht. rewrite Hf, Hdot.
    change (unset None) with true. simpl andb. cbv iota.
    destruct platform_win; rewrite Hs; now rewrite Ht.
  - intros Hf Hs. rewrite Hf. change (unset None) with true. simpl andb.
    destruct Hs as [Hdot|Hs].
    + rewrite Hdot. cbv iota. change (unset None) with true. cbv iota.
      now destruct (first_regex _ _).
    + destruct (Str.mem "."%char (path_basename path)); cbv iota.
      * destruct platform_win; rewrite Hs;
          change (unset None) with true; cbv iota;
          now destruct (first_regex _ _).
      * change (unset None) with true. cbv iota.
        now destruct (first_regex _ _).
Qed.

Lemma content_type_lookup_order_witness :
  get_content_type (H := Demo.host Samples.python_file) Demo.registry "lib/a.py"
  = Ok (Some "Python").
Proof.
  apply (proj1 (proj2 (content_type_lookup_order (H := Demo.host Samples.python_file)
                         Demo.registry "lib/a.py" "import os" eq_refl eq_refl))).
  - vm_compute. reflexivity.
  - reflexivity.
  - vm_compute. reflexivity.
  - reflexivity.
Defined.

(** X12. The suffix looked up for a file is the text after the last dot
    of its base name, so an entry of the suffix map whose key is not a dot
    followed by text without a dot (such as [.tar.gz]) is never used:
    adding one changes the answer for no path. *)
Theorem suffix_with_inner_dot_is_never_used {H : Host} (self : ContentTypesRegistry)
    (k t path : string) :
  plain_suffix k = false ->
  get_content_type {| suffixMap := <[k := t]> (suffixMap self);
                      regexMap := regexMap self;
                      filenameMap := filenameMap self |} path
  = get_content_type self path.
Proof.
  intros Hk. unfold get_content_type. cbv zeta. simpl suffixMap. simpl filenameMap.
  simpl regexMap.
  assert (forall b, (<[k := t]> (suffixMap self))
                      !! (if platform_win then Str.lower ("." +:+ after_last_dot b)
                          else "." +:+ after_last_dot b)
                    = suffixMap self
                      !! (if platform_win then Str.lower ("." +:+ after_last_dot b)
                          else "." +:+ after_last_dot b)) as Hlook.
  { intros b. apply lookup_insert_ne. intros ->.
    pose proof (looked_up_suffix_is_plain b) as Hp.
    destruct platform_win; congruence. }
  now rewrite Hlook.
Qed.

Lemma suffix_with_inner_dot_is_never_used_witness :
  get_content_type (H := Demo.host [("a.tar.gz", "data")])
                   {| suffixMap := <[".tar.gz" := "Archive"]> (suffixMap Demo.registry);
                      regexMap := regexMap Demo.registry;
                      filenameMap := filenameMap Demo.registry |} "a.tar.gz"
  = get_content_type (H := Demo.host [("a.tar.gz", "data")]) Demo.registry "a.tar.gz".
Proof.
  apply (suffix_with_inner_dot_is_never_used (H := Demo.host [("a.tar.gz", "data")])).
  reflexivity.
Defined.

(** ** Words of a line *)

Lemma split_lstrip (s : string) : Text.split (Posix.lstrip s) = Text.split s.
Proof.
  induction s as [|c s IH]; [reflexivity|].
  cbn [Posix.lstrip]. destruct (Posix.is_space c) eqn:Hc.
  - cbn [Text.split]. now rewrite Hc.
  - reflexivity.
Qed.

Lemma rstrip_empty_head (c : ascii) (s : string) :
  Posix.rstrip (String c s) = EmptyString -> Posix.is_space c = true.
Proof.
  cbn [Posix.rstrip]. destruct (Posix.rstrip s); [|discriminate].
  now destruct (Posix.is_space c).
Qed.

Lemma rstrip_head (s r : string) (c : ascii) :
  Posix.rstrip s = String c r -> exists s', s = String c s'.
Proof.
  destruct s as [|c0 s]; [discriminate|]. cbn [Posix.rstrip].
  destruct (Posix.rstrip s).
  - destruct (Posix.is_space c0); [discriminate|]. intros Hr. inversion Hr. eauto.
  - intros Hr. inversion Hr. eauto.
Qed.

Lemma split_rstrip (s : string) : Text.split (Posix.rstrip s) = Text.split s.
Proof.
  induction s as [|c s IH]; [reflexivity|].
  cbn [Posix.rstrip].
  destruct (Posix.rstrip s) as [|c' r] eqn:Hr.
  - destruct (Posix.is_space c) eqn:Hc.
    + cbn [Text.split]. now rewrite Hc, <- IH.
    + cbn [Text.split]. rewrite Hc.
      destruct s as [|c0 s0]; [reflexivity|].
      rewrite (rstrip_empty_head _ _ Hr). now rewrite <- IH.
  - destruct (rstrip_head _ _ _ Hr) as [s' ->].
    cbn [Text.split] in *. destruct (Posix.is_space c); [exact IH|].
    destruct (Posix.is_space c'); now rewrite IH.
Qed.

(** [line.strip().split()] is [line.split()]. *)
Lemma split_strip (s : string) : Text.split (Text.strip s) = Text.split s.
Proof. unfold Text.strip. now rewrite split_rstrip, split_lstrip. Qed.


Lemma split_word_then_space (w : string) (c : ascii) (rest : string) :
  is_word w -> Posix.is_space c = true ->
  Text.split (w +:+ String c rest) = w :: Text.split rest.
Proof.
  intros [Hne Hsp] Hc. induction w as [|a w IH]; [congruence|].
  cbn [Posix.has_space] in Hsp. apply orb_false_iff in Hsp as [Ha Hw].
  rewrite append_cons. cbn [Text.split]. rewrite Ha.
  destruct w as [|a' w'].
  - change (EmptyString +:+ String c rest) with (String c rest).
    cbv iota. rewrite Hc. cbn [Text.split]. now rewrite Hc.
  - rewrite append_cons. cbv iota. rewrite <- append_cons.
    cbn [Posix.has_space] in Hw. apply orb_false_iff in Hw as [Ha' Hw'].
    rewrite Ha'. rewrite IH.
    + reflexivity.
    + discriminate.
    + cbn [Posix.has_space]. now rewrite Ha', Hw'.
Qed.

Lemma split_one_word (w : string) : is_word w -> Text.split w = [w].
Proof.
  intros [Hne Hsp]. induction w as [|a w IH]; [congruence|].
  cbn [Posix.has_space] in Hsp. apply orb_false_iff in Hsp as [Ha Hw].
  cbn [Text.split]. rewrite Ha. destruct w as [|a' w']; [reflexivity|].
  cbn [Posix.has_space] in Hw. apply orb_false_iff in Hw as [Ha' Hw'].
  rewrite Ha'. rewrite IH.
  - reflexivity.
  - discriminate.
  - cbn [Posix.has_space]. now rewrite Ha', Hw'.
Qed.

Lemma cut_comment_words (ws : list string) :
  Forall is_word ws -> Forall is_word (cut_comment ws).
Proof.
  induction 1 as [|w ws Hw Hws IH]; cbn [cut_comment]; [constructor|].
  destruct (Str.startswith "#" w); now constructor.
Qed.

(** ** The registry as it is loaded *)

Section Loading.
Context {H : Host}.
Variable re_compiles : string -> bool.
Variable P : string -> Prop.

Lemma set_regex_satisfies (source t : string) (rm : list (string * string)) :
  P t -> Forall (fun entry => P (snd entry)) rm ->
  Forall (fun entry => P (snd entry)) (set_regex source t rm).
Proof.
  intros Ht. induction 1 as [|[p t0] rm Hp Hrm IH]; simpl.
  - now repeat constructor.
  - destruct (String.eqb p source); constructor; auto.
Qed.

Lemma register_satisfies (t : string) (patterns : list string)
    (self self' : ContentTypesRegistry) :
  P t -> types_satisfy P self ->
  register re_compiles t patterns self = Loaded self' ->
  types_satisfy P self'.
Proof.
  intros Ht. revert self. induction patterns as [|p patterns IH]; intros self Hs Hr.
  - simpl in Hr. now inversion Hr; subst.
  - cbn [register] in Hr. cbv zeta in Hr. destruct Hs as (Hs1 & Hs2 & Hs3).
    destruct (Str.startswith "." p).
    + apply IH in Hr; [exact Hr|]. repeat split; simpl; auto.
      now apply map_Forall_insert_2.
    + destruct (andb _ _).
      * destruct (re_compiles _); [|discriminate].
        apply IH in Hr; [exact Hr|]. repeat split; simpl; auto.
        now apply set_regex_satisfies.
      * apply IH in Hr; [exact Hr|]. repeat split; simpl; auto.
        now apply map_Forall_insert_2.
Qed.

(** The type a line registers, if it registers any: its first word,
    unless the line is blank or starts with a comment. *)
Lemma load_line_satisfies (line : string) (self self' : ContentTypesRegistry) :
  (forall t rest, cut_comment (Text.split (Text.strip line)) = t :: rest -> P t) ->
  types_satisfy P self ->
  load_line re_compiles line self = Loaded self' ->
  types_satisfy P self'.
Proof.
  intros Ht Hs. unfold load_line.
  destruct (cut_comment _) as [|t [|p ps]] eqn:Hw.
  - intros Hl. now inversion Hl; subst.
  - discriminate.
  - apply register_satisfies; eauto.
Qed.

Lemma load_lines_satisfy (lines : list string) (self self' : ContentTypesRegistry) :
  Forall (fun line => forall t rest,
              cut_comment (Text.split (Text.strip line)) = t :: rest -> P t) lines ->
  types_satisfy P self ->
  load_lines re_compiles lines self = Loaded self' ->
  types_satisfy P self'.
Proof.
  intros Hall. revert self. induction Hall as [|line lines Hline Hall IH]; intros self Hs Hl.
  - simpl in Hl. now inversion Hl; subst.
  - simpl in Hl. destruct (load_line re_compiles line self) as [self1| |] eqn:H1;
      try discriminate.
    eapply IH; [|exact Hl]. eapply load_line_satisfies; eauto.
Qed.

End Loading.

(** The type a lookup returns is [XML] or one the registry holds. *)
Lemma get_content_type_source {H : Host} (P : string -> Prop)
    (self : ContentTypesRegistry) (path t : string) :
  types_satisfy P self -> P "XML" ->
  get_content_type self path = Ok (Some t) -> P t.
Proof.
  intros (Hs1 & Hs2 & Hs3) Hxml. unfold get_content_type. cbv zeta.
  assert (forall b t', first_regex (regexMap self) b = Some t' -> P t') as Hre.
  { intros b t'. induction Hs2 as [|[p t0] rm Hp Hrm IH]; simpl; [discriminate|].
    destruct (re_search p b); [|exact IH]. intros Ht. now inversion Ht; subst. }
  intros Hg. split_run Hg; inversion Hg; subst; auto.
  all: try match goal with
           | Hl : suffixMap _ !! _ = Some _ |- _ => exact (Hs1 _ _ Hl)
           end.
  all: try match goal with
           | Hl : filenameMap _ !! _ = Some _ |- _ => exact (Hs3 _ _ Hl)
           end.
  all: try match goal with
           | Hl : first_regex _ _ = Some _ |- _ => exact (Hre _ _ Hl)
           end.
Qed.

Lemma not_space_not_break (c : ascii) :
  Posix.is_space c = false ->
  Ascii.eqb c (ascii_of_nat 10) = false /\ Ascii.eqb c (ascii_of_nat 13) = false.
Proof. destruct c as [[] [] [] [] [] [] [] []]; vm_compute; auto. Qed.

(** A run of characters that are not whitespace stays in its line. *)
Lemma splitlines_word (w rest : string) :
  Posix.has_space w = false ->
  Text.splitlines_from false (w +:+ rest)
  = match w with
    | EmptyString => Text.splitlines_from false rest
    | _ => match Text.splitlines_from false rest with
           | l :: ls => (w +:+ l) :: ls
           | [] => [w]
           end
    end.
Proof.
  induction w as [|a w IH]; [reflexivity|]. intros Hsp.
  cbn [Posix.has_space] in Hsp. apply orb_false_iff in Hsp as [Ha Hw].
  destruct (not_space_not_break a Ha) as [Hn Hr].
  rewrite append_cons. cbn [Text.splitlines_from]. rewrite Hn, Hr.
  rewrite (IH Hw). destruct w as [|a' w'].
  - destruct (Text.splitlines_from false rest); reflexivity.
  - destruct (Text.splitlines_from false rest); reflexivity.
Qed.

Lemma splitlines_one_word (w : string) :
  is_word w -> Text.splitlines_from false w = [w].
Proof.
  intros [Hne Hsp]. rewrite <- (string_app_empty w) at 1.
  rewrite (splitlines_word w EmptyString Hsp).
  destruct w; [congruence | reflexivity].
Qed.

Lemma dot_word (ext : string) :
  Posix.has_space ext = false -> is_word (String "."%char ext).
Proof. intros Hsp. split; [discriminate|]. cbn [Posix.has_space]. now rewrite Hsp. Qed.

(** The line [T .ext] is one line of a table and has two words. *)
Lemma suffix_line_is_one_line (T ext : string) :
  is_word T -> Posix.has_space ext = false ->
  Text.splitlines (T +:+ " ." +:+ ext) = [T +:+ " ." +:+ ext].
Proof.
  intros HT Hext. unfold Text.splitlines.
  rewrite (splitlines_word T _ (proj2 HT)).
  change (" ." +:+ ext) with (String " "%char (String "."%char ext)).
  change (Text.splitlines_from false (String " "%char (String "."%char ext)))
    with (match Text.splitlines_from false (String "."%char ext) with
          | l :: ls => String " "%char l :: ls
          | [] => [String " "%char EmptyString]
          end).
  rewrite (splitlines_one_word _ (dot_word ext Hext)).
  destruct T; [now destruct HT | reflexivity].
Qed.

Lemma suffix_line_words (T ext : string) :
  is_word T -> Posix.has_space ext = false ->
  Text.split (Text.strip (T +:+ " ." +:+ ext)) = [T; String "."%char ext].
Proof.
  intros HT Hext. rewrite split_strip.
  change (" ." +:+ ext) with (String " "%char (String "."%char ext)).
  rewrite (split_word_then_space T " "%char _ HT eq_refl).
  now rewrite (split_one_word _ (dot_word ext Hext)).
Qed.

(** A type registered for the suffix of a name that has none of its own
    is the answer. *)
Lemma lookup_by_suffix {H : Host} (self : ContentTypesRegistry)
    (path content t : string) :
  file_read path = Some content ->
  Str.startswith "<?xml" content = false ->
  filenameMap self !! path_basename path = None ->
  Str.mem "."%char (path_basename path) = true ->
  suffixMap self !! (if platform_win then Str.lower else fun s => s)
                      ("." +:+ after_last_dot (path_basename path)) = Some t ->
  t <> EmptyString ->
  get_content_type self path = Ok (Some t).
Proof.
  intros Hread Hxml Hf Hdot Hs Ht. apply String.eqb_neq in Ht.
  unfold get_content_type. rewrite Hread, Hxml. cbv zeta.
  change (unset None) with true. cbv iota. rewrite Hf, Hdot.
  change (unset None) with true. simpl andb. cbv iota.
  destruct platform_win; rewrite Hs; unfold unset; now rewrite Ht.
Qed.

(** A file that can be read has a content type or none. *)
Lemma get_content_type_returns {H : Host} (self : ContentTypesRegistry)
    (path content : string) :
  file_read path = Some content ->
  exists t, get_content_type self path = Ok t.
Proof.
  intros Hread. unfold get_content_type. rewrite Hread. cbv zeta.
  destruct (Str.startswith "<?xml" content); eauto.
Qed.


(** The two stages of [_load]: the built-in table, then the files. *)
Lemma load_cases (r : loaded) (k : ContentTypesRegistry -> loaded)
    (self : ContentTypesRegistry) :
  match r with
  | Loaded self0 => k self0
  | LoadError e => LoadError e
  | BadRegex pattern => BadRegex pattern
  end = Loaded self ->
  exists self0, r = Loaded self0 /\ k self0 = Loaded self.
Proof.
  destruct r as [self0|e|pattern]; intros Hk; [eauto | discriminate Hk | discriminate Hk].
Qed.

Lemma _load_stages {H : Host} (re_compiles : string -> bool) (module_file : string)
    (files : list string) (self : ContentTypesRegistry) :
  _load re_compiles module_file files = Loaded self ->
  exists self0,
    _loadContentType re_compiles DEFAULT_CONTENT_TYPES no_content_types = Loaded self0 /\
    load_files re_compiles
               (if path_exists (path_join (path_dirname module_file) "content.types")
                then path_join (path_dirname module_file) "content.types" :: files
                else files) self0 = Loaded self.
Proof.
  unfold _load. intros Hl.
  apply (load_cases
           (_loadContentType re_compiles DEFAULT_CONTENT_TYPES no_content_types)
           (fun self0 =>
              if path_exists (path_join (path_dirname module_file) "content.types")
              then load_files re_compiles
                     (path_join (path_dirname module_file) "content.types" :: files) self0
              else load_files re_compiles files self0))
    in Hl as (self0 & H0 & Hk).
  exists self0. split; [exact H0|]. destruct (path_exists _); exact Hk.
Qed.

Section Loaded.
Context {H : Host}.
Variable re_compiles : string -> bool.
Variable P : string -> Prop.
Hypothesis first_words : forall line t rest,
  cut_comment (Text.split (Text.strip line)) = t :: rest -> P t.



Lemma no_content_types_satisfy : types_satisfy P no_content_types.
Proof.
  repeat split; simpl; try apply map_Forall_empty. constructor.
Qed.


End Loaded.

(** X13. A line [T .ext] loaded into a registry, whatever it held,
    decides the type of the files with that suffix: after
    [_loadContentType] of the line, a file that can be read, does not start
    with [<?xml], whose base name has no type of its own and ends in
    [.ext], has content type [T]. *)
Theorem loaded_suffix_line_decides {H : Host} (re_compiles : string -> bool)
    (self : ContentTypesRegistry) (T ext path content : string) :
  is_word T ->
  Str.startswith "#" T = false ->
  Posix.has_space ext = false ->
  file_read path = Some content ->
  Str.startswith "<?xml" content = false ->
  filenameMap self !! path_basename path = None ->
  Str.mem "."%char (path_basename path) = true ->
  after_last_dot (path_basename path) = ext ->
  exists self',
    _loadContentType re_compiles (T +:+ " ." +:+ ext) self = Loaded self' /\
    get_content_type self' path = Ok (Some T).
Proof.
  intros HT Hc Hext Hread Hxml Hf Hdot Hsuf.
  unfold _loadContentType. rewrite (suffix_line_is_one_line T ext HT Hext).
  cbn [load_lines]. unfold load_line. rewrite (suffix_line_words T ext HT Hext).
  cbn [cut_comment]. rewrite Hc.
  change (Str.startswith "#" (String "."%char ext)) with false. cbv iota.
  cbn [register].
  change (Str.startswith "." (String "."%char ext)) with true. cbv iota zeta.
  eexists. split; [reflexivity|].
  apply (lookup_by_suffix _ path content T Hread Hxml); simpl; auto.
  - rewrite Hsuf. change ("." +:+ ext) with (String "."%char ext).
    destruct platform_win; apply lookup_insert_eq.
  - exact (proj1 HT).
Qed.

Lemma loaded_suffix_line_decides_witness :
  exists self',
    _loadContentType (H := Demo.host Samples.python_file) Samples.compiles
                     ("Cython" +:+ " ." +:+ "py") Demo.registry = Loaded self' /\
    get_content_type (H := Demo.host Samples.python_file) self' "lib/a.py"
    = Ok (Some "Cython").
Proof.
  apply (loaded_suffix_line_decides (H := Demo.host Samples.python_file) Samples.compiles
           Demo.registry "Cython" "py" "lib/a.py" "import os").
  - split; [discriminate | reflexivity].
  - reflexivity.
  - reflexivity.
  - vm_compute. reflexivity.
  - reflexivity.
  - vm_compute. reflexivity.
  - vm_compute. reflexivity.
  - vm_compute. reflexivity.
Defined.



(** Every type of the built-in table has its comment delimiters. *)
Lemma built_in_types_known (line t : string) (rest : list string) :
  In line (Text.splitlines DEFAULT_CONTENT_TYPES) ->
  cut_comment (Text.split (Text.strip line)) = t :: rest ->
  is_Some (assoc t _commentGroups).
Proof.
  assert (forallb (fun line => match cut_comment (Text.split (Text.strip line)) with
                               | [] => true
                               | t :: _ => bool_decide (is_Some (assoc t _commentGroups))
                               end)
                  (Text.splitlines DEFAULT_CONTENT_TYPES) = true) as Hall
    by (vm_compute; reflexivity).
  intros Hin Hw. rewrite forallb_forall in Hall. specialize (Hall line Hin).
  rewrite Hw in Hall. now apply bool_decide_eq_true in Hall.
Qed.

Lemma _loadContentType_lines {H : Host} (re_compiles : string -> bool)
    (content : string) (self : ContentTypesRegistry) :
  _loadContentType re_compiles content self
  = load_lines re_compiles (Text.splitlines content) self.
Proof. reflexivity. Qed.

Lemma built_in_registry_known {H : Host} (re_compiles : string -> bool)
    (module_file : string) (self : ContentTypesRegistry) :
  path_exists (path_join (path_dirname module_file) "content.types") = false ->
  _load re_compiles module_file [] = Loaded self ->
  types_satisfy (fun t => is_Some (assoc t _commentGroups)) self.
Proof.
  intros Hno Hl. apply _load_stages in Hl as (self0 & H0 & Hl).
  rewrite Hno in Hl. cbn [load_files] in Hl. injection Hl as <-.
  rewrite _loadContentType_lines in H0.
  refine (load_lines_satisfy re_compiles _ _ _ _ _ _ H0).
  - apply Forall_forall. intros line Hin t rest. apply built_in_types_known.
    apply list_elem_of_In. exact Hin.
  - apply no_content_types_satisfy.
Qed.

(** X15. The built-in table and the table of comment delimiters agree:
    with the registry of the built-in table alone (no [content.types]
    beside the module, no further file), [preprocess] finds the comment
    delimiters of every file it can read, so that the
    unknown-content-type error is never raised when no content type is
    passed. *)
Theorem built_in_types_have_delimiters {H : Host} (re_compiles : string -> bool)
    (module_file : string) (opts : options) (infile text : string)
    (out : list string) (d : gmap string value) (pf : list string) :
  path_exists (path_join (path_dirname module_file) "content.types") = false ->
  _load re_compiles module_file [] = Loaded (content_types_registry opts) ->
  path_normpath (path_abspath infile) ∉ pf ->
  file_read infile = Some text ->
  exists cgs,
    enter opts None infile out d pf
    = Ok (cgs, Str.readlines text,
          {| defines := <["__FILE__" := VStr infile]> d;
             states := [(EMIT, false, false)];
             fout := out;
             files := pf ++ [path_abspath infile] |}).
Proof.
  intros Hno Hl Hpf Hread.
  pose proof (built_in_registry_known re_compiles module_file _ Hno Hl) as Hs.
  clear Hl.
  unfold enter. cbv zeta. destruct (decide _) as [Hin|_]; [contradiction|].
  destruct (get_content_type_returns (content_types_registry opts) infile text Hread)
    as [t Ht].
  rewrite Ht. cbn [bind].
  assert (exists cgs, assoc (match t with Some t => t | None => "Text" end) _commentGroups
                      = Some cgs) as [cgs Hcgs].
  { destruct t as [t|].
    - apply (get_content_type_source _ _ _ _ Hs) in Ht; [exact Ht|].
      vm_compute. eexists. reflexivity.
    - vm_compute. eexists. reflexivity. }
  exists cgs. destruct t as [t|]; cbn [bind]; rewrite Hcgs, Hread; reflexivity.
Qed.

Lemma built_in_types_have_delimiters_witness :
  exists cgs,
    enter (H := Demo.host Samples.python_file) Samples.built_in_opts None "lib/a.py"
          [] Demo.no_defines []
    = Ok (cgs, Str.readlines "import os",
          {| defines := <["__FILE__" := VStr "lib/a.py"]> Demo.no_defines;
             states := [(EMIT, false, false)];
             fout := [];
             files := [] ++ [path_abspath (Host := Demo.host Samples.python_file) "lib/a.py"] |}).
Proof.
  apply (built_in_types_have_delimiters (H := Demo.host Samples.python_file)
           Samples.compiles "/w/pepe/__init__.py" Samples.built_in_opts "lib/a.py"
           "import os" [] Demo.no_defines []).
  - vm_compute. reflexivity.
  - vm_compute. reflexivity.
  - apply not_elem_of_nil.
  - vm_compute. reflexivity.
Defined.

(** ** Substitution *)

Lemma contains_cons (old : string) (c : ascii) (s : string) :
  Str.contains old (String c s) = false ->
  Str.startswith old (String c s) = false /\ Str.contains old s = false.
Proof.
  cbn [Str.contains]. destruct (Str.startswith old (String c s)); [discriminate|].
  auto.
Qed.

Lemma replace_from_absent (old new s : string) :
  Str.contains old s = false -> Str.replace_from old new 0 s = s.
Proof.
  induction s as [|c s IH]; [reflexivity|]. intros Hc.
  apply contains_cons in Hc as [Hs Hc]. cbn [Str.replace_from].
  now rewrite Hs, (IH Hc).
Qed.

(** [s.replace(old, new)] is [s] when [old] does not occur in [s]. *)
Lemma replace_absent (old new s : string) :
  Str.contains old s = false -> Str.replace old new s = s.
Proof.
  destruct old as [|a old]; [now destruct s|]. apply replace_from_absent.
Qed.

Lemma substitute_names_absent (defines : gmap string value) (names : list string)
    (line : string) :
  (forall name v, defines !! name = Some v -> Str.contains name line = false) ->
  fold_left (fun sline name =>
               match defines !! name with
               | Some value => Str.replace name (py_str value) sline
               | None => sline
               end) names line = line.
Proof.
  intros Habs. induction names as [|name names IH]; [reflexivity|].
  cbn [fold_left]. destruct (defines !! name) as [v|] eqn:Hv; [|exact IH].
  now rewrite (replace_absent _ _ _ (Habs _ _ Hv)).
Qed.

(** X16. Substitution needs an occurrence: a line in which no defined
    name occurs comes out of the substitution loop as it went in, whatever
    the values of the defines are. *)
Theorem line_without_names_is_not_substituted (defines : gmap string value)
    (line : string) :
  (forall name v, defines !! name = Some v -> Str.contains name line = false) ->
  substitute defines line = line.
Proof. intros Habs. unfold substitute. now apply substitute_names_absent. Qed.

Lemma line_without_names_is_not_substituted_witness :
  substitute (<["N" := VInt 5]> Demo.no_defines) "hello" = "hello".
Proof.
  apply (line_without_names_is_not_substituted (<["N" := VInt 5]> Demo.no_defines) "hello").
  intros name v Hl. apply lookup_insert_Some in Hl as [[<- _]|[_ Hl]].
  - reflexivity.
  - unfold Demo.no_defines in Hl. now rewrite lookup_empty in Hl.
Defined.

(** ** Definitions of the command line *)

Lemma lstrip_head (s r : string) (c : ascii) :
  Posix.lstrip s = String c r -> Posix.is_space c = false.
Proof.
  induction s as [|a s IH]; [discriminate|]. cbn [Posix.lstrip].
  destruct (Posix.is_space a) eqn:Ha; [exact IH|].
  intros Heq. inversion Heq; subst. exact Ha.
Qed.

Lemma rstrip_rstrip (s : string) : Posix.rstrip (Posix.rstrip s) = Posix.rstrip s.
Proof.
  induction s as [|c s IH]; [reflexivity|]. cbn [Posix.rstrip].
  destruct (Posix.rstrip s) as [|c' r] eqn:Hr.
  - destruct (Posix.is_space c) eqn:Hc; [reflexivity|].
    cbn [Posix.rstrip]. now rewrite Hc.
  - change (Posix.rstrip (String c (String c' r)))
      with (match Posix.rstrip (String c' r) with
            | EmptyString => if Posix.is_space c then EmptyString
                             else String c EmptyString
            | r0 => String c r0
            end).
    now rewrite IH.
Qed.

(** [s.strip()] has nothing left to strip. *)
Lemma strip_strip (s : string) : Text.strip (Text.strip s) = Text.strip s.
Proof.
  unfold Text.strip.
  assert (Posix.lstrip (Posix.rstrip (Posix.lstrip s)) = Posix.rstrip (Posix.lstrip s))
    as ->; [|apply rstrip_rstrip].
  destruct (Posix.rstrip (Posix.lstrip s)) as [|c r] eqn:Hr; [reflexivity|].
  destruct (rstrip_head _ _ _ Hr) as [s' Hs'].
  cbn [Posix.lstrip]. now rewrite (lstrip_head _ _ _ Hs').
Qed.

Lemma mem_lstrip (c : ascii) (s : string) :
  Str.mem c s = false -> Str.mem c (Posix.lstrip s) = false.
Proof.
  induction s as [|a s IH]; [reflexivity|]. intros Hm. cbn [Posix.lstrip].
  destruct (Posix.is_space a); [|exact Hm].
  apply IH. cbn [Str.mem] in Hm. now destruct (Ascii.eqb c a).
Qed.

Lemma mem_rstrip (c : ascii) (s : string) :
  Str.mem c s = false -> Str.mem c (Posix.rstrip s) = false.
Proof.
  induction s as [|a s IH]; [reflexivity|]. intros Hm. cbn [Str.mem] in Hm.
  destruct (Ascii.eqb c a) eqn:Hca; [discriminate|]. cbn [Posix.rstrip].
  destruct (Posix.rstrip s) as [|c' r] eqn:Hr.
  - destruct (Posix.is_space a); [reflexivity|]. cbn [Str.mem]. now rewrite Hca.
  - cbn [Str.mem]. rewrite Hca. exact (IH Hm).
Qed.

Lemma split_eq_name (s a b : string) :
  Text.split_eq s = Some (a, b) -> Str.mem "="%char a = false.
Proof.
  revert a. induction s as [|c s IH]; [discriminate|]. intros a. cbn [Text.split_eq].
  destruct (Ascii.eqb c "="%char) eqn:Hc.
  - intros Heq. now inversion Heq; subst.
  - destruct (Text.split_eq s) as [[a' b']|]; [|discriminate].
    intros Heq. inversion Heq; subst. cbn [Str.mem].
    rewrite Ascii.eqb_sym, Hc. now apply IH.
Qed.

Lemma split_eq_none (s : string) :
  Text.split_eq s = None -> Str.mem "="%char s = false.
Proof.
  induction s as [|c s IH]; [reflexivity|]. cbn [Text.split_eq].
  destruct (Ascii.eqb c "="%char) eqn:Hc; [discriminate|].
  destruct (Text.split_eq s) as [[a' b']|]; [discriminate|].
  intros _. cbn [Str.mem]. rewrite Ascii.eqb_sym, Hc. now apply IH.
Qed.

Section Definitions.
Variable py_int : string -> Z -> option Z.
Variable py_float : string -> option value.

Lemma parse_each_app (l1 l2 : list string) (defines : gmap string value) :
  parse_each py_int py_float (l1 ++ l2) defines
  = match parse_each py_int py_float l1 defines with
    | Parsed d => parse_each py_int py_float l2 d
    | ValueError msg => ValueError msg
    end.
Proof.
  revert defines. induction l1 as [|x l1 IH]; intros defines; [reflexivity|].
  cbn [app parse_each].
  destruct (parse_definition_expr py_int py_float x VNone) as [[k v]|msg];
    [apply IH | reflexivity].
Qed.

End Definitions.

(** X17. The symbol of a definition that is accepted is clean: it is not
    empty, holds no [=], and has no whitespace left at either end, whatever
    the expression and the default value were. *)
Theorem definition_symbol_is_clean (py_int : string -> Z -> option Z)
    (py_float : string -> option value) (expr : string) (default_value : value)
    (define : string) (v : value) :
  parse_definition_expr py_int py_float expr default_value = Parsed (define, v) ->
  define <> EmptyString /\ Str.mem "="%char define = false /\ Text.strip define = define.
Proof.
  unfold parse_definition_expr. cbv zeta.
  assert (forall name, Str.mem "="%char name = false ->
            (if String.eqb (Text.strip name) EmptyString
             then ValueError ("Invalid definition symbol `" +:+ name +:+ "`")
             else Parsed (Text.strip name, v)) = Parsed (define, v) ->
            define <> EmptyString /\ Str.mem "="%char define = false /\
            Text.strip define = define) as Hname.
  { intros name Hm. destruct (String.eqb (Text.strip name) EmptyString) eqn:He;
      [discriminate|].
    intros Heq. inversion Heq; subst. apply String.eqb_neq in He.
    repeat split; [exact He | | apply strip_strip].
    unfold Text.strip. now apply mem_rstrip, mem_lstrip. }
  destruct (Text.split_eq expr) as [[name val]|] eqn:Hs.
  - intros Hp. apply (Hname name (split_eq_name _ _ _ Hs)).
    destruct (String.eqb (Text.strip name) EmptyString); [discriminate|].
    inversion Hp; subst. reflexivity.
  - destruct (String.eqb expr EmptyString); [discriminate|].
    intros Hp. apply (Hname expr (split_eq_none _ Hs)).
    destruct (String.eqb (Text.strip expr) EmptyString); [discriminate|].
    inversion Hp; subst. reflexivity.
Qed.

Lemma definition_symbol_is_clean_witness :
  "FOOBAR" <> EmptyString /\ Str.mem "="%char "FOOBAR" = false /\
  Text.strip "FOOBAR" = "FOOBAR".
Proof.
  apply (definition_symbol_is_clean Samples.int_of Samples.no_float " FOOBAR=ah=3 " VNone
           "FOOBAR" (VStr "ah=3 ")).
  vm_compute. reflexivity.
Defined.

(** X18. [parse_definitions] applies the definitions in their order:
    the table of a list with one more expression at its end is the table of
    the list with the definition of that expression stored over it, so that
    the last definition of a symbol is the one that counts; a list with an
    expression that is refused is refused, with the message of the first
    one. *)
Theorem definitions_apply_in_order (py_int : string -> Z -> option Z)
    (py_float : string -> option value) (definitions : list string) (expr : string) :
  parse_definitions py_int py_float (Some (definitions ++ [expr]))
  = match parse_definitions py_int py_float (Some definitions) with
    | Parsed defines =>
        match parse_definition_expr py_int py_float expr VNone with
        | Parsed (define, v) => Parsed (<[define := v]> defines)
        | ValueError msg => ValueError msg
        end
    | ValueError msg => ValueError msg
    end.
Proof.
  unfold parse_definitions. rewrite parse_each_app.
  destruct (parse_each py_int py_float definitions ∅) as [d|msg]; [|reflexivity].
  cbn [parse_each].
  now destruct (parse_definition_expr py_int py_float expr VNone) as [[k v]|msg].
Qed.

(** The examples of the docstrings. *)

Example str_with_file_and_line :
  PreprocessorError_str "whatever" (Some (VStr "somefile.py")) (Some (VInt 20))
  = "somefile.py:20: whatever".
Proof. reflexivity. Qed.

Example str_with_line :
  PreprocessorError_str "whatever" None (Some (VInt 20)) = "20: whatever".
Proof. reflexivity. Qed.

Example str_with_file :
  PreprocessorError_str "whatever" (Some (VStr "somefile.py")) None
  = "somefile.py: whatever".
Proof. reflexivity. Qed.

Example str_bare : PreprocessorError_str "whatever" None None = "whatever".
Proof. reflexivity. Qed.

Example parse_int_token_hex : parse_int_token Samples.int_of "0x40" = Some 64%Z.
Proof. reflexivity. Qed.

Example parse_int_token_octal : parse_int_token Samples.int_of "040" = Some 32%Z.
Proof. reflexivity. Qed.

Example parse_int_token_word : parse_int_token Samples.int_of "foobar" = None.
Proof. reflexivity. Qed.

Example parse_bool_token_mixed : parse_bool_token "FAlse" = VBool false.
Proof. reflexivity. Qed.

Example parse_bool_token_other : parse_bool_token "FalS" = VStr "FalS".
Proof. reflexivity. Qed.

Example parse_definition_expr_number :
  parse_definition_expr Samples.int_of Samples.no_float "FOOBAR=0x40" VNone
  = Parsed ("FOOBAR", VInt 64).
Proof. reflexivity. Qed.

Example parse_definition_expr_second_equals :
  parse_definition_expr Samples.int_of Samples.no_float " FOOBAR=ah=3 " VNone
  = Parsed ("FOOBAR", VStr "ah=3 ").
Proof. reflexivity. Qed.

Example parse_definition_expr_default :
  parse_definition_expr Samples.int_of Samples.no_float "FOOBAR" (VInt 1)
  = Parsed ("FOOBAR", VInt 1).
Proof. reflexivity. Qed.

Example parse_definition_expr_blank :
  parse_definition_expr Samples.int_of Samples.no_float " " VNone
  = ValueError "Invalid definition symbol ` `".
Proof. reflexivity. Qed.

Example parse_definitions_two :
  parse_definitions Samples.int_of Samples.no_float (Some ["FOOBAR=0x40"; "DEBUG=false"])
  = Parsed (<["DEBUG" := VBool false]> (<["FOOBAR" := VInt 64]> ∅)).
Proof. reflexivity. Qed.

Example built_in_python :
  get_content_type (H := Demo.host [("pepe.py", "import os")]) Samples.built_in "pepe.py"
  = Ok (Some "Python").
Proof. vm_compute. reflexivity. Qed.
